(** * Paper-System-Backend: the Express handlers of the paper-review service

    The repository holds two historical variants of one server (attachments
    stored in Cloudinary, attachments stored on local disk) and the two
    Mongoose schemas of the [Paper] model that go with them.  This file embeds
    the route handlers of both variants as state-passing functions over an
    explicit document store and proves the properties of the authorization and
    attachment life cycle.

    Conventions.  A JavaScript value that may be [undefined] is an [option];
    a string is a [string] and its [length] is [String.length]; a time stamp
    ([Date.now()]) is an [N] of milliseconds.  An [async] handler whose
    promise is rejected has written no response of its own: that is the
    outcome [Unhandled]. *)

From Stdlib Require Import Arith NArith Bool List String Ascii DecimalString DecimalN Lia.
Import ListNotations.

Local Open Scope string_scope.
Local Open Scope N_scope.

Set Implicit Arguments.

(** ** ObjectId: the driver's 12-byte document identifier *)

Module ObjectId.

(** A 96-bit value, printed as 24 lower-case hexadecimal digits. *)
Definition t := N.

Definition eqb : t -> t -> bool := N.eqb.

Definition hexDigit (d : N) : ascii :=
  match String.get (N.to_nat d) "0123456789abcdef" with
  | Some c => c
  | None => "0"%char
  end.

Definition hexValue (c : ascii) : option N :=
  let n := N_of_ascii c in
  if (48 <=? n) && (n <=? 57) then Some (n - 48)
  else if (97 <=? n) && (n <=? 102) then Some (n - 87)
  else if (65 <=? n) && (n <=? 70) then Some (n - 55)
  else None.

(** [toHex k n acc]: the [k] low hexadecimal digits of [n], most significant
    first, in front of [acc]. *)
Fixpoint toHex (k : nat) (n : N) (acc : string) : string :=
  match k with
  | O => acc
  | S k' => toHex k' (n / 16) (String (hexDigit (n mod 16)) acc)
  end.

(** [_id.toString()] *)
Definition toString (o : t) : string := toHex 24 o "".

Fixpoint parseHex (s : string) (acc : N) : option N :=
  match s with
  | EmptyString => Some acc
  | String c s' =>
      match hexValue c with
      | Some d => parseHex s' (16 * acc + d)
      | None => None
      end
  end.

Fixpoint parseBytes (s : string) (acc : N) : N :=
  match s with
  | EmptyString => acc
  | String c s' => parseBytes s' (256 * acc + N_of_ascii c)
  end.

(** The cast Mongoose applies to a string where the schema or a query asks
    for an ObjectId: a string of 12 characters is taken as the 12 raw bytes,
    a string of 24 hexadecimal digits (either case) as their value, and
    anything else is a cast failure. *)
Definition cast (s : string) : option t :=
  if Nat.eqb (String.length s) 12 then Some (parseBytes s 0)
  else if Nat.eqb (String.length s) 24 then parseHex s 0
  else None.

(** An identifier the driver can hold: it fits 12 bytes. *)
Definition wf (o : t) : Prop := o < 2 ^ 96.

End ObjectId.

(** ** JavaScript values *)

(** Truthiness of a value that is [undefined] or a string, as in
    [if (req.body.note)]. *)
Definition truthy (v : option string) : bool :=
  match v with
  | Some s => negb (s =? "")%string
  | None => false
  end.

(** [a === b] on values that are [undefined] or strings. *)
Definition strictEq (a b : option string) : bool :=
  match a, b with
  | Some x, Some y => (x =? y)%string
  | None, None => true
  | _, _ => false
  end.

Definition showNat (n : nat) : string := NilEmpty.string_of_uint (Nat.to_uint n).

(** ** Signed claims ([jsonwebtoken]) *)

Module Claims.
(** The decoded payload of a token: [req.user]. *)
Record t := mk {
  _id : string;
  isAdmin : option bool;
  username : option string
}.
End Claims.

(** Truthiness of [req.user.isAdmin]. *)
Definition isAdminClaim (user : Claims.t) : bool :=
  match Claims.isAdmin user with
  | Some b => b
  | None => false
  end.

(** A token is a payload together with the key it was signed with; a token
    verifies against a key exactly when it was signed with that key. *)
Inductive Token := Signed (payload : Claims.t) (key : string).

Definition jwt_sign (payload : Claims.t) (key : string) : Token := Signed payload key.

Definition jwt_verify (token : Token) (key : string) : option Claims.t :=
  match token with
  | Signed payload k => if (k =? key)%string then Some payload else None
  end.

(** ** Documents *)

(** A path of a document after Mongoose has cast the value assigned to it. *)
Inductive Cast (A : Type) :=
| Undefined
| Value (a : A)
| CastFailed (raw : string).
Arguments Undefined {A}.
Arguments Value {A} a.
Arguments CastFailed {A} raw.

Definition castObjectId (v : option string) : Cast ObjectId.t :=
  match v with
  | None => Undefined
  | Some s =>
      match ObjectId.cast s with
      | Some o => Value o
      | None => CastFailed s
      end
  end.

(** The validators of a [String] path that is [required], with an optional
    [maxlength]: the result lists the path when it fails.  Mongoose's
    [required] rejects the empty string as well as [undefined]. *)
Definition validateString (path : string) (maxlength : option nat)
    (v : option string) : list string :=
  match v with
  | None => [path]
  | Some s =>
      if (s =? "")%string then [path]
      else match maxlength with
           | Some m => if Nat.ltb m (String.length s) then [path] else []
           | None => []
           end
  end.

Module User.
(** models/User is not among the sources: the paths are the ones the
    handlers read and write. *)
Record t := mk {
  _id : ObjectId.t;
  username : option string;
  password : string
}.

(** Modelled from the spec: the User schema, which is not among the
    sources; the spec's Identity has a required [username] and a required
    [passwordHash]. *)
Definition validate (u : t) : list string :=
  validateString "username" None (username u)
  ++ validateString "password" None (Some (password u)).
End User.

Module Upload.
(** An element of [req.files], as Multer's storage engine leaves it. *)
Record t := mk {
  path : string;
  filename : string;
  originalname : string
}.
End Upload.

(** What a file schema provides: the plain object a handler builds, its cast
    to a sub-document (Mongoose adds [_id] and the defaults), the
    sub-document's identifier and its validators. *)
Class FileSchema (F : Type) := {
  plain : Type;
  subdoc : ObjectId.t -> N -> plain -> F;
  sub_id : F -> ObjectId.t;
  sub_validate : F -> list string
}.

Module CloudFile.
(** [fileSchema] of the Cloudinary variant of models/Paper.js. *)
Record t := mk {
  _id : ObjectId.t;
  url : string;
  public_id : string;
  originalName : string
}.

Record obj := Obj {
  o_url : string;
  o_public_id : string;
  o_originalName : string
}.

Definition validate (f : t) : list string :=
  validateString "url" None (Some (url f))
  ++ validateString "public_id" None (Some (public_id f))
  ++ validateString "originalName" None (Some (originalName f)).

#[global] Instance schema : FileSchema t := {
  plain := obj;
  subdoc id _ o := mk id (o_url o) (o_public_id o) (o_originalName o);
  sub_id := _id;
  sub_validate := validate
}.
End CloudFile.

Module DiskFile.
(** [fileSchema] of the local-disk variant of models/Paper.js. *)
Record t := mk {
  _id : ObjectId.t;
  path : string;
  originalName : string;
  createdAt : N
}.

Record obj := Obj {
  o_path : string;
  o_originalName : string
}.

Definition validate (f : t) : list string :=
  validateString "path" None (Some (path f))
  ++ validateString "originalName" None (Some (originalName f)).

#[global] Instance schema : FileSchema t := {
  plain := obj;
  subdoc id now o := mk id (o_path o) (o_originalName o) now;
  sub_id := _id;
  sub_validate := validate
}.
End DiskFile.

Module Paper.
(** [paperSchema], the same in both variants but for the file schema. *)
Record t (F : Type) := mk {
  _id : ObjectId.t;
  moderatorId : Cast ObjectId.t;
  title : option string;
  note : option string;
  files : list F;
  createdAt : N;
  updatedAt : N
}.
Arguments mk {F}.

Definition set_note {F} (p : t F) (v : option string) : t F :=
  mk (_id p) (moderatorId p) (title p) v (files p) (createdAt p) (updatedAt p).

Definition set_files {F} (p : t F) (fs : list F) : t F :=
  mk (_id p) (moderatorId p) (title p) (note p) fs (createdAt p) (updatedAt p).

Definition set_updatedAt {F} (p : t F) (d : N) : t F :=
  mk (_id p) (moderatorId p) (title p) (note p) (files p) (createdAt p) d.

Fixpoint validateFiles {F} `{FileSchema F} (i : nat) (fs : list F) : list string :=
  match fs with
  | [] => []
  | f :: rest =>
      map (fun path => "files." ++ showNat i ++ "." ++ path)%string (sub_validate f)
      ++ validateFiles (S i) rest
  end.

Definition validate {F} `{FileSchema F} (p : t F) : list string :=
  match moderatorId p with
  | Value _ => []
  | _ => ["moderatorId"%string]
  end
  ++ validateString "title" (Some 100%nat) (title p)
  ++ validateString "note" (Some 500%nat) (note p)
  ++ validateFiles 0 (files p).
End Paper.

(** ** The process: environment, requests, responses, store *)

(** What the process takes from outside while it serves one request: its
    environment variables, the clock, and the external capabilities ([bcryptjs],
    Cloudinary's [uploader.destroy], which fails on the assets [destroy_fails]
    holds). *)
Record Env := {
  ADMIN_PASSWORD : option string;
  JWT_SECRET : option string;
  now : N;
  genSalt : string;
  bcrypt_hash : string -> string -> string;
  bcrypt_compare : string -> string -> bool;
  destroy_fails : string -> bool
}.

(** [process.env.JWT_SECRET || 'your-secret-key'] *)
Definition secret (env : Env) : string :=
  match JWT_SECRET env with
  | Some s => if (s =? "")%string then "your-secret-key" else s
  | None => "your-secret-key"
  end.

Module Body.
(** [req.body]: the fields the handlers read; an absent field is
    [undefined]. *)
Record t := mk {
  username : option string;
  password : option string;
  moderatorId : option string;
  title : option string;
  note : option string
}.
End Body.

(** [authorization] is the Authorization header once ['Bearer '] is removed
    ([None] when the header is absent or nothing is left); [files] is
    [req.files], which Multer leaves [undefined] on a request that is not
    multipart. *)
Record Request := {
  authorization : option Token;
  body : Body.t;
  files : option (list Upload.t)
}.

Inductive Error :=
| ValidationError (paths : list string)
| CastError (value : string)
| TypeError
| IllegalArguments
| UpstreamError (public_id : string).

Inductive Payload (F : Type) :=
| Text (message : string)
| TokenOnly (token : Token)
| TokenAndName (token : Token) (username : option string)
| UserName (username : option string)
| Moderators (list : list (ObjectId.t * option string))
| Message (message : string)
| PaperDoc (paper : Paper.t F)
| PaperDocs (papers : list (Paper.t F)).
Arguments Text {F}.
Arguments TokenOnly {F}.
Arguments TokenAndName {F}.
Arguments UserName {F}.
Arguments Moderators {F}.
Arguments Message {F}.

Record Response (F : Type) := { status : N; payload : Payload F }.

(** The two collections, the files the storage engine holds (the assets of
    Cloudinary by public id, the files of [uploads/] by path), and the counter
    new ObjectIds are drawn from. *)
Record World (F : Type) := {
  users : list User.t;
  papers : list (Paper.t F);
  assets : list string;
  nextId : N
}.

(** How a handler ends: it has written a response, or its promise was
    rejected with an error it did not catch and it has written nothing.  What
    becomes of the request in the second case is Express's business (version 4
    leaves it unanswered, version 5 hands the error to its default error
    handler, which answers 500). *)
Inductive Outcome (F : Type) :=
| Sent (r : Response F)
| Unhandled (e : Error).
Arguments Unhandled {F}.

(** The token a response hands out, if any. *)
Definition issuedToken {F} (r : Response F) : option Token :=
  match payload r with
  | TokenOnly token => Some token
  | TokenAndName token _ => Some token
  | _ => None
  end.

(** [req.files], with no upload when it is [undefined]. *)
Definition uploadsOf (req : Request) : list Upload.t :=
  match files req with
  | Some uploads => uploads
  | None => []
  end.

(** A create-paper body the schema rejects for its title or note being too
    long or a required field being missing. *)
Definition invalidFields (b : Body.t) : Prop :=
  (exists s, Body.title b = Some s /\ (100 < String.length s)%nat)
  \/ (exists s, Body.note b = Some s /\ (500 < String.length s)%nat)
  \/ Body.title b = None \/ Body.title b = Some ""
  \/ Body.note b = None \/ Body.note b = Some ""
  \/ Body.moderatorId b = None.

(** ** The handler monad: state, early [return res...send], exceptions *)

Inductive Step (F A : Type) :=
| Next (a : A)
| Reply (r : Response F)
| Throw (e : Error).
Arguments Next {F A}.
Arguments Reply {F A}.
Arguments Throw {F A}.

Definition Async (F A : Type) : Type := World F -> Step F A * World F.

Definition ret {F A} (a : A) : Async F A := fun w => (Next a, w).

Definition bind {F A B} (m : Async F A) (k : A -> Async F B) : Async F B :=
  fun w =>
    match m w with
    | (Next a, w') => k a w'
    | (Reply r, w') => (Reply r, w')
    | (Throw e, w') => (Throw e, w')
    end.

Notation "x <- m ;; k" := (bind m (fun x => k))
  (at level 61, m at next level, right associativity).

(** [return res.status(s).send(p)] *)
Definition reply {F A} (s : N) (p : Payload F) : Async F A :=
  fun w => (Reply {| status := s; payload := p |}, w).

Definition throw {F A} (e : Error) : Async F A := fun w => (Throw e, w).

(** [try { m } catch (error) { h }] *)
Definition try_catch {F A} (m : Async F A) (h : Error -> Async F A) : Async F A :=
  fun w =>
    match m w with
    | (Throw e, w') => h e w'
    | r => r
    end.

(** [if (c) m] *)
Definition when {F} (c : bool) (m : Async F unit) : Async F unit :=
  if c then m else ret tt.

(** [for (const x of l) await f(x)] *)
Fixpoint forEach {F A} (l : list A) (f : A -> Async F unit) : Async F unit :=
  match l with
  | [] => ret tt
  | x :: rest => _ <- f x ;; forEach rest f
  end.

(** A route handler never falls off its end: every path replies or throws. *)
Definition Handler (F : Type) : Type := Async F Empty_set.

Definition run {F} (h : Handler F) (w : World F) : Outcome F * World F :=
  match h w with
  | (Next a, _) => match a with end
  | (Reply r, w') => (Sent r, w')
  | (Throw e, w') => (Unhandled e, w')
  end.

(** ** The collections (Mongoose models) *)

Fixpoint removeFirst {A} (f : A -> bool) (l : list A) : list A :=
  match l with
  | [] => []
  | x :: rest => if f x then rest else x :: removeFirst f rest
  end.

Section Models.
Context {F : Type} `{FileSchema F}.

Definition set_users (w : World F) (us : list User.t) : World F :=
  {| users := us; papers := papers w; assets := assets w; nextId := nextId w |}.

Definition set_papers (w : World F) (ps : list (Paper.t F)) : World F :=
  {| users := users w; papers := ps; assets := assets w; nextId := nextId w |}.

Definition set_assets (w : World F) (a : list string) : World F :=
  {| users := users w; papers := papers w; assets := a; nextId := nextId w |}.

(** [new ObjectId()] *)
Definition newObjectId : Async F ObjectId.t :=
  fun w => (Next (nextId w),
            {| users := users w; papers := papers w; assets := assets w;
               nextId := nextId w + 1 |}).

Definition hasId (o : ObjectId.t) (p : Paper.t F) : bool :=
  ObjectId.eqb (Paper._id p) o.

Definition ownedBy (o : ObjectId.t) (p : Paper.t F) : bool :=
  match Paper.moderatorId p with
  | Value m => ObjectId.eqb m o
  | _ => false
  end.

(** [Paper.findById(id)] *)
Definition Paper_findById (id : string) : Async F (option (Paper.t F)) :=
  fun w =>
    match ObjectId.cast id with
    | None => (Throw (CastError id), w)
    | Some o => (Next (find (hasId o) (papers w)), w)
    end.

(** [Paper.findByIdAndDelete(id)] *)
Definition Paper_findByIdAndDelete (id : string) : Async F (option (Paper.t F)) :=
  fun w =>
    match ObjectId.cast id with
    | None => (Throw (CastError id), w)
    | Some o =>
        (Next (find (hasId o) (papers w)),
         set_papers w (removeFirst (hasId o) (papers w)))
    end.

(** [Paper.find({ moderatorId })] *)
Definition Paper_find (moderatorId : string) : Async F (list (Paper.t F)) :=
  fun w =>
    match ObjectId.cast moderatorId with
    | None => (Throw (CastError moderatorId), w)
    | Some o => (Next (filter (ownedBy o) (papers w)), w)
    end.

(** [Paper.deleteMany({ moderatorId })] *)
Definition Paper_deleteMany (moderatorId : string) : Async F unit :=
  fun w =>
    match ObjectId.cast moderatorId with
    | None => (Throw (CastError moderatorId), w)
    | Some o =>
        (Next tt, set_papers w (filter (fun p => negb (ownedBy o p)) (papers w)))
    end.

Fixpoint upsert (p : Paper.t F) (l : list (Paper.t F)) : list (Paper.t F) :=
  match l with
  | [] => [p]
  | q :: rest =>
      if hasId (Paper._id p) q then p :: rest else q :: upsert p rest
  end.

(** [paper.save()]: the document is validated and, when valid, written
    back whole (in place when the collection holds it, at the end when it
    is new). *)
Definition Paper_save (p : Paper.t F) : Async F unit :=
  fun w =>
    match Paper.validate p with
    | [] => (Next tt, set_papers w (upsert p (papers w)))
    | paths => (Throw (ValidationError paths), w)
    end.

(** The casting of plain objects to sub-documents, each with a new [_id]. *)
Fixpoint castFiles (now : N) (objs : list plain) : Async F (list F) :=
  match objs with
  | [] => ret []
  | o :: rest =>
      id <- newObjectId ;;
      fs <- castFiles now rest ;;
      ret (subdoc id now o :: fs)
  end.

(** What [castFiles] builds when the counter stands at [n]. *)
Fixpoint subdocsFrom (n : N) (now : N) (objs : list plain) : list F :=
  match objs with
  | [] => []
  | o :: rest => subdoc n now o :: subdocsFrom (n + 1) now rest
  end.

(** The world once [k] identifiers have been drawn. *)
Definition drawn (k : N) (w : World F) : World F :=
  {| users := users w; papers := papers w; assets := assets w;
     nextId := nextId w + k |}.

(** [new Paper({ moderatorId, title, note, files })]: a new [_id], the
    values cast, and [Date.now] for both dates. *)
Definition Paper_new (now : N) (moderatorId title note : option string)
    (files : list plain) : Async F (Paper.t F) :=
  id <- newObjectId ;;
  fs <- castFiles now files ;;
  ret (Paper.mk id (castObjectId moderatorId) title note fs now now).

(** The document POST /api/papers builds when the counter stands at [n]. *)
Definition created (n : N) (now : N) (moderatorId title note : option string)
    (files : list plain) : Paper.t F :=
  Paper.mk n (castObjectId moderatorId) title note
    (subdocsFrom (n + 1) now files) now now.

(** The document PUT /api/papers/:id writes back: the note replaced when the
    request's is truthy, the new sub-documents after the old ones, the date
    refreshed. *)
Definition updated (now : N) (note : option string) (newFiles : list F)
    (p : Paper.t F) : Paper.t F :=
  let p := if truthy note then Paper.set_note p note else p in
  Paper.set_updatedAt (Paper.set_files p (Paper.files p ++ newFiles)) now.

(** [paper.files.push(...newFiles)] *)
Definition files_push (now : N) (p : Paper.t F) (newFiles : list plain)
    : Async F (Paper.t F) :=
  fs <- castFiles now newFiles ;;
  ret (Paper.set_files p (Paper.files p ++ fs)).

(** [paper.files.id(fileId)]: the first sub-document whose [_id] is the
    cast of [fileId]; [null] when there is none or the cast fails. *)
Definition files_id (fs : list F) (fileId : string) : option F :=
  match ObjectId.cast fileId with
  | Some o => find (fun f => ObjectId.eqb (sub_id f) o) fs
  | None => None
  end.

(** No attachment of [fs] has the identifier [fileId] spells. *)
Definition unknownFile (fileId : string) (fs : list F) : Prop :=
  forall f, In f fs -> ObjectId.cast fileId <> Some (sub_id f).

(** [file.remove()]: pulls from the parent array what has the file's
    [_id]. *)
Definition file_remove (p : Paper.t F) (file : F) : Paper.t F :=
  Paper.set_files p
    (filter (fun f => negb (ObjectId.eqb (sub_id f) (sub_id file))) (Paper.files p)).

(** [paper.files.findIndex((f) => f._id.toString() === fileId)] *)
Fixpoint findIndex (fileId : string) (fs : list F) : option nat :=
  match fs with
  | [] => None
  | f :: rest =>
      if (ObjectId.toString (sub_id f) =? fileId)%string then Some O
      else option_map S (findIndex fileId rest)
  end.

(** [paper.files.splice(fileIndex, 1)] *)
Definition splice1 (i : nat) (fs : list F) : list F :=
  firstn i fs ++ skipn (S i) fs.

(** [User.findOne({ username })]; an undefined [username] goes to the
    database as [null], which only a document without a username matches. *)
Definition User_findOne (username : option string) : Async F (option User.t) :=
  fun w => (Next (find (fun u => strictEq (User.username u) username) (users w)), w).

(** [User.find({}, '-password')] *)
Definition User_find : Async F (list (ObjectId.t * option string)) :=
  fun w => (Next (map (fun u => (User._id u, User.username u)) (users w)), w).

(** [User.findByIdAndDelete(id)] *)
Definition User_findByIdAndDelete (id : string) : Async F (option User.t) :=
  fun w =>
    match ObjectId.cast id with
    | None => (Throw (CastError id), w)
    | Some o =>
        let same u := ObjectId.eqb (User._id u) o in
        (Next (find same (users w)), set_users w (removeFirst same (users w)))
    end.

(** [new User({ username, password })] followed by [user.save()] *)
Definition User_create (username : option string) (password : string)
    : Async F User.t :=
  id <- newObjectId ;;
  let user := User.mk id username password in
  match User.validate user with
  | [] => fun w => (Next user, set_users w (users w ++ [user]))
  | paths => throw (ValidationError paths)
  end.

(** The store once the storage engine holds the files of [req]; [stored]
    names the file an upload has become. *)
Definition afterUpload (stored : Upload.t -> string) (req : Request)
    (w : World F) : World F :=
  set_assets w (assets w ++ map stored (uploadsOf req)).

(** The middleware [upload.array('files')]: by the time it calls [next()]
    the storage engine has stored every file of the request, and [req.files]
    describes them.  A request that is not multipart has none.  When the
    engine fails on a file Multer hands the error to Express and the handler
    is not run: a [Request] stands for a request whose files the engine has
    taken. *)
Definition upload (stored : Upload.t -> string) (req : Request) : Async F unit :=
  fun w => (Next tt, afterUpload stored req w).

(** [cloudinary.uploader.destroy(public_id)] *)
Definition destroy (env : Env) (public_id : string) : Async F unit :=
  fun w =>
    if destroy_fails env public_id then (Throw (UpstreamError public_id), w)
    else (Next tt,
          set_assets w (filter (fun a => negb (a =? public_id)%string) (assets w))).

End Models.

(** ** Routes whose text is the same in both variants *)

Section Routes.
Context {F : Type} `{FileSchema F}.
Variable env : Env.

(** The JWT middleware [authenticate]; [ret decoded] is
    [req.user = decoded; next()]. *)
Definition authenticate (req : Request) : Async F Claims.t :=
  match authorization req with
  | None => reply 401 (Text "Access denied. No token provided.")
  | Some token =>
      match jwt_verify token (secret env) with
      | Some decoded => ret decoded
      | None => reply 400 (Text "Invalid token.")
      end
  end.

(** The request carries a token that verifies and decodes to [user]. *)
Definition authenticated (req : Request) (user : Claims.t) : Prop :=
  exists token,
    authorization req = Some token /\ jwt_verify token (secret env) = Some user.

(** The request passes the middleware and the admin guard and carries an
    array of uploads. *)
Definition cleared (req : Request) : Prop :=
  exists user uploads,
    authenticated req user /\ isAdminClaim user = true
    /\ files req = Some uploads.

(** [if (!req.user.isAdmin) return res.status(403).send('Access denied.')] *)
Definition requireAdmin (user : Claims.t) : Async F unit :=
  when (negb (isAdminClaim user)) (reply 403 (Text "Access denied.")).

(** POST /api/admin/login *)
Definition adminLogin (req : Request) : Handler F :=
  if negb (strictEq (Body.username (body req)) (Some "admin"))
     || negb (strictEq (Body.password (body req)) (ADMIN_PASSWORD env))
  then reply 400 (Text "Invalid credentials")
  else
    let token := jwt_sign (Claims.mk "admin" (Some true) None) (secret env) in
    reply 200 (TokenOnly token).

(** [bcrypt.compare(password, hash)], which rejects when [password] is not
    a string. *)
Definition compare (password : option string) (hash : string) : Async F bool :=
  match password with
  | Some s => ret (bcrypt_compare env s hash)
  | None => throw IllegalArguments
  end.

(** [bcrypt.genSalt(10)] then [bcrypt.hash(password, salt)] *)
Definition hash (password : option string) : Async F string :=
  match password with
  | Some s => ret (bcrypt_hash env s (genSalt env))
  | None => throw IllegalArguments
  end.

(** POST /api/moderators/login *)
Definition moderatorLogin (req : Request) : Handler F :=
  found <- User_findOne (Body.username (body req)) ;;
  match found with
  | None => reply 400 (Text "Invalid username or password.")
  | Some moderator =>
      validPassword <- compare (Body.password (body req)) (User.password moderator) ;;
      if negb validPassword then reply 400 (Text "Invalid username or password.")
      else
        let token :=
          jwt_sign (Claims.mk (ObjectId.toString (User._id moderator)) None
                              (User.username moderator))
                   (secret env) in
        reply 200 (TokenAndName token (User.username moderator))
  end.

(** POST /api/moderators *)
Definition createModerator (req : Request) : Handler F :=
  user <- authenticate req ;;
  _ <- requireAdmin user ;;
  found <- User_findOne (Body.username (body req)) ;;
  match found with
  | Some _ => reply 400 (Text "Moderator already registered.")
  | None =>
      hashedPassword <- hash (Body.password (body req)) ;;
      user <- User_create (Body.username (body req)) hashedPassword ;;
      reply 200 (UserName (User.username user))
  end.

(** GET /api/moderators *)
Definition listModerators (req : Request) : Handler F :=
  user <- authenticate req ;;
  _ <- requireAdmin user ;;
  moderators <- User_find ;;
  reply 200 (Moderators moderators).

(** DELETE /api/moderators/:id *)
Definition deleteModerator (id : string) (req : Request) : Handler F :=
  user <- authenticate req ;;
  _ <- requireAdmin user ;;
  found <- User_findByIdAndDelete id ;;
  match found with
  | None => reply 404 (Text "Moderator not found.")
  | Some _ =>
      _ <- Paper_deleteMany id ;;
      reply 200 (Message "Moderator deleted successfully")
  end.

(** POST /api/papers, registered as [authenticate, upload.array('files'),
    handler]; [stored] is the variant's storage engine and [toObj] the object
    literal the variant maps each upload to. *)
Definition createPaper (stored : Upload.t -> string) (toObj : Upload.t -> plain)
    (req : Request) : Handler F :=
  user <- authenticate req ;;
  _ <- upload stored req ;;
  _ <- requireAdmin user ;;
  match files req with
  | None => throw TypeError
  | Some uploads =>
      let files := map toObj uploads in
      paper <- Paper_new (now env) (Body.moderatorId (body req))
                 (Body.title (body req)) (Body.note (body req)) files ;;
      _ <- Paper_save paper ;;
      reply 200 (PaperDoc paper)
  end.

(** GET /api/papers/moderator/:moderatorId *)
Definition listPapers (moderatorId : string) (req : Request) : Handler F :=
  user <- authenticate req ;;
  _ <- when (negb (isAdminClaim user)
             && negb (Claims._id user =? moderatorId)%string)
         (reply 403 (Text "Access denied.")) ;;
  papers <- Paper_find moderatorId ;;
  reply 200 (PaperDocs papers).

End Routes.

(** What PUT /api/papers/:id does to an existing paper [p]: either the
    request is refused or fails, and the papers are as they were, or the
    document [updated] is written back in place of [p]. *)
Definition updateOutcome {F : Type} `{FileSchema F} (stored : Upload.t -> string)
    (toObj : Upload.t -> plain)
    (env : Env) (req : Request) (p : Paper.t F) (w : World F)
    (result : Outcome F * World F) : Prop :=
  let p' := updated (now env) (Body.note (body req))
              (subdocsFrom (nextId w) (now env) (map toObj (uploadsOf req))) p in
  (result = (Sent {| status := 200; payload := PaperDoc p' |},
             set_papers (drawn (N.of_nat (List.length (uploadsOf req)))
                               (afterUpload stored req w))
                        (upsert p' (papers w))))
  \/ (papers (snd result) = papers w
      /\ forall r, fst result = Sent r -> status r <> 200).

(** ** The Cloudinary variant *)

Module Cloudinary.

Abbreviation File := CloudFile.t.

Definition toObj (file : Upload.t) : CloudFile.obj :=
  CloudFile.Obj (Upload.path file) (Upload.filename file) (Upload.originalname file).

(** [CloudinaryStorage]: the asset an upload has become, by the public id
    the engine reports as [file.filename]. *)
Definition stored (file : Upload.t) : string := Upload.filename file.

(** POST /api/papers *)
Definition createPaper (env : Env) (req : Request) : Handler File :=
  createPaper (F := File) env stored toObj req.

(** PUT /api/papers/:id, registered as [authenticate, upload.array('files'),
    handler] *)
Definition updatePaper (env : Env) (id : string) (req : Request) : Handler File :=
  user <- authenticate env req ;;
  _ <- upload (F := File) stored req ;;
  _ <- requireAdmin user ;;
  found <- Paper_findById (F := File) id ;;
  match found with
  | None => reply 404 (Text "Paper not found.")
  | Some paper =>
      let paper :=
        if truthy (Body.note (body req))
        then Paper.set_note paper (Body.note (body req)) else paper in
      match files req with
      | None => throw TypeError
      | Some uploads =>
          paper <- (if Nat.ltb 0 (List.length uploads)
                    then files_push (now env) paper (map toObj uploads)
                    else ret paper) ;;
          let paper := Paper.set_updatedAt paper (now env) in
          _ <- Paper_save paper ;;
          reply 200 (PaperDoc paper)
      end
  end.

(** DELETE /api/papers/:paperId/files/:fileId *)
Definition deleteFile (env : Env) (paperId fileId : string) (req : Request)
    : Handler File :=
  user <- authenticate env req ;;
  try_catch
    (found <- Paper_findById (F := File) paperId ;;
     match found with
     | None => reply 404 (Text "Paper not found.")
     | Some paper =>
         match files_id (Paper.files paper) fileId with
         | None => reply 404 (Text "File not found.")
         | Some file =>
             _ <- destroy env (CloudFile.public_id file) ;;
             let paper := file_remove paper file in
             _ <- Paper_save paper ;;
             reply 200 (Message "File deleted successfully")
         end
     end)
    (fun error => reply 500 (Text "Error deleting file")).

(** DELETE /api/papers/:id *)
Definition deletePaper (env : Env) (id : string) (req : Request) : Handler File :=
  user <- authenticate env req ;;
  _ <- requireAdmin user ;;
  found <- Paper_findByIdAndDelete (F := File) id ;;
  match found with
  | None => reply 404 (Text "Paper not found.")
  | Some paper =>
      _ <- forEach (Paper.files paper)
             (fun file => destroy env (CloudFile.public_id file)) ;;
      reply 200 (Message "Paper deleted successfully")
  end.

End Cloudinary.

(** ** The local-disk variant *)

Module LocalDisk.

Abbreviation File := DiskFile.t.

Definition toObj (file : Upload.t) : DiskFile.obj :=
  DiskFile.Obj (Upload.path file) (Upload.originalname file).

(** [multer.diskStorage]: the file of [uploads/] an upload has become, by
    the path the engine reports as [file.path]. *)
Definition stored (file : Upload.t) : string := Upload.path file.

(** POST /api/papers *)
Definition createPaper (env : Env) (req : Request) : Handler File :=
  createPaper (F := File) env stored toObj req.

(** PUT /api/papers/:id, registered as [authenticate, upload.array('files'),
    handler] *)
Definition updatePaper (env : Env) (id : string) (req : Request) : Handler File :=
  user <- authenticate env req ;;
  _ <- upload (F := File) stored req ;;
  _ <- requireAdmin user ;;
  try_catch
    (found <- Paper_findById (F := File) id ;;
     match found with
     | None => reply 404 (Text "Paper not found.")
     | Some paper =>
         let paper :=
           if truthy (Body.note (body req))
           then Paper.set_note paper (Body.note (body req)) else paper in
         paper <- (match files req with
                   | Some uploads =>
                       if Nat.ltb 0 (List.length uploads)
                       then files_push (now env) paper (map toObj uploads)
                       else ret paper
                   | None => ret paper
                   end) ;;
         let paper := Paper.set_updatedAt paper (now env) in
         _ <- Paper_save paper ;;
         reply 200 (PaperDoc paper)
     end)
    (fun error => reply 500 (Text "Error updating paper")).

(** DELETE /api/papers/:paperId/files/:fileId *)
Definition deleteFile (env : Env) (paperId fileId : string) (req : Request)
    : Handler File :=
  user <- authenticate env req ;;
  _ <- requireAdmin user ;;
  try_catch
    (found <- Paper_findById (F := File) paperId ;;
     match found with
     | None => reply 404 (Text "Paper not found.")
     | Some paper =>
         match findIndex fileId (Paper.files paper) with
         | None => reply 404 (Text "File not found.")
         | Some fileIndex =>
             let paper :=
               Paper.set_files paper (splice1 fileIndex (Paper.files paper)) in
             _ <- Paper_save paper ;;
             reply 200 (Message "File deleted successfully")
         end
     end)
    (fun error => reply 500 (Text "Error deleting file")).

(** DELETE /api/papers/:id *)
Definition deletePaper (env : Env) (id : string) (req : Request) : Handler File :=
  user <- authenticate env req ;;
  _ <- requireAdmin user ;;
  found <- Paper_findByIdAndDelete (F := File) id ;;
  match found with
  | None => reply 404 (Text "Paper not found.")
  | Some paper => reply 200 (Message "Paper deleted successfully")
  end.

End LocalDisk.

(** ** The file names of the local-disk storage *)

(** A number in a template literal: its decimal digits. *)
Definition showN (n : N) : string := NilEmpty.string_of_uint (N.to_uint n).

(** The [filename] callback of [multer.diskStorage]:
    [`${Date.now()}-${file.originalname}`]. *)
Definition diskFilename (now : N) (originalname : string) : string :=
  (showN now ++ "-" ++ originalname)%string.

(** A string without the character [-]. *)
Definition noDash (s : string) : Prop :=
  ~ In "-"%char (list_ascii_of_string s).

(** ** The route table *)

(** The routes both variants register, with their path parameters. *)
Inductive Route :=
| AdminLogin
| ModeratorLogin
| CreateModerator
| ListModerators
| DeleteModerator (id : string)
| CreatePaper
| UpdatePaper (id : string)
| DeleteFile (paperId fileId : string)
| ListPapers (moderatorId : string)
| DeletePaper (id : string).

(** The routes registered with the [authenticate] middleware. *)
Definition protected (route : Route) : bool :=
  match route with
  | AdminLogin | ModeratorLogin => false
  | _ => true
  end.

(** The [app] of the Cloudinary variant. *)
Definition cloudinaryApp (env : Env) (route : Route) (req : Request)
    : Handler CloudFile.t :=
  match route with
  | AdminLogin => adminLogin env req
  | ModeratorLogin => moderatorLogin env req
  | CreateModerator => createModerator env req
  | ListModerators => listModerators env req
  | DeleteModerator id => deleteModerator env id req
  | CreatePaper => Cloudinary.createPaper env req
  | UpdatePaper id => Cloudinary.updatePaper env id req
  | DeleteFile paperId fileId => Cloudinary.deleteFile env paperId fileId req
  | ListPapers moderatorId => listPapers env moderatorId req
  | DeletePaper id => Cloudinary.deletePaper env id req
  end.

(** The [app] of the local-disk variant. *)
Definition localDiskApp (env : Env) (route : Route) (req : Request)
    : Handler DiskFile.t :=
  match route with
  | AdminLogin => adminLogin env req
  | ModeratorLogin => moderatorLogin env req
  | CreateModerator => createModerator env req
  | ListModerators => listModerators env req
  | DeleteModerator id => deleteModerator env id req
  | CreatePaper => LocalDisk.createPaper env req
  | UpdatePaper id => LocalDisk.updatePaper env id req
  | DeleteFile paperId fileId => LocalDisk.deleteFile env paperId fileId req
  | ListPapers moderatorId => listPapers env moderatorId req
  | DeletePaper id => LocalDisk.deletePaper env id req
  end.

(** The routes that start with the admin guard, in each variant: the
    Cloudinary variant has none on the removal of an attachment. *)
Definition cloudinaryAdminOnly (route : Route) : bool :=
  match route with
  | AdminLogin | ModeratorLogin | ListPapers _ | DeleteFile _ _ => false
  | _ => true
  end.

Definition localDiskAdminOnly (route : Route) : bool :=
  match route with
  | AdminLogin | ModeratorLogin | ListPapers _ => false
  | _ => true
  end.

(** The store after a sequence of requests, each served in its own
    environment. *)
Fixpoint serve {F : Type} (app : Env -> Route -> Request -> Handler F)
    (requests : list (Env * Route * Request)) (w : World F) : World F :=
  match requests with
  | [] => w
  | (env, route, req) :: rest => serve app rest (snd (run (app env route req) w))
  end.

(** The response [authenticate] writes to a request it turns away. *)
Definition refusal {F : Type} (env : Env) (req : Request) : option (Response F) :=
  match authorization req with
  | None =>
      Some {| status := 401; payload := Text "Access denied. No token provided." |}
  | Some token =>
      match jwt_verify token (secret env) with
      | Some _ => None
      | None => Some {| status := 400; payload := Text "Invalid token." |}
      end
  end.

(** A computation whose every run relates the store before to the store
    after by [R]. *)
Definition respects {F A : Type} (R : World F -> World F -> Prop)
    (m : Async F A) : Prop :=
  forall w, R w (snd (m w)).

(** Every stored paper passes the schema's validators. *)
Definition validStore {F : Type} `{FileSchema F} (w : World F) : Prop :=
  forall p, In p (papers w) -> Paper.validate p = [].

(** What the validators of [paperSchema] ask of a document. *)
Definition withinSchema {F : Type} `{FileSchema F} (p : Paper.t F) : Prop :=
  (exists o, Paper.moderatorId p = Value o)
  /\ (exists t, Paper.title p = Some t /\ t <> ""
                /\ (String.length t <= 100)%nat)
  /\ (exists n, Paper.note p = Some n /\ n <> ""
                /\ (String.length n <= 500)%nat)
  /\ Forall (fun f => sub_validate f = []) (Paper.files p).

(** The store after is valid when the store before was. *)
Definition staysValid {F : Type} `{FileSchema F} (w w' : World F) : Prop :=
  validStore w -> validStore w'.

(** The store after has the users of the store before. *)
Definition sameUsers {F : Type} (w w' : World F) : Prop := users w' = users w.

(** The store after has the papers of the store before. *)
Definition samePapers {F : Type} (w w' : World F) : Prop := papers w' = papers w.

(** The store after is the store before. *)
Definition untouched {F : Type} (w w' : World F) : Prop := w' = w.

(** The routes that only read. *)
Definition readOnly (route : Route) : bool :=
  match route with
  | AdminLogin | ModeratorLogin | ListModerators | ListPapers _ => true
  | _ => false
  end.

(** The routes that write to the user collection. *)
Definition writesUsers (route : Route) : bool :=
  match route with
  | CreateModerator | DeleteModerator _ => true
  | _ => false
  end.

(** The routes that write to the paper collection. *)
Definition writesPapers (route : Route) : bool :=
  match route with
  | DeleteModerator _ | CreatePaper | UpdatePaper _ | DeleteFile _ _
  | DeletePaper _ => true
  | _ => false
  end.

(** The routes registered with [upload.array('files')] between
    [authenticate] and the handler. *)
Definition takesFiles (route : Route) : bool :=
  match route with
  | CreatePaper | UpdatePaper _ => true
  | _ => false
  end.

(** The store as the handler of [route] finds it, for a request that has
    passed [authenticate]: the files of the request are stored by then on the
    routes that take files. *)
Definition reached {F : Type} (stored : Upload.t -> string) (route : Route)
    (req : Request) (w : World F) : World F :=
  if takesFiles route then afterUpload stored req w else w.

(** A note the schema lets an update carry: none, or one of at most 500
    characters. *)
Definition noteFits (note : option string) : Prop :=
  forall s, note = Some s -> (String.length s <= 500)%nat.

(** [a] is none of [public_ids]. *)
Definition noneOf (public_ids : list string) (a : string) : bool :=
  negb (existsb (String.eqb a) public_ids).

(** A computation that never ends in an exception. *)
Definition noThrow {F A : Type} (m : Async F A) : Prop :=
  forall w e, fst (m w) <> Throw e.

(** The routes whose handler has no operation that can throw outside a
    [try], in each variant. *)
Definition cloudinaryCatchesAll (route : Route) : bool :=
  match route with
  | AdminLogin | ListModerators | DeleteFile _ _ => true
  | _ => false
  end.

Definition localDiskCatchesAll (route : Route) : bool :=
  match route with
  | AdminLogin | ListModerators | UpdatePaper _ | DeleteFile _ _ => true
  | _ => false
  end.

(** The path parameter a route casts to an ObjectId first. *)
Definition routeId (route : Route) : option string :=
  match route with
  | DeleteModerator id | UpdatePaper id | DeletePaper id => Some id
  | DeleteFile paperId _ => Some paperId
  | ListPapers moderatorId => Some moderatorId
  | _ => None
  end.

(** The routes that look a paper up by the id in their path. *)
Definition paperRoute (route : Route) : bool :=
  match route with
  | UpdatePaper _ | DeleteFile _ _ | DeletePaper _ => true
  | _ => false
  end.

(** ** A small installation, for the examples *)

Module Sample.

Definition env : Env := {|
  ADMIN_PASSWORD := Some "s3cret";
  JWT_SECRET := Some "k";
  now := 1000;
  genSalt := "salt";
  bcrypt_hash := fun password salt => (salt ++ "$" ++ password)%string;
  bcrypt_compare := fun password hashed => ("salt$" ++ password =? hashed)%string;
  destroy_fails := fun _ => false
|}.

(** The same installation four seconds later. *)
Definition later : Env := {|
  ADMIN_PASSWORD := Some "s3cret";
  JWT_SECRET := Some "k";
  now := 5000;
  genSalt := "salt";
  bcrypt_hash := bcrypt_hash env;
  bcrypt_compare := bcrypt_compare env;
  destroy_fails := fun _ => false
|}.

(** The same, with Cloudinary unreachable. *)
Definition offline : Env := {|
  ADMIN_PASSWORD := Some "s3cret";
  JWT_SECRET := Some "k";
  now := 5000;
  genSalt := "salt";
  bcrypt_hash := bcrypt_hash env;
  bcrypt_compare := bcrypt_compare env;
  destroy_fails := fun _ => true
|}.

(** The same, with Cloudinary failing on one asset only. *)
Definition flaky : Env := {|
  ADMIN_PASSWORD := Some "s3cret";
  JWT_SECRET := Some "k";
  now := 5000;
  genSalt := "salt";
  bcrypt_hash := bcrypt_hash env;
  bcrypt_compare := bcrypt_compare env;
  destroy_fails := fun public_id => (public_id =? "event-papers/a")%string
|}.

Definition alice : User.t := User.mk 7 (Some "alice") "salt$wonderland".
Definition bob : User.t := User.mk 8 (Some "bob") "salt$builder".

Definition aliceId : string := "000000000000000000000007".
Definition bobId : string := "000000000000000000000008".
Definition paperId : string := "000000000000000000000001".
Definition fileA : string := "000000000000000000000002".
Definition fileB : string := "000000000000000000000003".
Definition nobody : string := "507f1f77bcf86cd799439011".

Definition adminClaims : Claims.t := Claims.mk "admin" (Some true) None.
Definition bobClaims : Claims.t := Claims.mk bobId None (Some "bob").

Definition noBody : Body.t := Body.mk None None None None None.

Definition asAdmin (b : Body.t) (uploads : option (list Upload.t)) : Request :=
  {| authorization := Some (jwt_sign adminClaims "k"); body := b; files := uploads |}.

Definition asBob (b : Body.t) (uploads : option (list Upload.t)) : Request :=
  {| authorization := Some (jwt_sign bobClaims "k"); body := b; files := uploads |}.

Definition upA : Upload.t := Upload.mk "https://res.example/a.pdf" "event-papers/a" "a.pdf".
Definition upB : Upload.t := Upload.mk "https://res.example/b.pdf" "event-papers/b" "b.pdf".
Definition upC : Upload.t := Upload.mk "https://res.example/c.pdf" "event-papers/c" "c.pdf".

Definition longTitle : string := string_of_list_ascii (repeat "x"%char 101).

(** A paper for Alice, a paper for an id that names no moderator, and a
    paper whose title has 101 characters. *)
Definition forAlice : Body.t := Body.mk None None (Some aliceId) (Some "T") (Some "N").
Definition forNobody : Body.t := Body.mk None None (Some nobody) (Some "T") (Some "N").
Definition tooLong : Body.t := Body.mk None None (Some aliceId) (Some longTitle) (Some "N").

(** The credentials of Bob and of the admin. *)
Definition bobLogin : Request :=
  {| authorization := None;
     body := Body.mk (Some "bob") (Some "builder") None None None;
     files := None |}.

Definition adminLoginRequest : Request :=
  {| authorization := None;
     body := Body.mk (Some "admin") (Some "s3cret") None None None;
     files := None |}.

(** An update that carries one upload and no note. *)
Definition addC : Request := asAdmin noBody (Some [upC]).

(** The same for the local-disk variant, whose uploads have a path in
    [uploads/]. *)
Definition diskC : Upload.t := Upload.mk "uploads/5000-c.pdf" "5000-c.pdf" "c.pdf".
Definition addDiskC : Request := asAdmin noBody (Some [diskC]).

Definition cloudPaper : Paper.t CloudFile.t :=
  Paper.mk 1 (Value 7) (Some "T") (Some "N")
    [CloudFile.mk 2 "https://res.example/a.pdf" "event-papers/a" "a.pdf";
     CloudFile.mk 3 "https://res.example/b.pdf" "event-papers/b" "b.pdf"]
    1000 1000.

Definition cloud : World CloudFile.t := {|
  users := [alice; bob];
  papers := [cloudPaper];
  assets := ["event-papers/a"; "event-papers/b"];
  nextId := 10
|}.

Definition diskPaper : Paper.t DiskFile.t :=
  Paper.mk 1 (Value 7) (Some "T") (Some "N")
    [DiskFile.mk 2 "uploads/1000-a.pdf" "a.pdf" 1000;
     DiskFile.mk 3 "uploads/1000-b.pdf" "b.pdf" 1000]
    1000 1000.

Definition disk : World DiskFile.t := {|
  users := [alice; bob];
  papers := [diskPaper];
  assets := ["uploads/1000-a.pdf"; "uploads/1000-b.pdf"];
  nextId := 10
|}.



Definition jsonUpdate : Request :=
  asAdmin (Body.mk None None None None (Some "reviewed")) None.

(** The admin registers Bob again, then Carol, who logs in. *)
Definition registerBob : Request :=
  asAdmin (Body.mk (Some "bob") (Some "x") None None None) None.

Definition registerCarol : Request :=
  asAdmin (Body.mk (Some "carol") (Some "pw") None None None) None.

Definition carolLogin : Request :=
  {| authorization := None;
     body := Body.mk (Some "carol") (Some "pw") None None None;
     files := None |}.

(** The same stores with a paper that has no attachment yet. *)
Definition cloudBlank : World CloudFile.t := {|
  users := [alice; bob];
  papers := [Paper.mk 1 (Value 7) (Some "T") (Some "N") [] 1000 1000];
  assets := [];
  nextId := 10
|}.

Definition diskBlank : World DiskFile.t := {|
  users := [alice; bob];
  papers := [Paper.mk 1 (Value 7) (Some "T") (Some "N") [] 1000 1000];
  assets := [];
  nextId := 10
|}.

End Sample.

(** * Properties *)

Local Open Scope list_scope.

(** ** The ObjectId codec *)

Lemma hexValue_hexDigit (d : N) :
  d < 16 -> ObjectId.hexValue (ObjectId.hexDigit d) = Some d.
Proof.
  intros Hd.
  destruct d as [|p]; [reflexivity|].
  do 4 (destruct p as [p|p|]; try reflexivity; try (exfalso; lia)).
Qed.

Lemma toHex_length (k : nat) : forall n acc,
  String.length (ObjectId.toHex k n acc) = (k + String.length acc)%nat.
Proof.
  induction k as [|k IH]; intros n acc; simpl; [reflexivity|].
  rewrite IH. simpl. lia.
Qed.

Lemma parseHex_toHex (k : nat) : forall n acc a,
  ObjectId.parseHex (ObjectId.toHex k n acc) a
  = ObjectId.parseHex acc (a * 16 ^ N.of_nat k + n mod 16 ^ N.of_nat k).
Proof.
  induction k as [|k IH]; intros n acc a.
  - simpl. rewrite N.mod_1_r. f_equal. lia.
  - cbn [ObjectId.toHex]. rewrite IH. cbn [ObjectId.parseHex].
    rewrite hexValue_hexDigit by (apply N.mod_lt; lia).
    f_equal.
    rewrite Nat2N.inj_succ, N.pow_succ_r'.
    rewrite (N.Div0.mod_mul_r n 16 (16 ^ N.of_nat k)). lia.
Qed.

Lemma cast_toString (o : ObjectId.t) :
  ObjectId.wf o -> ObjectId.cast (ObjectId.toString o) = Some o.
Proof.
  intros Ho. unfold ObjectId.cast, ObjectId.toString.
  rewrite toHex_length. simpl Nat.eqb. cbv iota.
  rewrite parseHex_toHex. cbn [ObjectId.parseHex]. f_equal.
  change (16 ^ N.of_nat 24) with (2 ^ 96).
  rewrite N.mod_small by exact Ho. lia.
Qed.

(** ** The guard *)

Section Guard.
Context {F : Type} `{FileSchema F}.
Variable env : Env.

Lemma authenticate_ok req user (w : World F) :
  authenticated env req user -> authenticate env req w = (Next user, w).
Proof.
  intros [token [Ha Hv]]. unfold authenticate. rewrite Ha, Hv. reflexivity.
Qed.

Lemma requireAdmin_pass user (w : World F) :
  isAdminClaim user = true -> requireAdmin user w = (Next tt, w).
Proof. intros Hu. unfold requireAdmin. rewrite Hu. reflexivity. Qed.

Lemma requireAdmin_deny user (w : World F) :
  isAdminClaim user = false ->
  requireAdmin user w
  = (Reply {| status := 403; payload := Text "Access denied." |}, w).
Proof. intros Hu. unfold requireAdmin. rewrite Hu. reflexivity. Qed.

(** On the routes registered with [upload.array('files')] between the
    middleware and the handler, a request with a valid token has its files
    stored whether or not the admin guard lets it through; a request the
    guard or the middleware turns away gets a response that is not a 200 and
    changes neither users nor papers. *)
Lemma upload_guard {A} (stored : Upload.t -> string) (req : Request)
    (K : Claims.t -> Async F A) (w : World F) :
  (exists user,
     authenticated env req user /\ isAdminClaim user = true
     /\ (user <- authenticate env req ;; _ <- upload stored req ;;
         _ <- requireAdmin user ;; K user) w
        = K user (afterUpload stored req w))
  \/ (exists r w',
       status r <> 200 /\ papers w' = papers w /\ users w' = users w
       /\ (user <- authenticate env req ;; _ <- upload stored req ;;
           _ <- requireAdmin user ;; K user) w
          = (Reply r, w')).
Proof.
  unfold bind, authenticate, upload, requireAdmin, when, authenticated.
  destruct (authorization req) as [token|];
    [|right; eexists; exists w;
     split; [|split; [reflexivity|split; reflexivity]]; cbn; lia].
  destruct (jwt_verify token (secret env)) as [user|] eqn:Hv;
    [|right; eexists; exists w;
     split; [|split; [reflexivity|split; reflexivity]]; cbn; lia].
  destruct (isAdminClaim user) eqn:Hadmin.
  - left. exists user. cbn. rewrite Hadmin. cbn. eauto.
  - right. exists {| status := 403; payload := Text "Access denied." |}.
    exists (afterUpload stored req w). cbn. rewrite Hadmin. cbn.
    repeat split. lia.
Qed.

Lemma upload_run (stored : Upload.t -> string) (req : Request) (w : World F) :
  upload stored req w = (Next tt, afterUpload stored req w).
Proof. reflexivity. Qed.

Lemma isAdminClaim_absent user :
  Claims.isAdmin user = None -> isAdminClaim user = false.
Proof. intros Hu. unfold isAdminClaim. rewrite Hu. reflexivity. Qed.

End Guard.

(** ** Listing the papers of a moderator *)

(** C6 (as the code has it): on GET /api/papers/moderator/:moderatorId, an
    authenticated caller whose claims have [isAdmin] gets the papers owned by
    the moderator [moderatorId] names when [moderatorId] is a well-formed
    ObjectId; when it is not, [Paper.find] throws a cast error that the
    handler does not catch, and no response is written.  A caller without
    [isAdmin] whose subject differs from [moderatorId] gets 403 Forbidden.
    The store is left as it was in each case. *)
Theorem listPapers_admin_or_self
    {F : Type} `{FileSchema F} (env : Env) (w : World F)
    (req : Request) (user : Claims.t) (moderatorId : string) :
  authenticated env req user ->
  (isAdminClaim user = true ->
   forall o, ObjectId.cast moderatorId = Some o ->
   run (listPapers env moderatorId req) w
   = (Sent {| status := 200; payload := PaperDocs (filter (ownedBy o) (papers w)) |}, w))
  /\
  (isAdminClaim user = true ->
   ObjectId.cast moderatorId = None ->
   run (listPapers env moderatorId req) w = (Unhandled (CastError moderatorId), w))
  /\
  (isAdminClaim user = false -> Claims._id user <> moderatorId ->
   run (listPapers env moderatorId req) w
   = (Sent {| status := 403; payload := Text "Access denied." |}, w)).
Proof.
  intros Hauth. split; [|split].
  - intros Hadmin o Ho.
    unfold run, listPapers, bind. rewrite (authenticate_ok w Hauth).
    rewrite Hadmin. cbn. unfold Paper_find. rewrite Ho. reflexivity.
  - intros Hadmin Ho.
    unfold run, listPapers, bind. rewrite (authenticate_ok w Hauth).
    rewrite Hadmin. cbn. unfold Paper_find. rewrite Ho. reflexivity.
  - intros Hadmin Hne.
    unfold run, listPapers, bind. rewrite (authenticate_ok w Hauth).
    rewrite Hadmin. apply String.eqb_neq in Hne. rewrite Hne. reflexivity.
Qed.

(** ** Who can hold an admin capability *)

Lemma strictEq_eq (a b : option string) : strictEq a b = true -> a = b.
Proof.
  destruct a as [x|], b as [y|]; simpl; intros Hab; try discriminate; trivial.
  apply String.eqb_eq in Hab. now subst.
Qed.

Lemma moderatorLogin_claims
    {F : Type} `{FileSchema F} (env : Env) (req : Request) (w w' : World F)
    (r : Response F) (claims : Claims.t) (key : string) :
  run (moderatorLogin env req) w = (Sent r, w') ->
  issuedToken r = Some (Signed claims key) ->
  Claims.isAdmin claims = None /\ key = secret env.
Proof.
  unfold run, moderatorLogin, bind, User_findOne, compare.
  destruct (find _ (users w)) as [moderator|];
    cbn; try (intros Hrun; inversion Hrun; subst; discriminate).
  destruct (Body.password (body req)) as [pw|]; cbn; try discriminate.
  destruct (bcrypt_compare env pw (User.password moderator)); cbn.
  all: intros Hrun; inversion Hrun; subst; cbn; intros Htok;
    inversion Htok; subst; auto.
Qed.

Lemma adminLogin_claims
    {F : Type} `{FileSchema F} (env : Env) (req : Request) (w w' : World F)
    (r : Response F) (token : Token) :
  run (adminLogin env req) w = (Sent r, w') ->
  issuedToken r = Some token ->
  token = Signed (Claims.mk "admin" (Some true) None) (secret env)
  /\ Body.username (body req) = Some "admin"
  /\ Body.password (body req) = ADMIN_PASSWORD env.
Proof.
  unfold run, adminLogin.
  destruct (strictEq (Body.username (body req)) (Some "admin")) eqn:Hu;
    destruct (strictEq (Body.password (body req)) (ADMIN_PASSWORD env)) eqn:Hp;
    cbn; intros Hrun; inversion Hrun; subst; cbn; intros Htok;
    try discriminate.
  inversion Htok; subst.
  auto using strictEq_eq.
Qed.

(** C9: a token the moderator login issues signs claims without [isAdmin],
    so its holder is turned away by [requireAdmin]; a token the admin login
    issues carries [isAdmin = true], and it is issued only when the request's
    username is ['admin'] and its password is the configured one. *)
Theorem admin_capability_only_from_adminLogin
    {F : Type} `{FileSchema F} (env : Env) (req : Request) (w w' : World F)
    (r : Response F) (claims : Claims.t) (key : string) :
  issuedToken r = Some (Signed claims key) ->
  (run (moderatorLogin env req) w = (Sent r, w') ->
   Claims.isAdmin claims = None
   /\ forall w2 : World F,
        requireAdmin claims w2
        = (Reply {| status := 403; payload := Text "Access denied." |}, w2))
  /\
  (run (adminLogin env req) w = (Sent r, w') ->
   Claims.isAdmin claims = Some true
   /\ Body.username (body req) = Some "admin"
   /\ Body.password (body req) = ADMIN_PASSWORD env).
Proof.
  intros Htok. split; intros Hrun.
  - destruct (moderatorLogin_claims _ _ _ Hrun Htok) as [Hnone _].
    split; [exact Hnone|].
    intros w2. apply requireAdmin_deny. now apply isAdminClaim_absent.
  - destruct (adminLogin_claims _ _ _ Hrun Htok) as [Heq [Hu Hp]].
    inversion Heq; subst. auto.
Qed.

(** ** Removing one attachment *)

Section FileLookup.
Context {F : Type} `{FileSchema F}.

Lemma files_id_unknown (fileId : string) (fs : list F) :
  unknownFile fileId fs -> files_id fs fileId = None.
Proof.
  unfold unknownFile, files_id. intros Hno.
  destruct (ObjectId.cast fileId) as [o|]; [|reflexivity].
  induction fs as [|f fs IH]; [reflexivity|]. cbn [find].
  destruct (ObjectId.eqb (sub_id f) o) eqn:Heq.
  - apply N.eqb_eq in Heq. exfalso. apply (Hno f); [now left | now rewrite Heq].
  - apply IH. intros g Hg. apply Hno. now right.
Qed.

Lemma findIndex_unknown (fileId : string) (fs : list F) :
  (forall f, In f fs -> ObjectId.wf (sub_id f)) ->
  unknownFile fileId fs -> findIndex fileId fs = None.
Proof.
  unfold unknownFile. induction fs as [|f fs IH]; intros Hwf Hno; [reflexivity|].
  cbn [findIndex].
  destruct (ObjectId.toString (sub_id f) =? fileId)%string eqn:Heq.
  - apply String.eqb_eq in Heq. exfalso. apply (Hno f); [now left|].
    rewrite <- Heq. apply cast_toString. apply Hwf. now left.
  - rewrite IH; [reflexivity| |]; intros g Hg; [apply Hwf | apply Hno]; now right.
Qed.

End FileLookup.

(** C4: on an existing paper, DELETE /api/papers/:paperId/files/:fileId with
    a [fileId] that names none of the paper's attachments answers 404 (File
    not found) and leaves the store, hence the paper's attachment sequence, as
    it was: in the Cloudinary variant for every authenticated caller, in the
    local-disk variant for every caller that passes its admin guard. *)
Theorem deleteFile_unknown_id
    (env : Env) (req : Request) (user : Claims.t) (paperId fileId : string)
    (o : ObjectId.t) :
  authenticated env req user ->
  ObjectId.cast paperId = Some o ->
  (forall (w : World CloudFile.t) (paper : Paper.t CloudFile.t),
     find (hasId o) (papers w) = Some paper ->
     unknownFile fileId (Paper.files paper) ->
     run (Cloudinary.deleteFile env paperId fileId req) w
     = (Sent {| status := 404; payload := Text "File not found." |}, w))
  /\
  (forall (w : World DiskFile.t) (paper : Paper.t DiskFile.t),
     isAdminClaim user = true ->
     find (hasId o) (papers w) = Some paper ->
     (forall f, In f (Paper.files paper) -> ObjectId.wf (DiskFile._id f)) ->
     unknownFile fileId (Paper.files paper) ->
     run (LocalDisk.deleteFile env paperId fileId req) w
     = (Sent {| status := 404; payload := Text "File not found." |}, w)).
Proof.
  intros Hauth Ho. split.
  - intros w paper Hfind Hno.
    unfold run, Cloudinary.deleteFile, bind, try_catch.
    rewrite (authenticate_ok w Hauth).
    unfold Paper_findById. rewrite Ho, Hfind.
    rewrite (files_id_unknown Hno). reflexivity.
  - intros w paper Hadmin Hfind Hwf Hno.
    unfold run, LocalDisk.deleteFile, bind, try_catch.
    rewrite (authenticate_ok w Hauth), requireAdmin_pass by exact Hadmin.
    unfold Paper_findById. rewrite Ho, Hfind.
    rewrite (@findIndex_unknown DiskFile.t DiskFile.schema fileId _ Hwf Hno).
    reflexivity.
Qed.

Lemma sample_authenticated_admin env b uploads :
  secret env = "k"%string ->
  authenticated env (Sample.asAdmin b uploads) Sample.adminClaims.
Proof. intros Hk. eexists. split; [reflexivity|]. cbn. now rewrite Hk. Qed.

Lemma sample_authenticated_bob env b uploads :
  secret env = "k"%string ->
  authenticated env (Sample.asBob b uploads) Sample.bobClaims.
Proof. intros Hk. eexists. split; [reflexivity|]. cbn. now rewrite Hk. Qed.

Lemma deleteFile_unknown_id_witness :
  run (Cloudinary.deleteFile Sample.env Sample.paperId Sample.nobody
         (Sample.asAdmin Sample.noBody None)) Sample.cloud
  = (Sent {| status := 404; payload := Text "File not found." |}, Sample.cloud)
  /\
  run (LocalDisk.deleteFile Sample.env Sample.paperId Sample.nobody
         (Sample.asAdmin Sample.noBody None)) Sample.disk
  = (Sent {| status := 404; payload := Text "File not found." |}, Sample.disk).
Proof.
  destruct (@deleteFile_unknown_id Sample.env (Sample.asAdmin Sample.noBody None)
              Sample.adminClaims Sample.paperId Sample.nobody 1
              (sample_authenticated_admin Sample.env _ _ eq_refl) eq_refl) as [Hcloud Hdisk].
  split.
  - apply (Hcloud Sample.cloud Sample.cloudPaper); [reflexivity|].
    intros f [<-|[<-|[]]]; vm_compute; discriminate.
  - apply (Hdisk Sample.disk Sample.diskPaper); [reflexivity|reflexivity| |].
    + intros f [<-|[<-|[]]]; reflexivity.
    + intros f [<-|[<-|[]]]; vm_compute; discriminate.
Defined.

(** The local-disk variant guards the removal: without [isAdmin] the answer
    is 403 and nothing changes. *)
Lemma localDisk_deleteFile_requires_admin
    (env : Env) (req : Request) (user : Claims.t) (paperId fileId : string)
    (w : World DiskFile.t) :
  authenticated env req user ->
  isAdminClaim user = false ->
  run (LocalDisk.deleteFile env paperId fileId req) w
  = (Sent {| status := 403; payload := Text "Access denied." |}, w).
Proof.
  intros Hauth Hadmin. unfold run, LocalDisk.deleteFile, bind.
  rewrite (authenticate_ok w Hauth), requireAdmin_deny by exact Hadmin.
  reflexivity.
Qed.

(** A removal that goes through, in the Cloudinary variant: the caller only
    has to be authenticated; the asset is destroyed and the paper is written
    back without the attachment, its [updatedAt] as it was. *)
Lemma cloudinary_deleteFile_any_caller
    (env : Env) (req : Request) (user : Claims.t) (paperId fileId : string)
    (o : ObjectId.t) (w : World CloudFile.t) (p : Paper.t CloudFile.t)
    (file : CloudFile.t) :
  authenticated env req user ->
  ObjectId.cast paperId = Some o ->
  find (hasId o) (papers w) = Some p ->
  files_id (Paper.files p) fileId = Some file ->
  destroy_fails env (CloudFile.public_id file) = false ->
  Paper.validate (file_remove p file) = [] ->
  run (Cloudinary.deleteFile env paperId fileId req) w
  = (Sent {| status := 200; payload := Message "File deleted successfully" |},
     set_papers
       (set_assets w
          (filter (fun a => negb (a =? CloudFile.public_id file)%string) (assets w)))
       (upsert (file_remove p file) (papers w)))
  /\ Paper.updatedAt (file_remove p file) = Paper.updatedAt p.
Proof.
  intros Hauth Ho Hfind Hfile Hup Hval. split; [|reflexivity].
  unfold run, Cloudinary.deleteFile, bind, try_catch.
  rewrite (authenticate_ok w Hauth).
  unfold Paper_findById. rewrite Ho, Hfind, Hfile.
  unfold destroy. rewrite Hup. unfold Paper_save. rewrite Hval. reflexivity.
Qed.

(** The same in the local-disk variant, where the caller has to be the
    admin. *)
Lemma localDisk_deleteFile_admin
    (env : Env) (req : Request) (user : Claims.t) (paperId fileId : string)
    (o : ObjectId.t) (w : World DiskFile.t) (p : Paper.t DiskFile.t)
    (fileIndex : nat) :
  authenticated env req user ->
  isAdminClaim user = true ->
  ObjectId.cast paperId = Some o ->
  find (hasId o) (papers w) = Some p ->
  findIndex fileId (Paper.files p) = Some fileIndex ->
  Paper.validate (Paper.set_files p (splice1 fileIndex (Paper.files p))) = [] ->
  run (LocalDisk.deleteFile env paperId fileId req) w
  = (Sent {| status := 200; payload := Message "File deleted successfully" |},
     set_papers w
       (upsert (Paper.set_files p (splice1 fileIndex (Paper.files p))) (papers w)))
  /\ Paper.updatedAt (Paper.set_files p (splice1 fileIndex (Paper.files p)))
     = Paper.updatedAt p.
Proof.
  intros Hauth Hadmin Ho Hfind Hidx Hval. split; [|reflexivity].
  unfold run, LocalDisk.deleteFile, bind, try_catch.
  rewrite (authenticate_ok w Hauth), requireAdmin_pass by exact Hadmin.
  unfold Paper_findById. rewrite Ho, Hfind, Hidx.
  unfold Paper_save. rewrite Hval. reflexivity.
Qed.

(** C1: the Cloudinary variant has no admin guard on DELETE
    /api/papers/:paperId/files/:fileId.  Bob, a moderator whose claims have no
    [isAdmin], removes attachment [fileA] from Alice's paper: the answer is
    200, the attachment is gone from the paper and its asset from
    Cloudinary. *)
Theorem cloudinary_deleteFile_without_admin :
  Claims.isAdmin Sample.bobClaims = None
  /\ run (Cloudinary.deleteFile Sample.env Sample.paperId Sample.fileA
            (Sample.asBob Sample.noBody None)) Sample.cloud
     = (Sent {| status := 200; payload := Message "File deleted successfully" |},
        {| users := [Sample.alice; Sample.bob];
           papers :=
             [Paper.mk 1 (Value 7) (Some "T") (Some "N")
                [CloudFile.mk 3 "https://res.example/b.pdf" "event-papers/b" "b.pdf"]
                1000 1000];
           assets := ["event-papers/b"];
           nextId := 10 |}).
Proof. split; reflexivity. Qed.

(** C3: removing an attachment does not refresh [updatedAt].  The paper was
    last updated at 1000; at 5000 the admin removes attachment [fileA]; the
    answer is 200 and the stored paper has one attachment less and
    [updatedAt] still 1000, in both variants. *)
Theorem deleteFile_keeps_updatedAt :
  Paper.updatedAt Sample.cloudPaper < now Sample.later
  /\ (let result := run (Cloudinary.deleteFile Sample.later Sample.paperId Sample.fileA
                           (Sample.asAdmin Sample.noBody None)) Sample.cloud in
      fst result = Sent {| status := 200; payload := Message "File deleted successfully" |}
      /\ option_map (fun p => (List.length (Paper.files p), Paper.updatedAt p))
           (find (hasId 1) (papers (snd result)))
         = Some (1%nat, Paper.updatedAt Sample.cloudPaper))
  /\ (let result := run (LocalDisk.deleteFile Sample.later Sample.paperId Sample.fileA
                           (Sample.asAdmin Sample.noBody None)) Sample.disk in
      fst result = Sent {| status := 200; payload := Message "File deleted successfully" |}
      /\ option_map (fun p => (List.length (Paper.files p), Paper.updatedAt p))
           (find (hasId 1) (papers (snd result)))
         = Some (1%nat, Paper.updatedAt Sample.diskPaper)).
Proof. repeat split; reflexivity. Qed.

(** ** The store *)

Section Store.
Context {F : Type} `{FileSchema F}.

Lemma drawn_0 (w : World F) : drawn 0 w = w.
Proof. destruct w. unfold drawn. cbn. now rewrite N.add_0_r. Qed.

Lemma drawn_drawn (j k : N) (w : World F) : drawn k (drawn j w) = drawn (j + k) w.
Proof. unfold drawn. cbn. now rewrite N.add_assoc. Qed.

Lemma castFiles_run (now : N) (objs : list plain) : forall w : World F,
  castFiles now objs w
  = (Next (subdocsFrom (nextId w) now objs), drawn (N.of_nat (List.length objs)) w).
Proof.
  induction objs as [|o objs IH]; intros w.
  - cbn. now rewrite drawn_0.
  - cbn [castFiles subdocsFrom List.length]. unfold bind at 1.
    change (newObjectId w) with (Next (F := F) (nextId w), drawn 1 w).
    cbv iota. unfold bind. rewrite IH. cbn [nextId drawn]. unfold ret.
    rewrite drawn_drawn. do 2 f_equal. lia.
Qed.

Lemma Paper_new_run (now : N) (moderatorId title note : option string)
    (objs : list plain) (w : World F) :
  Paper_new now moderatorId title note objs w
  = (Next (created (nextId w) now moderatorId title note objs),
     drawn (1 + N.of_nat (List.length objs)) w).
Proof.
  unfold Paper_new, bind.
  change (newObjectId w) with (Next (F := F) (nextId w), drawn 1 w).
  cbv iota. rewrite castFiles_run. cbn [nextId drawn]. unfold ret, created.
  now rewrite drawn_drawn.
Qed.

Lemma files_push_run (now : N) (p : Paper.t F) (objs : list plain) (w : World F) :
  files_push now p objs w
  = (Next (Paper.set_files p (Paper.files p ++ subdocsFrom (nextId w) now objs)),
     drawn (N.of_nat (List.length objs)) w).
Proof. unfold files_push, bind. now rewrite castFiles_run. Qed.

Lemma find_hasId (o : ObjectId.t) (l : list (Paper.t F)) (p : Paper.t F) :
  find (hasId o) l = Some p -> Paper._id p = o.
Proof.
  intros Hf. apply find_some in Hf. destruct Hf as [_ Hid].
  now apply N.eqb_eq in Hid.
Qed.

Lemma find_upsert (o : ObjectId.t) (l : list (Paper.t F)) (p p' : Paper.t F) :
  Paper._id p' = o ->
  find (hasId o) l = Some p ->
  find (hasId o) (upsert p' l) = Some p'.
Proof.
  intros Hid. induction l as [|q l IH]; cbn [find upsert]; [discriminate|].
  rewrite Hid. destruct (hasId o q) eqn:Hq.
  - intros _. cbn [find]. unfold hasId at 1. rewrite Hid.
    unfold ObjectId.eqb. now rewrite N.eqb_refl.
  - intros Hf. cbn [find]. rewrite Hq. now apply IH.
Qed.

Lemma In_upsert (p : Paper.t F) (l : list (Paper.t F)) : In p (upsert p l).
Proof.
  induction l as [|q l IH]; cbn [upsert]; [now left|].
  destruct (hasId (Paper._id p) q); [now left | now right].
Qed.

Lemma find_removeFirst_NoDup (o : ObjectId.t) (l : list (Paper.t F)) :
  NoDup (map (@Paper._id F) l) -> find (hasId o) (removeFirst (hasId o) l) = None.
Proof.
  induction l as [|q l IH]; cbn [map removeFirst]; [reflexivity|].
  intros Hnd. inversion Hnd as [|x xs Hnotin Hnd']; subst.
  destruct (hasId o q) eqn:Hq.
  - apply N.eqb_eq in Hq.
    destruct (find (hasId o) l) as [p|] eqn:Hf; [|reflexivity].
    exfalso. apply Hnotin. rewrite Hq.
    pose proof (find_hasId _ _ Hf) as Hp. apply find_some in Hf.
    rewrite <- Hp. apply in_map. tauto.
  - cbn [find]. rewrite Hq. now apply IH.
Qed.

End Store.

(** ** Creating a paper *)

Section Create.
Context {F : Type} `{FileSchema F}.
Variable env : Env.
Variable stored : Upload.t -> string.
Variable toObj : Upload.t -> plain.

Lemma createPaper_cleared (req : Request) (w : World F) :
  cleared env req ->
  run (createPaper env stored toObj req) w
  = let b := body req in
    let objs := map toObj (uploadsOf req) in
    let p := created (nextId w) (now env) (Body.moderatorId b) (Body.title b)
               (Body.note b) objs in
    let w1 := drawn (1 + N.of_nat (List.length objs)) (afterUpload stored req w) in
    match Paper.validate p with
    | [] => (Sent {| status := 200; payload := PaperDoc p |},
             set_papers w1 (upsert p (papers w)))
    | path :: paths => (Unhandled (ValidationError (path :: paths)), w1)
    end.
Proof.
  intros [user [uploads [Hauth [Hadmin Hfiles]]]].
  unfold run, createPaper, bind.
  rewrite (authenticate_ok w Hauth), upload_run, requireAdmin_pass by exact Hadmin.
  rewrite Hfiles, Paper_new_run. unfold Paper_save, uploadsOf. rewrite Hfiles.
  cbv zeta. cbn [nextId afterUpload set_assets].
  destruct (Paper.validate _); reflexivity.
Qed.

Lemma createPaper_not_cleared (req : Request) (w : World F) :
  cleared env req
  \/ (papers (snd (run (createPaper env stored toObj req) w)) = papers w
      /\ forall r, fst (run (createPaper env stored toObj req) w) = Sent r ->
                   status r <> 200).
Proof.
  unfold cleared, authenticated.
  destruct (authorization req) as [token|] eqn:Ha.
  2:{ right. unfold run, createPaper, bind, authenticate. rewrite Ha. cbn.
      split; [reflexivity|]. intros r Hr; inversion Hr; subst; cbn; lia. }
  destruct (jwt_verify token (secret env)) as [user|] eqn:Hv.
  2:{ right. unfold run, createPaper, bind, authenticate. rewrite Ha, Hv. cbn.
      split; [reflexivity|]. intros r Hr; inversion Hr; subst; cbn; lia. }
  destruct (isAdminClaim user) eqn:Hadmin.
  2:{ right. unfold run, createPaper, bind, authenticate, upload, requireAdmin.
      rewrite Ha, Hv. cbn. rewrite Hadmin. cbn.
      split; [reflexivity|]. intros r Hr; inversion Hr; subst; cbn; lia. }
  destruct (files req) as [uploads|] eqn:Hf.
  2:{ right. unfold run, createPaper, bind, authenticate, upload, requireAdmin.
      rewrite Ha, Hv. cbn. rewrite Hadmin. cbn. rewrite Hf. cbn.
      split; [reflexivity|]. intros r Hr; discriminate. }
  left. exists user, uploads. eauto.
Qed.

End Create.

Lemma validateString_too_long (path : string) (m : nat) (s : string) :
  (m < String.length s)%nat -> validateString path (Some m) (Some s) = [path].
Proof.
  intros Hlen. unfold validateString.
  destruct (s =? "")%string; [reflexivity|].
  apply Nat.ltb_lt in Hlen. now rewrite Hlen.
Qed.

Lemma validate_moderatorId {F : Type} `{FileSchema F} (p : Paper.t F) :
  Paper.validate p = [] -> exists o, Paper.moderatorId p = Value o.
Proof.
  unfold Paper.validate. destruct (Paper.moderatorId p) as [|o|raw];
    cbn; try discriminate. eauto.
Qed.

Lemma castObjectId_value (v : option string) (o : ObjectId.t) :
  castObjectId v = Value o -> exists s, v = Some s /\ ObjectId.cast s = Some o.
Proof.
  unfold castObjectId. destruct v as [s|]; [|discriminate].
  destruct (ObjectId.cast s) as [o'|] eqn:Hs; [|discriminate].
  intros Hv; inversion Hv; subst. eauto.
Qed.

Lemma invalidFields_validate {F : Type} `{FileSchema F}
    (b : Body.t) (n now : N) (objs : list plain) :
  invalidFields b ->
  Paper.validate
    (created (F := F) n now (Body.moderatorId b) (Body.title b) (Body.note b) objs)
  <> [].
Proof.
  unfold Paper.validate, created. cbn [Paper.moderatorId Paper.title Paper.note Paper.files].
  intros [[s [Ht Hlen]]|[[s [Hn Hlen]]|[Ht|[Ht|[Hn|[Hn|Hm]]]]]] Hnil;
    apply app_eq_nil in Hnil; destruct Hnil as [Hmod Hnil];
    apply app_eq_nil in Hnil; destruct Hnil as [Htitle Hnil];
    apply app_eq_nil in Hnil; destruct Hnil as [Hnote _].
  - rewrite Ht, validateString_too_long in Htitle by exact Hlen. discriminate.
  - rewrite Hn, validateString_too_long in Hnote by exact Hlen. discriminate.
  - rewrite Ht in Htitle. discriminate.
  - rewrite Ht in Htitle. discriminate.
  - rewrite Hn in Hnote. discriminate.
  - rewrite Hn in Hnote. discriminate.
  - rewrite Hm in Hmod. discriminate.
Qed.

Section CreateFacts.
Context {F : Type} `{FileSchema F}.
Variable env : Env.
Variable stored : Upload.t -> string.
Variable toObj : Upload.t -> plain.

Lemma createPaper_success (req : Request) (w w' : World F) (r : Response F) :
  run (createPaper env stored toObj req) w = (Sent r, w') ->
  status r = 200 ->
  exists s o p,
    Body.moderatorId (body req) = Some s /\ ObjectId.cast s = Some o
    /\ payload r = PaperDoc p /\ Paper.moderatorId p = Value o
    /\ In p (papers w')
    /\ forall us, run (createPaper env stored toObj req) (set_users w us)
                  = (Sent r, set_users w' us).
Proof.
  intros Hrun Hst.
  destruct (createPaper_not_cleared env stored toObj req w) as [Hc|[_ Hno]].
  2:{ exfalso. apply (Hno r); [now rewrite Hrun | exact Hst]. }
  pose proof (createPaper_cleared stored toObj w Hc) as Hw. cbv zeta in Hw.
  rewrite Hrun in Hw.
  remember (created (nextId w) (now env) (Body.moderatorId (body req))
              (Body.title (body req)) (Body.note (body req))
              (map toObj (uploadsOf req))) as p eqn:Hp.
  destruct (Paper.validate p) as [|path paths] eqn:Hval; [|discriminate].
  inversion Hw; subst r w'; clear Hw.
  destruct (validate_moderatorId p Hval) as [o Ho].
  assert (Hcast : castObjectId (Body.moderatorId (body req)) = Value o)
    by (rewrite <- Ho, Hp; reflexivity).
  destruct (castObjectId_value _ Hcast) as [s [Hs Hso]].
  exists s, o, p. repeat split; trivial.
  - cbn. apply In_upsert.
  - intros us. rewrite (createPaper_cleared stored toObj (set_users w us) Hc).
    cbv zeta. cbn [nextId set_users]. rewrite <- Hp, Hval. reflexivity.
Qed.

Lemma createPaper_invalid (req : Request) (w : World F) :
  invalidFields (body req) ->
  papers (snd (run (createPaper env stored toObj req) w)) = papers w
  /\ (cleared env req ->
      exists paths,
        paths <> []
        /\ fst (run (createPaper env stored toObj req) w) = Unhandled (ValidationError paths)).
Proof.
  intros Hinv.
  pose proof (invalidFields_validate (F := F) (nextId w) (now env)
                (map toObj (uploadsOf req)) Hinv) as Hval.
  destruct (createPaper_not_cleared env stored toObj req w) as [Hc|[Hsame _]].
  - rewrite (createPaper_cleared stored toObj w Hc). cbv zeta.
    destruct (Paper.validate _) as [|path paths]; [congruence|].
    split; [reflexivity|]. intros _. exists (path :: paths).
    split; [discriminate | reflexivity].
  - split; [exact Hsame|].
    intros Hc. rewrite (createPaper_cleared stored toObj w Hc). cbv zeta.
    destruct (Paper.validate _) as [|path paths]; [congruence|].
    exists (path :: paths). split; [discriminate | reflexivity].
Qed.

End CreateFacts.

(** C2 (as the code has it): a create-paper request succeeds only when its
    [moderatorId] is a well-formed ObjectId, and the created paper, which is in
    the store afterwards, has that ObjectId as its [moderatorId]; the user
    collection plays no part: with any other set of users the request has the
    same outcome. *)
Theorem createPaper_moderatorId_is_cast (env : Env) (req : Request) :
  (forall (w w' : World CloudFile.t) (r : Response CloudFile.t),
     run (Cloudinary.createPaper env req) w = (Sent r, w') ->
     status r = 200 ->
     exists s o p,
       Body.moderatorId (body req) = Some s /\ ObjectId.cast s = Some o
       /\ payload r = PaperDoc p /\ Paper.moderatorId p = Value o
       /\ In p (papers w')
       /\ forall us, run (Cloudinary.createPaper env req) (set_users w us)
                     = (Sent r, set_users w' us))
  /\
  (forall (w w' : World DiskFile.t) (r : Response DiskFile.t),
     run (LocalDisk.createPaper env req) w = (Sent r, w') ->
     status r = 200 ->
     exists s o p,
       Body.moderatorId (body req) = Some s /\ ObjectId.cast s = Some o
       /\ payload r = PaperDoc p /\ Paper.moderatorId p = Value o
       /\ In p (papers w')
       /\ forall us, run (LocalDisk.createPaper env req) (set_users w us)
                     = (Sent r, set_users w' us)).
Proof.
  split; intros w w' r; unfold Cloudinary.createPaper, LocalDisk.createPaper;
    apply createPaper_success.
Qed.

Lemma createPaper_moderatorId_is_cast_witness :
  exists s o p,
    Body.moderatorId Sample.forAlice = Some s /\ ObjectId.cast s = Some o
    /\ Paper.moderatorId p = Value o
    /\ In p (papers (snd (run (Cloudinary.createPaper Sample.env
                                 (Sample.asAdmin Sample.forAlice (Some [Sample.upA])))
                            Sample.cloud))).
Proof.
  destruct (createPaper_moderatorId_is_cast Sample.env
              (Sample.asAdmin Sample.forAlice (Some [Sample.upA]))) as [Hcloud _].
  destruct (Hcloud Sample.cloud _ _ eq_refl eq_refl)
    as [s [o [p [Hs [Ho [_ [Hp [Hin _]]]]]]]].
  exists s, o, p. auto.
Defined.

(** C2, counterexample: the admin creates a paper for an ObjectId that names
    no user; the request succeeds. *)
Lemma createPaper_unknown_moderator :
  ~ (forall (p : Paper.t CloudFile.t) (w' : World CloudFile.t),
       run (Cloudinary.createPaper Sample.env
              (Sample.asAdmin Sample.forNobody (Some [Sample.upA]))) Sample.cloud
       = (Sent {| status := 200; payload := PaperDoc p |}, w') ->
       exists u, In u (users Sample.cloud)
                 /\ Paper.moderatorId p = Value (User._id u)).
Proof.
  intros Hclaim.
  destruct (Hclaim _ _ eq_refl) as [u [[<-|[<-|[]]] Hu]]; vm_compute in Hu;
    discriminate.
Qed.

(** C8 (as the code has it): a create-paper request whose title has more
    than 100 characters, whose note has more than 500, or that lacks the
    title, the note or the moderatorId creates no paper; when it has passed
    the guard, [paper.save()] rejects with a ValidationError that the handler
    does not catch, so the handler writes no response, and no 400. *)
Theorem createPaper_invalid_not_saved (env : Env) (req : Request) :
  invalidFields (body req) ->
  (forall w : World CloudFile.t,
     papers (snd (run (Cloudinary.createPaper env req) w)) = papers w
     /\ (cleared env req ->
         exists paths,
           paths <> []
           /\ fst (run (Cloudinary.createPaper env req) w)
              = Unhandled (ValidationError paths)))
  /\
  (forall w : World DiskFile.t,
     papers (snd (run (LocalDisk.createPaper env req) w)) = papers w
     /\ (cleared env req ->
         exists paths,
           paths <> []
           /\ fst (run (LocalDisk.createPaper env req) w)
              = Unhandled (ValidationError paths))).
Proof.
  intros Hinv. split; intros w;
    unfold Cloudinary.createPaper, LocalDisk.createPaper;
    now apply createPaper_invalid.
Qed.

Lemma sample_tooLong_invalid : invalidFields Sample.tooLong.
Proof. left. exists Sample.longTitle. split; [reflexivity | cbn; lia]. Qed.

Lemma sample_cleared :
  cleared Sample.env (Sample.asAdmin Sample.tooLong (Some [Sample.upA])).
Proof.
  exists Sample.adminClaims, [Sample.upA].
  split; [apply (sample_authenticated_admin Sample.env); reflexivity|].
  split; reflexivity.
Qed.

Lemma createPaper_invalid_not_saved_witness :
  (papers (snd (run (Cloudinary.createPaper Sample.env
                       (Sample.asAdmin Sample.tooLong (Some [Sample.upA])))
                  Sample.cloud))
   = papers Sample.cloud
   /\ exists paths,
        paths <> []
        /\ fst (run (Cloudinary.createPaper Sample.env
                       (Sample.asAdmin Sample.tooLong (Some [Sample.upA])))
                  Sample.cloud)
           = Unhandled (ValidationError paths))
  /\ papers (snd (run (LocalDisk.createPaper Sample.env
                         (Sample.asAdmin Sample.tooLong (Some [Sample.upA])))
                    Sample.disk))
     = papers Sample.disk.
Proof.
  destruct (createPaper_invalid_not_saved Sample.env
              (Sample.asAdmin Sample.tooLong (Some [Sample.upA]))
              sample_tooLong_invalid) as [Hcloud Hdisk].
  split.
  - destruct (Hcloud Sample.cloud) as [Hsame Hthrown].
    split; [exact Hsame | exact (Hthrown sample_cleared)].
  - apply (Hdisk Sample.disk).
Defined.

(** C8, counterexample: the admin posts a paper whose title has 101
    characters; the handler writes no 400 response (its promise is rejected
    and it writes nothing). *)
Lemma createPaper_long_title_no_400 :
  ~ (exists p,
       fst (run (Cloudinary.createPaper Sample.env
                   (Sample.asAdmin Sample.tooLong (Some [Sample.upA])))
              Sample.cloud)
       = Sent {| status := 400; payload := p |}).
Proof. intros [p Hp]. vm_compute in Hp. discriminate. Qed.

(** ** Updating a paper *)

Section Push.
Context {F : Type} `{FileSchema F}.
Variable toObj : Upload.t -> plain.

Lemma set_files_nil (p : Paper.t F) : Paper.set_files p (Paper.files p ++ []) = p.
Proof. destruct p. unfold Paper.set_files. cbn. now rewrite app_nil_r. Qed.

Lemma push_if_any (now : N) (p : Paper.t F) (uploads : list Upload.t) (w : World F) :
  (if Nat.ltb 0 (List.length uploads)
   then files_push now p (map toObj uploads) else ret p) w
  = (Next (Paper.set_files p
             (Paper.files p ++ subdocsFrom (nextId w) now (map toObj uploads))),
     drawn (N.of_nat (List.length uploads)) w).
Proof.
  destruct uploads as [|u uploads].
  - cbn. now rewrite set_files_nil, drawn_0.
  - cbn [List.length Nat.ltb Nat.leb]. rewrite files_push_run.
    now rewrite length_map.
Qed.

End Push.

Ltac refused :=
  right; cbn; split; [reflexivity|];
  intros r Hr; inversion Hr; subst; cbn; lia.

Ltac validated :=
  unfold Paper_save;
  match goal with
  | |- context [Paper.validate ?q] => destruct (Paper.validate q)
  end.

Lemma cloudinary_updatePaper_outcome
    (env : Env) (id : string) (req : Request) (o : ObjectId.t)
    (p : Paper.t CloudFile.t) (w : World CloudFile.t) :
  ObjectId.cast id = Some o ->
  find (hasId o) (papers w) = Some p ->
  updateOutcome (F := CloudFile.t) Cloudinary.stored Cloudinary.toObj env req p w
    (run (Cloudinary.updatePaper env id req) w).
Proof.
  intros Ho Hfind. unfold updateOutcome, uploadsOf. cbv zeta.
  remember (run (Cloudinary.updatePaper env id req) w) as result eqn:Hres.
  unfold run, Cloudinary.updatePaper in Hres.
  match type of Hres with
  | context [bind (authenticate env req)
               (fun user => bind _ (fun _ => bind _ (fun _ => @?K user)))] =>
      destruct (upload_guard env Cloudinary.stored req K w)
        as [[user [_ [_ Hk]]]|[r [w' [Hr [Hp [_ Hk]]]]]];
      rewrite Hk in Hres; clear Hk
  end.
  2:{ subst result. right. cbn. split; [exact Hp|].
      intros r' Hr'. inversion Hr'. now subst. }
  unfold bind at 1, Paper_findById in Hres. rewrite Ho in Hres.
  cbv beta iota in Hres.
  change (papers (afterUpload Cloudinary.stored req w)) with (papers w) in Hres.
  rewrite Hfind in Hres. cbv beta iota in Hres.
  destruct (files req) as [uploads|];
    [|subst result; right; cbn; split; [reflexivity|discriminate]].
  unfold bind at 1 in Hres.
  rewrite (@push_if_any CloudFile.t CloudFile.schema Cloudinary.toObj) in Hres.
  unfold bind in Hres. revert Hres. validated; intros ->.
  - left. reflexivity.
  - right. cbn. split; [reflexivity | discriminate].
Qed.

Lemma localDisk_updatePaper_outcome
    (env : Env) (id : string) (req : Request) (o : ObjectId.t)
    (p : Paper.t DiskFile.t) (w : World DiskFile.t) :
  ObjectId.cast id = Some o ->
  find (hasId o) (papers w) = Some p ->
  updateOutcome (F := DiskFile.t) LocalDisk.stored LocalDisk.toObj env req p w
    (run (LocalDisk.updatePaper env id req) w).
Proof.
  intros Ho Hfind. unfold updateOutcome, uploadsOf. cbv zeta.
  remember (run (LocalDisk.updatePaper env id req) w) as result eqn:Hres.
  unfold run, LocalDisk.updatePaper in Hres.
  match type of Hres with
  | context [bind (authenticate env req)
               (fun user => bind _ (fun _ => bind _ (fun _ => @?K user)))] =>
      destruct (upload_guard env LocalDisk.stored req K w)
        as [[user [_ [_ Hk]]]|[r [w' [Hr [Hp [_ Hk]]]]]];
      rewrite Hk in Hres; clear Hk
  end.
  2:{ subst result. right. cbn. split; [exact Hp|].
      intros r' Hr'. inversion Hr'. now subst. }
  unfold try_catch in Hres. unfold bind at 1, Paper_findById in Hres.
  rewrite Ho in Hres. cbv beta iota in Hres.
  change (papers (afterUpload LocalDisk.stored req w)) with (papers w) in Hres.
  rewrite Hfind in Hres. cbv beta iota in Hres.
  destruct (files req) as [uploads|].
  - unfold bind at 1 in Hres.
    rewrite (@push_if_any DiskFile.t DiskFile.schema LocalDisk.toObj) in Hres.
    unfold bind in Hres. revert Hres. validated; intros ->.
    + left. reflexivity.
    + refused.
  - unfold bind, ret in Hres. cbn [map subdocsFrom List.length N.of_nat].
    unfold updated. rewrite set_files_nil, drawn_0.
    revert Hres. validated; intros ->.
    + left. reflexivity.
    + refused.
Qed.

Section UpdateFacts.
Context {F : Type} `{FileSchema F}.
Variable stored : Upload.t -> string.
Variable toObj : Upload.t -> plain.
Variable env : Env.
Variable req : Request.

Lemma updated_files (now : N) (note : option string) (fs : list F) (p : Paper.t F) :
  Paper.files (updated now note fs p) = Paper.files p ++ fs.
Proof. unfold updated. destruct (truthy note); reflexivity. Qed.

Lemma updated_frame (now : N) (note : option string) (fs : list F) (p : Paper.t F) :
  Paper._id (updated now note fs p) = Paper._id p
  /\ Paper.moderatorId (updated now note fs p) = Paper.moderatorId p
  /\ Paper.title (updated now note fs p) = Paper.title p
  /\ Paper.createdAt (updated now note fs p) = Paper.createdAt p
  /\ Paper.updatedAt (updated now note fs p) = now.
Proof. unfold updated. destruct (truthy note); repeat split. Qed.

Lemma updated_note (now : N) (note : option string) (fs : list F) (p : Paper.t F) :
  note = None \/ note = Some "" ->
  Paper.note (updated now note fs p) = Paper.note p.
Proof. intros [->| ->]; reflexivity. Qed.

Lemma updateOutcome_success (o : ObjectId.t) (p : Paper.t F) (w w' : World F)
    (r : Response F) :
  find (hasId o) (papers w) = Some p ->
  updateOutcome stored toObj env req p w (Sent r, w') ->
  status r = 200 ->
  exists p',
    find (hasId o) (papers w') = Some p' /\ payload r = PaperDoc p'
    /\ Paper.files p'
       = Paper.files p
         ++ subdocsFrom (nextId w) (now env) (map toObj (uploadsOf req)).
Proof.
  intros Hfind [Hok|[_ Hno]] Hst.
  2:{ exfalso. now apply (Hno r). }
  inversion Hok; subst r w'; clear Hok.
  eexists. split; [|split; [reflexivity | apply updated_files]].
  cbn [papers set_papers]. apply find_upsert with (p := p); [|exact Hfind].
  destruct (updated_frame (now env) (Body.note (body req))
              (subdocsFrom (nextId w) (now env) (map toObj (uploadsOf req))) p)
    as [Hid _].
  rewrite Hid. now apply find_hasId with (l := papers w).
Qed.

Lemma updateOutcome_frame (o : ObjectId.t) (p : Paper.t F) (w : World F)
    (result : Outcome F * World F) :
  find (hasId o) (papers w) = Some p ->
  updateOutcome stored toObj env req p w result ->
  exists p',
    find (hasId o) (papers (snd result)) = Some p'
    /\ Paper.moderatorId p' = Paper.moderatorId p
    /\ Paper.title p' = Paper.title p
    /\ Paper.createdAt p' = Paper.createdAt p
    /\ (exists fs, Paper.files p' = Paper.files p ++ fs)
    /\ (Body.note (body req) = None \/ Body.note (body req) = Some "" ->
        Paper.note p' = Paper.note p)
    /\ (forall r, fst result = Sent r -> status r = 200 ->
        Paper.files p'
        = Paper.files p
          ++ subdocsFrom (nextId w) (now env) (map toObj (uploadsOf req))
        /\ Paper.updatedAt p' = now env).
Proof.
  intros Hfind [Hok|[Hsame Hno]].
  - subst result. cbn [fst snd papers set_papers].
    destruct (updated_frame (now env) (Body.note (body req))
                (subdocsFrom (nextId w) (now env) (map toObj (uploadsOf req))) p)
      as [Hid [Hmod [Htitle [Hcreated Hupdated]]]].
    eexists. split.
    { apply find_upsert with (p := p); [|exact Hfind].
      rewrite Hid. now apply find_hasId with (l := papers w). }
    repeat split; trivial.
    + eexists. apply updated_files.
    + apply updated_note.
    + apply updated_files.
  - exists p. rewrite Hsame. repeat split; trivial.
    + exists []. now rewrite app_nil_r.
    + exfalso. now apply (Hno r).
    + exfalso. now apply (Hno r).
Qed.

End UpdateFacts.

(** The sub-documents follow the uploads, one for one and in their order. *)
Lemma cloudinary_subdocs_follow_uploads (n now : N) (uploads : list Upload.t) :
  map (fun f => (CloudFile.url f, CloudFile.public_id f, CloudFile.originalName f))
    (subdocsFrom (F := CloudFile.t) n now (map Cloudinary.toObj uploads))
  = map (fun u => (Upload.path u, Upload.filename u, Upload.originalname u)) uploads.
Proof.
  revert n. induction uploads as [|u uploads IH]; intros n; [reflexivity|].
  cbn [map subdocsFrom]. now rewrite IH.
Qed.

Lemma localDisk_subdocs_follow_uploads (n now : N) (uploads : list Upload.t) :
  map (fun f => (DiskFile.path f, DiskFile.originalName f, DiskFile.createdAt f))
    (subdocsFrom (F := DiskFile.t) n now (map LocalDisk.toObj uploads))
  = map (fun u => (Upload.path u, Upload.originalname u, now)) uploads.
Proof.
  revert n. induction uploads as [|u uploads IH]; intros n; [reflexivity|].
  cbn [map subdocsFrom]. now rewrite IH.
Qed.

Lemma listPapers_admin_or_self_witness :
  run (listPapers Sample.env Sample.aliceId (Sample.asAdmin Sample.noBody None))
    Sample.cloud
  = (Sent {| status := 200; payload := PaperDocs [Sample.cloudPaper] |}, Sample.cloud)
  /\ run (listPapers Sample.env "xyz" (Sample.asAdmin Sample.noBody None))
       Sample.disk
     = (Unhandled (CastError "xyz"), Sample.disk)
  /\ run (listPapers Sample.env Sample.aliceId (Sample.asBob Sample.noBody None))
       Sample.cloud
     = (Sent {| status := 403; payload := Text "Access denied." |}, Sample.cloud).
Proof.
  split; [|split].
  - apply (proj1 (listPapers_admin_or_self Sample.cloud Sample.aliceId
                    (sample_authenticated_admin Sample.env _ _ eq_refl)) eq_refl 7 eq_refl).
  - apply (proj1 (proj2 (listPapers_admin_or_self Sample.disk "xyz"
                           (sample_authenticated_admin Sample.env _ _ eq_refl)))
             eq_refl eq_refl).
  - apply (proj2 (proj2 (listPapers_admin_or_self Sample.cloud Sample.aliceId
                           (sample_authenticated_bob Sample.env _ _ eq_refl))) eq_refl).
    vm_compute. discriminate.
Defined.

(** C6, counterexample: the admin asks for the papers of moderator [xyz],
    which is no ObjectId; the request does not succeed: the handler is
    rejected with the cast error and writes no response. *)
Lemma listPapers_admin_malformed_id :
  isAdminClaim Sample.adminClaims = true
  /\ authenticated Sample.env (Sample.asAdmin Sample.noBody None) Sample.adminClaims
  /\ ~ (exists r,
         fst (run (listPapers Sample.env "xyz" (Sample.asAdmin Sample.noBody None))
                Sample.cloud)
         = Sent r).
Proof.
  split; [reflexivity|]. split.
  - apply (sample_authenticated_admin Sample.env). reflexivity.
  - intros [r Hr]. vm_compute in Hr. discriminate.
Qed.

Lemma admin_capability_only_from_adminLogin_witness :
  (Claims.isAdmin Sample.bobClaims = None
   /\ requireAdmin Sample.bobClaims Sample.cloud
      = (Reply {| status := 403; payload := Text "Access denied." |}, Sample.cloud))
  /\ Body.password (body Sample.adminLoginRequest) = ADMIN_PASSWORD Sample.env.
Proof.
  split.
  - destruct (proj1 (@admin_capability_only_from_adminLogin CloudFile.t _
                       Sample.env Sample.bobLogin Sample.cloud Sample.cloud
                       {| status := 200;
                          payload := TokenAndName (Signed Sample.bobClaims "k")
                                       (Some "bob"%string) |}
                       Sample.bobClaims "k" eq_refl) eq_refl) as [Hnone Hdeny].
    split; [exact Hnone | apply Hdeny].
  - apply (proj2 (@admin_capability_only_from_adminLogin CloudFile.t _
                    Sample.env Sample.adminLoginRequest Sample.cloud Sample.cloud
                    {| status := 200;
                       payload := TokenOnly (Signed Sample.adminClaims "k") |}
                    Sample.adminClaims "k" eq_refl) eq_refl).
Defined.

(** ** Deleting a paper *)

Lemma set_assets_same {F : Type} (w : World F) : set_assets w (assets w) = w.
Proof. now destruct w. Qed.

Lemma forEach_destroy (env : Env) (fs : list CloudFile.t) :
  forall w : World CloudFile.t,
  exists a,
    forEach fs (fun file => destroy env (CloudFile.public_id file)) w
    = (match find (destroy_fails env) (map CloudFile.public_id fs) with
       | Some public_id => Throw (UpstreamError public_id)
       | None => Next tt
       end,
       set_assets w a).
Proof.
  induction fs as [|f fs IH]; intros w.
  - exists (assets w). cbn. now rewrite set_assets_same.
  - cbn [forEach map find]. unfold bind. unfold destroy at 1.
    destruct (destroy_fails env (CloudFile.public_id f)).
    + exists (assets w). now rewrite set_assets_same.
    + destruct (IH (set_assets w
                      (filter (fun a => negb (a =? CloudFile.public_id f)%string)
                         (assets w)))) as [a Ha].
      exists a. cbv beta iota. rewrite Ha. reflexivity.
Qed.

Lemma filter_all {A} (l : list A) : filter (fun _ => true) l = l.
Proof. induction l as [|x l IH]; [reflexivity|]. cbn [filter]. now rewrite IH. Qed.

Lemma filter_filter_and {A} (f g : A -> bool) (l : list A) :
  filter f (filter g l) = filter (fun x => g x && f x) l.
Proof.
  induction l as [|x l IH]; [reflexivity|]. cbn [filter].
  destruct (g x); cbn [andb filter]; [|exact IH].
  destruct (f x); now rewrite IH.
Qed.

Lemma keep_noneOf (public_id : string) (public_ids l : list string) :
  filter (noneOf public_ids) (filter (fun a => negb (a =? public_id)%string) l)
  = filter (noneOf (public_id :: public_ids)) l.
Proof.
  rewrite filter_filter_and. apply filter_ext. intros a.
  unfold noneOf. cbn [existsb]. now rewrite negb_orb.
Qed.

(** The loop over [uploader.destroy] when no asset fails: every asset of the
    paper is gone from Cloudinary. *)
Lemma forEach_destroy_all (env : Env) (fs : list CloudFile.t) :
  forall w : World CloudFile.t,
  (forall g, In g fs -> destroy_fails env (CloudFile.public_id g) = false) ->
  forEach fs (fun file => destroy env (CloudFile.public_id file)) w
  = (Next tt,
     set_assets w (filter (noneOf (map CloudFile.public_id fs)) (assets w))).
Proof.
  induction fs as [|f fs IH]; intros w Hok.
  - cbn. unfold ret. now rewrite filter_all, set_assets_same.
  - cbn [forEach map]. unfold bind. unfold destroy at 1.
    rewrite (Hok f (or_introl eq_refl)). cbv beta iota.
    rewrite IH by (intros g Hg; apply Hok; now right).
    cbn [assets set_assets]. now rewrite keep_noneOf.
Qed.

(** The loop when the asset of [f] is the first that fails: the assets of
    the attachments before [f] are gone, and the loop ends there, with the
    failure. *)
Lemma forEach_destroy_stops (env : Env) (l1 : list CloudFile.t) (f : CloudFile.t)
    (l2 : list CloudFile.t) :
  forall w : World CloudFile.t,
  (forall g, In g l1 -> destroy_fails env (CloudFile.public_id g) = false) ->
  destroy_fails env (CloudFile.public_id f) = true ->
  forEach (l1 ++ f :: l2) (fun file => destroy env (CloudFile.public_id file)) w
  = (Throw (UpstreamError (CloudFile.public_id f)),
     set_assets w (filter (noneOf (map CloudFile.public_id l1)) (assets w))).
Proof.
  induction l1 as [|g l1 IH]; intros w Hok Hfails.
  - cbn [app forEach map]. unfold bind, destroy. rewrite Hfails.
    now rewrite filter_all, set_assets_same.
  - cbn [app forEach map]. unfold bind. unfold destroy at 1.
    rewrite (Hok g (or_introl eq_refl)). cbv beta iota.
    rewrite IH by (trivial; intros x Hx; apply Hok; now right).
    cbn [assets set_assets]. now rewrite keep_noneOf.
Qed.

(** C5 (as the code has it): DELETE /api/papers/:id, from the admin and on
    an existing paper, removes the paper's record before it touches any
    asset, so the record is removed whatever Cloudinary does.  In the
    Cloudinary variant a failing [destroy] is not caught: the handler's
    promise is rejected with the failure on the first asset that fails, no
    response is written, and the loop ends there: the assets of the
    attachments before the failing one are gone from Cloudinary and every other
    asset is still there, those of the later attachments included.  When no
    [destroy] fails the answer is 200 and all the paper's assets are gone.
    The local-disk variant deletes no file and always answers 200. *)
Theorem deletePaper_removes_record
    (env : Env) (id : string) (req : Request) (user : Claims.t) (o : ObjectId.t) :
  authenticated env req user ->
  isAdminClaim user = true ->
  ObjectId.cast id = Some o ->
  (forall (w : World CloudFile.t) (p : Paper.t CloudFile.t),
     find (hasId o) (papers w) = Some p ->
     papers (snd (run (Cloudinary.deletePaper env id req) w))
     = removeFirst (hasId o) (papers w)
     /\ fst (run (Cloudinary.deletePaper env id req) w)
        = match find (destroy_fails env) (map CloudFile.public_id (Paper.files p)) with
          | Some public_id => Unhandled (UpstreamError public_id)
          | None => Sent {| status := 200;
                            payload := Message "Paper deleted successfully" |}
          end
     /\ (forall l1 f l2,
           Paper.files p = l1 ++ f :: l2 ->
           (forall g, In g l1 -> destroy_fails env (CloudFile.public_id g) = false) ->
           destroy_fails env (CloudFile.public_id f) = true ->
           run (Cloudinary.deletePaper env id req) w
           = (Unhandled (UpstreamError (CloudFile.public_id f)),
              set_assets (set_papers w (removeFirst (hasId o) (papers w)))
                (filter (noneOf (map CloudFile.public_id l1)) (assets w))))
     /\ ((forall g, In g (Paper.files p) ->
                    destroy_fails env (CloudFile.public_id g) = false) ->
         run (Cloudinary.deletePaper env id req) w
         = (Sent {| status := 200; payload := Message "Paper deleted successfully" |},
            set_assets (set_papers w (removeFirst (hasId o) (papers w)))
              (filter (noneOf (map CloudFile.public_id (Paper.files p))) (assets w)))))
  /\
  (forall (w : World DiskFile.t) (p : Paper.t DiskFile.t),
     find (hasId o) (papers w) = Some p ->
     run (LocalDisk.deletePaper env id req) w
     = (Sent {| status := 200; payload := Message "Paper deleted successfully" |},
        set_papers w (removeFirst (hasId o) (papers w)))).
Proof.
  intros Hauth Hadmin Ho. split; intros w p Hfind.
  - assert (Hrun : run (Cloudinary.deletePaper env id req) w
                   = match forEach (Paper.files p)
                             (fun file => destroy env (CloudFile.public_id file))
                             (set_papers w (removeFirst (hasId o) (papers w))) with
                     | (Next _, w') =>
                         (Sent {| status := 200;
                                  payload := Message "Paper deleted successfully" |}, w')
                     | (Reply r, w') => (Sent r, w')
                     | (Throw e, w') => (Unhandled e, w')
                     end).
    { unfold run, Cloudinary.deletePaper, bind.
      rewrite (authenticate_ok w Hauth), requireAdmin_pass by exact Hadmin.
      unfold Paper_findByIdAndDelete. rewrite Ho, Hfind.
      destruct (forEach _ _ _) as [[[]|r|e] w']; reflexivity. }
    rewrite Hrun. split; [|split; [|split]].
    + destruct (forEach_destroy env (Paper.files p)
                  (set_papers w (removeFirst (hasId o) (papers w)))) as [a Ha].
      rewrite Ha.
      destruct (find (destroy_fails env) (map CloudFile.public_id (Paper.files p)));
        reflexivity.
    + destruct (forEach_destroy env (Paper.files p)
                  (set_papers w (removeFirst (hasId o) (papers w)))) as [a Ha].
      rewrite Ha.
      destruct (find (destroy_fails env) (map CloudFile.public_id (Paper.files p)));
        reflexivity.
    + intros l1 f l2 Hfiles Hok Hfails.
      rewrite Hfiles, (forEach_destroy_stops env l1 f l2 _ Hok Hfails). reflexivity.
    + intros Hok. rewrite (forEach_destroy_all env (Paper.files p) _ Hok). reflexivity.
  - unfold run, LocalDisk.deletePaper, bind.
    rewrite (authenticate_ok w Hauth), requireAdmin_pass by exact Hadmin.
    unfold Paper_findByIdAndDelete. rewrite Ho, Hfind. reflexivity.
Qed.

Lemma deletePaper_removes_record_witness :
  run (Cloudinary.deletePaper Sample.flaky Sample.paperId
         (Sample.asAdmin Sample.noBody None)) Sample.cloud
  = (Unhandled (UpstreamError "event-papers/a"),
     {| users := [Sample.alice; Sample.bob];
        papers := [];
        assets := ["event-papers/a"; "event-papers/b"];
        nextId := 10 |})
  /\ destroy_fails Sample.flaky "event-papers/b" = false.
Proof.
  destruct (@deletePaper_removes_record Sample.flaky Sample.paperId
              (Sample.asAdmin Sample.noBody None) Sample.adminClaims 1
              (sample_authenticated_admin Sample.flaky _ _ eq_refl)
              eq_refl eq_refl) as [Hcloud _].
  destruct (Hcloud Sample.cloud Sample.cloudPaper eq_refl) as [_ [_ [Hstops _]]].
  split; [|reflexivity].
  apply (Hstops []
           (CloudFile.mk 2 "https://res.example/a.pdf" "event-papers/a" "a.pdf")
           [CloudFile.mk 3 "https://res.example/b.pdf" "event-papers/b" "b.pdf"]
           eq_refl).
  - intros g [].
  - reflexivity.
Defined.

(** C5, counterexample: with Cloudinary unreachable the failure is not
    swallowed: it rejects the handler, which writes no response. *)
Lemma deletePaper_failure_not_swallowed :
  ~ (exists r,
       fst (run (Cloudinary.deletePaper Sample.offline Sample.paperId
                   (Sample.asAdmin Sample.noBody None)) Sample.cloud)
       = Sent r).
Proof. intros [r Hr]. vm_compute in Hr. discriminate. Qed.

(** * Further properties of the routes *)

(** ** What a computation does to the store, through a preorder *)

Lemma snd_run {F : Type} (h : Handler F) (w : World F) : snd (run h w) = snd (h w).
Proof. unfold run. destruct (h w) as [[a|r|e] w']; [destruct a| |]; reflexivity. Qed.

Section Respects.
Context {F : Type} `{FileSchema F}.
Variable R : World F -> World F -> Prop.
Hypothesis R_refl : forall w, R w w.
Hypothesis R_trans : forall a b c, R a b -> R b c -> R a c.

Lemma respects_pure {A} (m : Async F A) :
  (forall w, snd (m w) = w) -> respects R m.
Proof. intros Hm w. rewrite Hm. apply R_refl. Qed.

Lemma respects_ret {A} (a : A) : respects R (ret (F := F) a).
Proof. intros w. apply R_refl. Qed.

Lemma respects_reply {A} (s : N) (p : Payload F) : respects R (reply (A := A) s p).
Proof. intros w. apply R_refl. Qed.

Lemma respects_throw {A} (e : Error) : respects R (throw (F := F) (A := A) e).
Proof. intros w. apply R_refl. Qed.

Lemma respects_bind {A B} (m : Async F A) (k : A -> Async F B) :
  respects R m -> (forall a, respects R (k a)) -> respects R (bind m k).
Proof.
  intros Hm Hk w. unfold bind. specialize (Hm w).
  destruct (m w) as [[a|r|e] w']; cbn in *; trivial.
  eapply R_trans; [exact Hm | apply Hk].
Qed.

Lemma respects_try_catch {A} (m : Async F A) (h : Error -> Async F A) :
  respects R m -> (forall e, respects R (h e)) -> respects R (try_catch m h).
Proof.
  intros Hm Hh w. unfold try_catch. specialize (Hm w).
  destruct (m w) as [[a|r|e] w']; cbn in *; trivial.
  eapply R_trans; [exact Hm | apply Hh].
Qed.

Lemma respects_when (c : bool) (m : Async F unit) :
  respects R m -> respects R (when c m).
Proof. intros Hm. destruct c; [exact Hm | apply respects_ret]. Qed.

Lemma respects_forEach {A} (l : list A) (f : A -> Async F unit) :
  (forall a, respects R (f a)) -> respects R (forEach l f).
Proof.
  intros Hf. induction l as [|a l IH]; cbn [forEach]; [apply respects_ret|].
  apply respects_bind; [apply Hf | intros _; exact IH].
Qed.

Lemma respects_authenticate (env : Env) (req : Request) :
  respects R (authenticate (F := F) env req).
Proof.
  unfold authenticate. destruct (authorization req) as [token|];
    [|apply respects_reply].
  destruct (jwt_verify token (secret env)); [apply respects_ret | apply respects_reply].
Qed.

Lemma respects_run (h : Handler F) (w : World F) :
  respects R h -> R w (snd (run h w)).
Proof. intros Hh. rewrite snd_run. apply Hh. Qed.

Lemma respects_serve (app : Env -> Route -> Request -> Handler F) :
  (forall env route req, respects R (app env route req)) ->
  forall requests w, R w (serve app requests w).
Proof.
  intros Happ requests. induction requests as [|[[env route] req] rest IH];
    intros w; cbn [serve]; [apply R_refl|].
  eapply R_trans; [apply respects_run, Happ | apply IH].
Qed.

End Respects.

Ltac walk refl trans prim :=
  repeat first
    [ progress cbv beta zeta
    | apply respects_reply; exact refl
    | apply respects_ret; exact refl
    | apply respects_throw; exact refl
    | apply respects_authenticate; exact refl
    | apply respects_bind; [exact trans | | intros ?]
    | apply respects_try_catch; [exact trans | | intros ?]
    | apply respects_when; [exact refl | ]
    | apply respects_forEach; [exact refl | exact trans | intros ?]
    | prim
    | match goal with
      | |- respects _ (match ?x with _ => _ end) => destruct x
      | |- respects _ (if ?x then _ else _) => destruct x
      end ].

Ltac open_routes :=
  unfold cloudinaryApp, localDiskApp,
    Cloudinary.createPaper, Cloudinary.updatePaper, Cloudinary.deleteFile,
    Cloudinary.deletePaper, LocalDisk.createPaper, LocalDisk.updatePaper,
    LocalDisk.deleteFile, LocalDisk.deletePaper,
    adminLogin, moderatorLogin, createModerator, listModerators, deleteModerator,
    createPaper, listPapers, requireAdmin, compare, hash.

(** ** The primitives, by what they do to each collection *)

Section Primitives.
Context {F : Type} `{FileSchema F}.

Lemma Paper_findById_world id (w : World F) : snd (Paper_findById id w) = w.
Proof. unfold Paper_findById. now destruct (ObjectId.cast id). Qed.

Lemma Paper_find_world id (w : World F) : snd (Paper_find id w) = w.
Proof. unfold Paper_find. now destruct (ObjectId.cast id). Qed.

Lemma User_findOne_world name (w : World F) : snd (User_findOne name w) = w.
Proof. unfold User_findOne. now destruct name. Qed.

Lemma User_find_world (w : World F) : snd (User_find w) = w.
Proof. reflexivity. Qed.

Lemma castFiles_papers now objs (w : World F) :
  papers (snd (castFiles now objs w)) = papers w
  /\ users (snd (castFiles now objs w)) = users w.
Proof. rewrite castFiles_run. split; reflexivity. Qed.

Lemma Paper_new_papers now m t n objs (w : World F) :
  papers (snd (Paper_new now m t n objs w)) = papers w
  /\ users (snd (Paper_new now m t n objs w)) = users w.
Proof. rewrite Paper_new_run. split; reflexivity. Qed.

Lemma files_push_papers now p objs (w : World F) :
  papers (snd (files_push now p objs w)) = papers w
  /\ users (snd (files_push now p objs w)) = users w.
Proof. rewrite files_push_run. split; reflexivity. Qed.

Lemma destroy_papers env pid (w : World F) :
  papers (snd (destroy env pid w)) = papers w
  /\ users (snd (destroy env pid w)) = users w.
Proof. unfold destroy. destruct (destroy_fails env pid); split; reflexivity. Qed.

Lemma User_create_papers name pw (w : World F) :
  papers (snd (User_create name pw w)) = papers w.
Proof.
  unfold User_create, bind, throw. cbn.
  destruct (User.validate _); reflexivity.
Qed.

Lemma User_findByIdAndDelete_papers id (w : World F) :
  papers (snd (User_findByIdAndDelete id w)) = papers w.
Proof. unfold User_findByIdAndDelete. now destruct (ObjectId.cast id). Qed.

Lemma In_upsert_inv (p q : Paper.t F) (l : list (Paper.t F)) :
  In q (upsert p l) -> q = p \/ In q l.
Proof.
  induction l as [|x l IH]; cbn [upsert].
  - intros [<-|[]]. now left.
  - destruct (hasId (Paper._id p) x).
    + intros [<-|Hq]; [now left | right; now right].
    + intros [<-|Hq]; [right; now left|].
      destruct (IH Hq) as [->|Hin]; [now left | right; now right].
Qed.

Lemma In_removeFirst {A} (f : A -> bool) (x : A) (l : list A) :
  In x (removeFirst f l) -> In x l.
Proof.
  induction l as [|y l IH]; cbn [removeFirst]; [trivial|].
  destruct (f y); [now right|]. intros [<-|Hx]; [now left | right; now apply IH].
Qed.

Lemma Paper_save_users p (w : World F) : users (snd (Paper_save p w)) = users w.
Proof. unfold Paper_save. destruct (Paper.validate p); reflexivity. Qed.

Lemma Paper_save_valid p : respects staysValid (Paper_save p).
Proof.
  intros w Hw. unfold Paper_save.
  destruct (Paper.validate p) as [|path paths] eqn:Hp; [|exact Hw].
  intros q Hq. cbn in Hq. destruct (In_upsert_inv _ _ _ Hq) as [->|Hin]; auto.
Qed.

Lemma Paper_findByIdAndDelete_valid id : respects staysValid (Paper_findByIdAndDelete id).
Proof.
  intros w Hw. unfold Paper_findByIdAndDelete.
  destruct (ObjectId.cast id); [|exact Hw].
  intros q Hq. cbn in Hq. apply Hw. now apply In_removeFirst in Hq.
Qed.

Lemma Paper_findByIdAndDelete_users id (w : World F) :
  users (snd (Paper_findByIdAndDelete id w)) = users w.
Proof. unfold Paper_findByIdAndDelete. now destruct (ObjectId.cast id). Qed.

Lemma Paper_deleteMany_valid id : respects staysValid (Paper_deleteMany id).
Proof.
  intros w Hw. unfold Paper_deleteMany.
  destruct (ObjectId.cast id); [|exact Hw].
  intros q Hq. cbn in Hq. apply filter_In in Hq. now apply Hw.
Qed.

Lemma same_papers_valid {A} (m : Async F A) :
  (forall w, papers (snd (m w)) = papers w) -> respects staysValid m.
Proof. intros Hm w Hw q Hq. apply Hw. now rewrite <- Hm. Qed.

Lemma staysValid_refl (w : World F) : staysValid w w.
Proof. now intros Hw. Qed.

Lemma staysValid_trans (a b c : World F) :
  staysValid a b -> staysValid b c -> staysValid a c.
Proof. unfold staysValid. auto. Qed.

End Primitives.

Ltac valid_prim :=
  first
    [ apply Paper_save_valid
    | apply Paper_findByIdAndDelete_valid
    | apply Paper_deleteMany_valid
    | apply same_papers_valid; intros ?;
      first [ now rewrite Paper_findById_world
            | now rewrite Paper_find_world
            | now rewrite User_findOne_world
            | reflexivity
            | apply Paper_new_papers
            | apply castFiles_papers
            | apply files_push_papers
            | apply destroy_papers
            | apply User_create_papers
            | apply User_findByIdAndDelete_papers ] ].

Lemma cloudinaryApp_valid env route req :
  respects staysValid (cloudinaryApp env route req).
Proof.
  destruct route; open_routes;
    walk (@staysValid_refl CloudFile.t _) (@staysValid_trans CloudFile.t _) valid_prim.
Qed.

Lemma localDiskApp_valid env route req :
  respects staysValid (localDiskApp env route req).
Proof.
  destruct route; open_routes;
    walk (@staysValid_refl DiskFile.t _) (@staysValid_trans DiskFile.t _) valid_prim.
Qed.

(** ** The schema as an invariant of the store *)

Lemma validateString_nil (path : string) (m : nat) (v : option string) :
  validateString path (Some m) v = [] <->
  exists s, v = Some s /\ s <> ""%string /\ (String.length s <= m)%nat.
Proof.
  unfold validateString. destruct v as [s|].
  - destruct (s =? "")%string eqn:He.
    + apply String.eqb_eq in He. split; [discriminate|].
      intros [s' [Hs [Hne _]]]. inversion Hs; subst. now destruct Hne.
    + apply String.eqb_neq in He. destruct (Nat.ltb m (String.length s)) eqn:Hl.
      * apply Nat.ltb_lt in Hl. split; [discriminate|].
        intros [s' [Hs [_ Hle]]]. inversion Hs; subst. lia.
      * apply Nat.ltb_ge in Hl. split; [|reflexivity].
        intros _. exists s. auto.
  - split; [discriminate|]. intros [s [Hs _]]. discriminate.
Qed.

Lemma validateFiles_nil {F : Type} `{FileSchema F} (fs : list F) : forall i,
  Paper.validateFiles i fs = [] <-> Forall (fun f => sub_validate f = []) fs.
Proof.
  induction fs as [|f fs IH]; intros i; cbn [Paper.validateFiles].
  - split; [constructor | reflexivity].
  - split.
    + intros Hnil. apply app_eq_nil in Hnil. destruct Hnil as [Hf Hrest].
      constructor; [|now apply (IH (S i))].
      destruct (sub_validate f); [reflexivity | discriminate].
    + intros Hall. inversion Hall as [|x xs Hf Hrest]; subst.
      rewrite Hf. cbn [map app]. now apply IH.
Qed.

Lemma validate_withinSchema {F : Type} `{FileSchema F} (p : Paper.t F) :
  Paper.validate p = [] <-> withinSchema p.
Proof.
  unfold Paper.validate, withinSchema. split.
  - intros Hnil.
    apply app_eq_nil in Hnil. destruct Hnil as [Hmod Hnil].
    apply app_eq_nil in Hnil. destruct Hnil as [Htitle Hnil].
    apply app_eq_nil in Hnil. destruct Hnil as [Hnote Hfiles].
    repeat split.
    + destruct (Paper.moderatorId p) as [|o|raw]; try discriminate. eauto.
    + exact (proj1 (validateString_nil _ _ _) Htitle).
    + exact (proj1 (validateString_nil _ _ _) Hnote).
    + now apply (validateFiles_nil (Paper.files p) 0).
  - intros [[o Ho] [Ht [Hn Hfs]]]. rewrite Ho.
    rewrite (proj2 (validateString_nil "title" 100 _) Ht).
    rewrite (proj2 (validateString_nil "note" 500 _) Hn).
    now apply (validateFiles_nil (Paper.files p) 0).
Qed.

(** X1: whatever requests are served, in whatever environments, a store
    whose papers pass the schema's validators keeps that property: every
    stored paper has a moderatorId that is an ObjectId, a title of 1 to 100
    characters, a note of 1 to 500 characters and attachments whose required
    fields are filled.  Both variants. *)
Theorem stored_papers_within_schema :
  (forall requests (w : World CloudFile.t),
     validStore w ->
     forall p, In p (papers (serve cloudinaryApp requests w)) -> withinSchema p)
  /\
  (forall requests (w : World DiskFile.t),
     validStore w ->
     forall p, In p (papers (serve localDiskApp requests w)) -> withinSchema p).
Proof.
  split; intros requests w Hw p Hp; apply validate_withinSchema; revert p Hp.
  - apply (@respects_serve CloudFile.t staysValid (@staysValid_refl _ _)
             (@staysValid_trans _ _) cloudinaryApp cloudinaryApp_valid requests w Hw).
  - apply (@respects_serve DiskFile.t staysValid (@staysValid_refl _ _)
             (@staysValid_trans _ _) localDiskApp localDiskApp_valid requests w Hw).
Qed.

Lemma stored_papers_within_schema_witness :
  withinSchema
    (hd Sample.cloudPaper
       (papers (serve cloudinaryApp
                  [(Sample.later, UpdatePaper Sample.paperId, Sample.addC)]
                  Sample.cloud))).
Proof.
  apply (proj1 stored_papers_within_schema
           [(Sample.later, UpdatePaper Sample.paperId, Sample.addC)] Sample.cloud).
  - intros p [<-|[]]. reflexivity.
  - left. reflexivity.
Defined.

(** ** Which collection a route writes to *)

Section Frames.
Context {F : Type}.

Lemma untouched_refl (w : World F) : untouched w w.
Proof. reflexivity. Qed.

Lemma untouched_trans (a b c : World F) : untouched a b -> untouched b c -> untouched a c.
Proof. unfold untouched. intros -> ->. reflexivity. Qed.

Lemma sameUsers_refl (w : World F) : sameUsers w w.
Proof. reflexivity. Qed.

Lemma sameUsers_trans (a b c : World F) : sameUsers a b -> sameUsers b c -> sameUsers a c.
Proof. unfold sameUsers. intros Hab Hbc. now rewrite Hbc. Qed.

Lemma samePapers_refl (w : World F) : samePapers w w.
Proof. reflexivity. Qed.

Lemma samePapers_trans (a b c : World F) :
  samePapers a b -> samePapers b c -> samePapers a c.
Proof. unfold samePapers. intros Hab Hbc. now rewrite Hbc. Qed.

End Frames.

Ltac untouched_prim :=
  intros ?; unfold untouched;
  first [ apply Paper_findById_world | apply Paper_find_world
        | apply User_findOne_world | apply User_find_world ].

Ltac users_prim :=
  intros ?; unfold sameUsers;
  first [ now rewrite Paper_findById_world | now rewrite Paper_find_world
        | now rewrite User_findOne_world | reflexivity
        | apply Paper_new_papers | apply castFiles_papers | apply files_push_papers
        | apply destroy_papers | apply Paper_save_users
        | apply Paper_findByIdAndDelete_users ].

Ltac papers_prim :=
  intros ?; unfold samePapers;
  first [ now rewrite Paper_findById_world | now rewrite Paper_find_world
        | now rewrite User_findOne_world | reflexivity
        | apply User_create_papers | apply User_findByIdAndDelete_papers ].

Lemma cloudinaryApp_frames env route req :
  (readOnly route = true -> respects untouched (cloudinaryApp env route req))
  /\ (writesUsers route = false -> respects sameUsers (cloudinaryApp env route req))
  /\ (writesPapers route = false -> respects samePapers (cloudinaryApp env route req)).
Proof.
  repeat split; destruct route; intros Hroute; try discriminate Hroute; open_routes.
  all: first
    [ solve [walk (@untouched_refl CloudFile.t) (@untouched_trans CloudFile.t)
               untouched_prim]
    | solve [walk (@sameUsers_refl CloudFile.t) (@sameUsers_trans CloudFile.t)
               users_prim]
    | solve [walk (@samePapers_refl CloudFile.t) (@samePapers_trans CloudFile.t)
               papers_prim] ].
Qed.

Lemma localDiskApp_frames env route req :
  (readOnly route = true -> respects untouched (localDiskApp env route req))
  /\ (writesUsers route = false -> respects sameUsers (localDiskApp env route req))
  /\ (writesPapers route = false -> respects samePapers (localDiskApp env route req)).
Proof.
  repeat split; destruct route; intros Hroute; try discriminate Hroute; open_routes.
  all: first
    [ solve [walk (@untouched_refl DiskFile.t) (@untouched_trans DiskFile.t)
               untouched_prim]
    | solve [walk (@sameUsers_refl DiskFile.t) (@sameUsers_trans DiskFile.t)
               users_prim]
    | solve [walk (@samePapers_refl DiskFile.t) (@samePapers_trans DiskFile.t)
               papers_prim] ].
Qed.

(** X2: the two logins and the two listings leave the store exactly as it
    was; only the creation and the deletion of a moderator write to the user
    collection; and the paper collection is written only by the paper routes
    and by the deletion of a moderator.  Both variants. *)
Theorem routes_write_only_their_collections
    (env : Env) (route : Route) (req : Request) :
  (forall w : World CloudFile.t,
     (readOnly route = true -> snd (run (cloudinaryApp env route req) w) = w)
     /\ (writesUsers route = false ->
         users (snd (run (cloudinaryApp env route req) w)) = users w)
     /\ (writesPapers route = false ->
         papers (snd (run (cloudinaryApp env route req) w)) = papers w))
  /\
  (forall w : World DiskFile.t,
     (readOnly route = true -> snd (run (localDiskApp env route req) w) = w)
     /\ (writesUsers route = false ->
         users (snd (run (localDiskApp env route req) w)) = users w)
     /\ (writesPapers route = false ->
         papers (snd (run (localDiskApp env route req) w)) = papers w)).
Proof.
  split; intros w; rewrite snd_run.
  - destruct (cloudinaryApp_frames env route req) as [Hro [Hu Hp]].
    repeat split; intros Hroute; [apply Hro | apply Hu | apply Hp]; exact Hroute.
  - destruct (localDiskApp_frames env route req) as [Hro [Hu Hp]].
    repeat split; intros Hroute; [apply Hro | apply Hu | apply Hp]; exact Hroute.
Qed.

Lemma routes_write_only_their_collections_witness :
  snd (run (cloudinaryApp Sample.env ModeratorLogin Sample.bobLogin) Sample.cloud)
  = Sample.cloud
  /\ users (snd (run (localDiskApp Sample.later (UpdatePaper Sample.paperId) Sample.addC)
                   Sample.disk))
     = users Sample.disk.
Proof.
  split.
  - apply (proj1 (routes_write_only_their_collections Sample.env ModeratorLogin
                    Sample.bobLogin) Sample.cloud). reflexivity.
  - apply (proj2 (routes_write_only_their_collections Sample.later
                    (UpdatePaper Sample.paperId) Sample.addC) Sample.disk).
    reflexivity.
Defined.

(** ** The middleware and the guard, on every route *)

Lemma authenticate_refusal {F A : Type} (env : Env) (req : Request)
    (r : Response F) (K : Claims.t -> Async F A) (w : World F) :
  refusal env req = Some r ->
  (user <- authenticate env req ;; K user) w = (Reply r, w).
Proof.
  unfold refusal, bind, authenticate.
  destruct (authorization req) as [token|].
  - destruct (jwt_verify token (secret env)); [discriminate|].
    intros Hr; inversion Hr; reflexivity.
  - intros Hr; inversion Hr; reflexivity.
Qed.

Lemma guard_deny {F A : Type} (env : Env) (req : Request) (user : Claims.t)
    (K : Claims.t -> Async F A) (w : World F) :
  authenticated env req user ->
  isAdminClaim user = false ->
  (user <- authenticate env req ;; _ <- requireAdmin user ;; K user) w
  = (Reply {| status := 403; payload := Text "Access denied." |}, w).
Proof.
  intros Hauth Hadmin. unfold bind at 1. rewrite (authenticate_ok w Hauth).
  unfold bind. now rewrite requireAdmin_deny.
Qed.

(** X3: a request without a token gets 401 and a request whose token does
    not verify gets 400 from every route registered behind [authenticate], in
    both variants, and the store is left as it was. *)
Theorem protected_routes_need_a_token (env : Env) (route : Route) (req : Request) :
  protected route = true ->
  (forall (r : Response CloudFile.t) (w : World CloudFile.t),
     refusal env req = Some r ->
     (status r = 401 \/ status r = 400)
     /\ run (cloudinaryApp env route req) w = (Sent r, w))
  /\
  (forall (r : Response DiskFile.t) (w : World DiskFile.t),
     refusal env req = Some r ->
     (status r = 401 \/ status r = 400)
     /\ run (localDiskApp env route req) w = (Sent r, w)).
Proof.
  intros Hroute. split; intros r w Hr; (split; [unfold refusal in Hr;
    destruct (authorization req) as [token|];
      [destruct (jwt_verify token (secret env)); [discriminate|]|];
    inversion Hr; cbn; auto|]).
  all: destruct route; try discriminate Hroute;
    unfold cloudinaryApp, localDiskApp,
      Cloudinary.createPaper, Cloudinary.updatePaper, Cloudinary.deleteFile,
      Cloudinary.deletePaper, LocalDisk.createPaper, LocalDisk.updatePaper,
      LocalDisk.deleteFile, LocalDisk.deletePaper,
      createModerator, listModerators, deleteModerator, createPaper, listPapers, run;
    now rewrite (authenticate_refusal _ _ _ _ Hr).
Qed.

Lemma protected_routes_need_a_token_witness :
  run (cloudinaryApp Sample.env (DeletePaper Sample.paperId) Sample.bobLogin)
    Sample.cloud
  = (Sent {| status := 401; payload := Text "Access denied. No token provided." |},
     Sample.cloud).
Proof.
  apply (proj1 (protected_routes_need_a_token Sample.env (DeletePaper Sample.paperId)
                  Sample.bobLogin eq_refl)).
  reflexivity.
Defined.

Lemma upload_guard_deny {F A : Type} (env : Env) (stored : Upload.t -> string)
    (req : Request) (user : Claims.t) (K : Claims.t -> Async F A) (w : World F) :
  authenticated env req user ->
  isAdminClaim user = false ->
  (user <- authenticate env req ;; _ <- upload stored req ;;
   _ <- requireAdmin user ;; K user) w
  = (Reply {| status := 403; payload := Text "Access denied." |},
     afterUpload stored req w).
Proof.
  intros Hauth Hadmin. unfold bind at 1. rewrite (authenticate_ok w Hauth).
  unfold bind. rewrite upload_run. now rewrite requireAdmin_deny.
Qed.

(** X4: an authenticated caller whose claims have no truthy [isAdmin] gets
    403 from every route that starts with the admin guard: in the local-disk
    variant every protected route but the listing of a moderator's papers, in
    the Cloudinary variant the same but for the removal of an attachment.
    Users and papers are left as they were, and so is the whole store on the
    routes that take no files; on the creation and the update of a paper the
    files of the refused request have been stored all the same, since
    [upload.array('files')] runs before the guard. *)
Theorem admin_routes_refuse_moderators
    (env : Env) (route : Route) (req : Request) (user : Claims.t) :
  authenticated env req user ->
  isAdminClaim user = false ->
  (cloudinaryAdminOnly route = true ->
   forall w : World CloudFile.t,
     run (cloudinaryApp env route req) w
     = (Sent {| status := 403; payload := Text "Access denied." |},
        reached Cloudinary.stored route req w)
     /\ users (reached Cloudinary.stored route req w) = users w
     /\ papers (reached Cloudinary.stored route req w) = papers w
     /\ assets (reached Cloudinary.stored route req w)
        = assets w
          ++ (if takesFiles route then map Upload.filename (uploadsOf req) else []))
  /\
  (localDiskAdminOnly route = true ->
   forall w : World DiskFile.t,
     run (localDiskApp env route req) w
     = (Sent {| status := 403; payload := Text "Access denied." |},
        reached LocalDisk.stored route req w)
     /\ users (reached LocalDisk.stored route req w) = users w
     /\ papers (reached LocalDisk.stored route req w) = papers w
     /\ assets (reached LocalDisk.stored route req w)
        = assets w
          ++ (if takesFiles route then map Upload.path (uploadsOf req) else [])).
Proof.
  intros Hauth Hadmin. split; intros Hroute w.
  all: split;
    [|unfold reached; destruct (takesFiles route); cbn;
      rewrite ?app_nil_r; repeat split].
  all: destruct route; try discriminate Hroute;
    unfold cloudinaryApp, localDiskApp, reached, takesFiles,
      Cloudinary.createPaper, Cloudinary.updatePaper,
      Cloudinary.deletePaper, LocalDisk.createPaper, LocalDisk.updatePaper,
      LocalDisk.deleteFile, LocalDisk.deletePaper,
      createModerator, listModerators, deleteModerator, createPaper, run;
    first [ now rewrite (@guard_deny _ _ env req user _ w Hauth Hadmin)
          | now rewrite (@upload_guard_deny _ _ env _ req user _ w Hauth Hadmin) ].
Qed.

Lemma admin_routes_refuse_moderators_witness :
  run (localDiskApp Sample.env (DeleteFile Sample.paperId Sample.fileA)
         (Sample.asBob Sample.noBody None)) Sample.disk
  = (Sent {| status := 403; payload := Text "Access denied." |}, Sample.disk)
  /\ run (cloudinaryApp Sample.env CreatePaper
            (Sample.asBob Sample.forAlice (Some [Sample.upC]))) Sample.cloud
     = (Sent {| status := 403; payload := Text "Access denied." |},
        {| users := [Sample.alice; Sample.bob];
           papers := [Sample.cloudPaper];
           assets := ["event-papers/a"; "event-papers/b"; "event-papers/c"];
           nextId := 10 |}).
Proof.
  split.
  - apply (proj2 (admin_routes_refuse_moderators
                    (DeleteFile Sample.paperId Sample.fileA)
                    (sample_authenticated_bob Sample.env Sample.noBody None eq_refl)
                    eq_refl) eq_refl).
  - apply (proj1 (admin_routes_refuse_moderators CreatePaper
                    (sample_authenticated_bob Sample.env Sample.forAlice
                       (Some [Sample.upC]) eq_refl)
                    eq_refl) eq_refl).
Defined.

(** ** Moderators *)

Lemma removeFirst_none {A} (f : A -> bool) (l : list A) :
  find f l = None -> removeFirst f l = l.
Proof.
  induction l as [|x l IH]; cbn [find removeFirst]; [reflexivity|].
  destruct (f x); [discriminate|]. intros Hl. now rewrite IH.
Qed.

Lemma set_users_same {F : Type} (w : World F) : set_users w (users w) = w.
Proof. now destruct w. Qed.

Lemma set_papers_same {F : Type} (w : World F) : set_papers w (papers w) = w.
Proof. now destruct w. Qed.

Lemma filter_not_owned {F : Type} (o : ObjectId.t) (l : list (Paper.t F)) :
  filter (ownedBy o) (filter (fun p => negb (ownedBy o p)) l) = [].
Proof.
  induction l as [|p l IH]; [reflexivity|]. cbn [filter].
  destruct (ownedBy o p) eqn:Hp; cbn [negb filter]; [exact IH|].
  now rewrite Hp.
Qed.

Lemma find_app {A} (f : A -> bool) (l l' : list A) :
  find f (l ++ l') = match find f l with Some x => Some x | None => find f l' end.
Proof.
  induction l as [|x l IH]; [reflexivity|]. cbn [app find].
  now destruct (f x).
Qed.

Lemma find_none_iff {A} (f : A -> bool) (l : list A) :
  find f l = None <-> forall x, In x l -> f x = false.
Proof.
  split; [apply find_none|].
  induction l as [|x l IH]; [reflexivity|]. intros Hall. cbn [find].
  rewrite (Hall x (or_introl eq_refl)). apply IH. intros y Hy. apply Hall. now right.
Qed.

(** X5: when the admin deletes an existing moderator, the answer is 200,
    the moderator is gone from the user collection, and of the papers exactly
    those of the other owners remain, in their order; a listing of the deleted
    moderator's papers asked by the admin right after is empty. *)
Theorem deleteModerator_cascades
    {F : Type} `{FileSchema F} (env : Env) (id : string) (req : Request)
    (user : Claims.t) (o : ObjectId.t) (u : User.t) (w : World F) :
  authenticated env req user ->
  isAdminClaim user = true ->
  ObjectId.cast id = Some o ->
  find (fun x => ObjectId.eqb (User._id x) o) (users w) = Some u ->
  let w' := snd (run (deleteModerator env id req) w) in
  fst (run (deleteModerator env id req) w)
  = Sent {| status := 200; payload := Message "Moderator deleted successfully" |}
  /\ users w' = removeFirst (fun x => ObjectId.eqb (User._id x) o) (users w)
  /\ papers w' = filter (fun p => negb (ownedBy o p)) (papers w)
  /\ run (listPapers env id req) w'
     = (Sent {| status := 200; payload := PaperDocs [] |}, w').
Proof.
  intros Hauth Hadmin Ho Hu.
  assert (Hrun : run (deleteModerator env id req) w
                 = (Sent {| status := 200;
                            payload := Message "Moderator deleted successfully" |},
                    set_papers
                      (set_users w
                         (removeFirst (fun x => ObjectId.eqb (User._id x) o) (users w)))
                      (filter (fun p => negb (ownedBy o p)) (papers w)))).
  { unfold run, deleteModerator, bind.
    rewrite (authenticate_ok w Hauth), requireAdmin_pass by exact Hadmin.
    unfold User_findByIdAndDelete. rewrite Ho. cbv zeta. rewrite Hu.
    unfold Paper_deleteMany. rewrite Ho. reflexivity. }
  cbv zeta. rewrite Hrun. cbn [fst snd users papers set_papers set_users].
  repeat split.
  unfold run, listPapers, bind.
  match goal with |- context [authenticate env req ?w1] =>
    rewrite (authenticate_ok w1 Hauth) end.
  rewrite Hadmin. cbn [negb andb when ret]. unfold Paper_find. rewrite Ho.
  cbn [papers set_papers]. now rewrite filter_not_owned.
Qed.

Lemma deleteModerator_cascades_witness :
  papers (snd (run (deleteModerator Sample.env Sample.aliceId
                      (Sample.asAdmin Sample.noBody None)) Sample.cloud))
  = []
  /\ users (snd (run (deleteModerator Sample.env Sample.aliceId
                        (Sample.asAdmin Sample.noBody None)) Sample.cloud))
     = [Sample.bob].
Proof.
  destruct (@deleteModerator_cascades CloudFile.t _ Sample.env Sample.aliceId
              (Sample.asAdmin Sample.noBody None) Sample.adminClaims 7 Sample.alice
              Sample.cloud
              (sample_authenticated_admin Sample.env _ _ eq_refl)
              eq_refl eq_refl eq_refl) as [_ [Husers [Hpapers _]]].
  split; [exact Hpapers | exact Husers].
Defined.

(** X6: the deletion of a moderator whose id is well formed but names no
    user answers 404 and leaves users and papers as they were: no paper is
    deleted for an id that is not a moderator's. *)
Theorem deleteModerator_unknown
    {F : Type} `{FileSchema F} (env : Env) (id : string) (req : Request)
    (user : Claims.t) (o : ObjectId.t) (w : World F) :
  authenticated env req user ->
  isAdminClaim user = true ->
  ObjectId.cast id = Some o ->
  (forall x, In x (users w) -> User._id x <> o) ->
  run (deleteModerator env id req) w
  = (Sent {| status := 404; payload := Text "Moderator not found." |}, w).
Proof.
  intros Hauth Hadmin Ho Hno.
  assert (Hfind : find (fun x => ObjectId.eqb (User._id x) o) (users w) = None).
  { apply find_none_iff. intros x Hx. apply N.eqb_neq. now apply Hno. }
  unfold run, deleteModerator, bind.
  rewrite (authenticate_ok w Hauth), requireAdmin_pass by exact Hadmin.
  unfold User_findByIdAndDelete. rewrite Ho. cbv zeta. rewrite Hfind.
  rewrite (removeFirst_none _ _ Hfind), set_users_same. reflexivity.
Qed.

Lemma deleteModerator_unknown_witness :
  run (deleteModerator Sample.env Sample.nobody (Sample.asAdmin Sample.noBody None))
    Sample.cloud
  = (Sent {| status := 404; payload := Text "Moderator not found." |}, Sample.cloud).
Proof.
  apply (@deleteModerator_unknown CloudFile.t _ Sample.env Sample.nobody
           (Sample.asAdmin Sample.noBody None) Sample.adminClaims
           24912482966938930280208240657 Sample.cloud
           (sample_authenticated_admin Sample.env _ _ eq_refl) eq_refl eq_refl).
  intros x [<-|[<-|[]]]; vm_compute; discriminate.
Defined.

(** X7: registering a username that a user already has answers 400
    (Moderator already registered) and leaves the store as it was. *)
Theorem createModerator_taken
    {F : Type} `{FileSchema F} (env : Env) (req : Request) (user : Claims.t)
    (name : string) (u : User.t) (w : World F) :
  authenticated env req user ->
  isAdminClaim user = true ->
  Body.username (body req) = Some name ->
  In u (users w) ->
  User.username u = Some name ->
  run (createModerator env req) w
  = (Sent {| status := 400; payload := Text "Moderator already registered." |}, w).
Proof.
  intros Hauth Hadmin Hname Hin Hu.
  unfold run, createModerator, bind.
  rewrite (authenticate_ok w Hauth), requireAdmin_pass by exact Hadmin.
  unfold User_findOne. rewrite Hname.
  destruct (find (fun x => strictEq (User.username x) (Some name)) (users w))
    as [found|] eqn:Hfind; [reflexivity|].
  exfalso. pose proof (find_none _ _ Hfind u Hin) as Hnone. cbn beta in Hnone.
  rewrite Hu in Hnone. cbn in Hnone. now rewrite String.eqb_refl in Hnone.
Qed.

Lemma createModerator_taken_witness :
  run (createModerator Sample.env Sample.registerBob) Sample.cloud
  = (Sent {| status := 400; payload := Text "Moderator already registered." |},
     Sample.cloud).
Proof.
  apply (@createModerator_taken CloudFile.t _ Sample.env Sample.registerBob
           Sample.adminClaims "bob" Sample.bob Sample.cloud
           (sample_authenticated_admin Sample.env _ _ eq_refl) eq_refl eq_refl).
  - right. left. reflexivity.
  - reflexivity.
Defined.

(** X8: a moderator the admin registers can log in.  When the username is
    not empty and not taken, the registration answers 200 and appends the
    user with the hashed password; a login with the same username and
    password then answers 200 with a token whose claims are the new user's id
    and username, provided [bcrypt.compare] accepts the password against the
    hash [bcrypt.hash] made of it. *)
Theorem register_then_login
    {F : Type} `{FileSchema F} (env env' : Env) (req login : Request)
    (user : Claims.t) (name pw : string) (w : World F) :
  authenticated env req user ->
  isAdminClaim user = true ->
  Body.username (body req) = Some name ->
  Body.password (body req) = Some pw ->
  name <> ""%string ->
  (forall x, In x (users w) -> User.username x <> Some name) ->
  bcrypt_hash env pw (genSalt env) <> ""%string ->
  Body.username (body login) = Some name ->
  Body.password (body login) = Some pw ->
  bcrypt_compare env' pw (bcrypt_hash env pw (genSalt env)) = true ->
  let created := User.mk (nextId w) (Some name) (bcrypt_hash env pw (genSalt env)) in
  let w1 := snd (run (createModerator env req) w) in
  fst (run (createModerator env req) w)
  = Sent {| status := 200; payload := UserName (Some name) |}
  /\ users w1 = users w ++ [created]
  /\ run (moderatorLogin env' login) w1
     = (Sent {| status := 200;
                payload :=
                  TokenAndName
                    (jwt_sign (Claims.mk (ObjectId.toString (nextId w)) None (Some name))
                       (secret env'))
                    (Some name) |},
        w1).
Proof.
  intros Hauth Hadmin Hname Hpw Hne Hfree Hhash Hlname Hlpw Hcmp.
  assert (Hnone : find (fun x => strictEq (User.username x) (Some name)) (users w)
                  = None).
  { apply find_none_iff. intros x Hx. specialize (Hfree x Hx).
    destruct (User.username x) as [n|]; cbn; [|reflexivity].
    apply String.eqb_neq. congruence. }
  assert (Hrun : run (createModerator env req) w
                 = (Sent {| status := 200; payload := UserName (Some name) |},
                    set_users (drawn 1 w)
                      (users w
                       ++ [User.mk (nextId w) (Some name)
                             (bcrypt_hash env pw (genSalt env))]))).
  { unfold run, createModerator, bind.
    rewrite (authenticate_ok w Hauth), requireAdmin_pass by exact Hadmin.
    unfold User_findOne. rewrite Hname, Hnone. unfold hash. rewrite Hpw.
    unfold User_create, bind, ret.
    change (newObjectId w) with (Next (F := F) (nextId w), drawn 1 w).
    cbv beta iota zeta. unfold User.validate, validateString.
    cbn [User.username User.password].
    apply String.eqb_neq in Hne, Hhash. rewrite Hne, Hhash. reflexivity. }
  cbv zeta. rewrite Hrun. cbn [fst snd users set_users]. repeat split.
  unfold run, moderatorLogin, bind, User_findOne. rewrite Hlname.
  cbn [users set_users]. rewrite find_app, Hnone. cbn [find User.username strictEq].
  rewrite String.eqb_refl. unfold compare. rewrite Hlpw.
  cbn [ret User.password]. rewrite Hcmp. reflexivity.
Qed.

Lemma register_then_login_witness :
  users (snd (run (createModerator Sample.env Sample.registerCarol) Sample.cloud))
  = [Sample.alice; Sample.bob; User.mk 10 (Some "carol") "salt$pw"].
Proof.
  assert (Hfree : forall x, In x (users Sample.cloud) ->
                            User.username x <> Some "carol"%string)
    by (intros x [<-|[<-|[]]]; discriminate).
  assert (Hhash : bcrypt_hash Sample.env "pw" (genSalt Sample.env) <> ""%string)
    by (vm_compute; discriminate).
  assert (Hname : "carol"%string <> ""%string) by discriminate.
  destruct (@register_then_login CloudFile.t _ Sample.env Sample.env
              Sample.registerCarol Sample.carolLogin
              Sample.adminClaims "carol" "pw" Sample.cloud
              (sample_authenticated_admin Sample.env _ _ eq_refl)
              eq_refl eq_refl eq_refl Hname Hfree Hhash eq_refl eq_refl eq_refl)
    as [_ [Husers _]].
  exact Husers.
Defined.

(** ** Logging in *)

(** X9: a moderator login with a username and a password always answers and
    never changes the store; it answers 200 exactly when there is a user with
    that username whose stored hash [bcrypt.compare] accepts for the password;
    otherwise the answer is the same 400 whether the username is unknown or
    the password is wrong. *)
Theorem moderatorLogin_outcome
    {F : Type} `{FileSchema F} (env : Env) (req : Request) (name pw : string)
    (w : World F) :
  Body.username (body req) = Some name ->
  Body.password (body req) = Some pw ->
  exists r,
    run (moderatorLogin env req) w = (Sent r, w)
    /\ (status r = 200 <->
        exists u,
          find (fun x => strictEq (User.username x) (Some name)) (users w) = Some u
          /\ bcrypt_compare env pw (User.password u) = true)
    /\ (status r <> 200 ->
        r = {| status := 400; payload := Text "Invalid username or password." |}).
Proof.
  intros Hname Hpw. unfold run, moderatorLogin, bind, User_findOne, compare.
  rewrite Hname, Hpw.
  destruct (find (fun x => strictEq (User.username x) (Some name)) (users w))
    as [u|] eqn:Hfind.
  - cbn [ret]. destruct (bcrypt_compare env pw (User.password u)) eqn:Hcmp; cbn [negb].
    + eexists. split; [reflexivity|]. split; [|cbn; intros Hne; now destruct Hne].
      split; [intros _; exists u; auto | reflexivity].
    + eexists. split; [reflexivity|]. split; [|reflexivity].
      cbn. split; [discriminate|].
      intros [u' [Hu' Hc]]. inversion Hu'; subst. congruence.
  - eexists. split; [reflexivity|]. split; [|reflexivity].
    cbn. split; [discriminate|]. intros [u' [Hu' _]]. discriminate.
Qed.

Lemma moderatorLogin_outcome_witness :
  exists r,
    run (moderatorLogin Sample.env Sample.bobLogin) Sample.cloud = (Sent r, Sample.cloud)
    /\ status r = 200.
Proof.
  destruct (@moderatorLogin_outcome CloudFile.t _ Sample.env Sample.bobLogin
              "bob" "builder" Sample.cloud eq_refl eq_refl) as [r [Hrun [Hok _]]].
  exists r. split; [exact Hrun|].
  apply Hok. exists Sample.bob. split; reflexivity.
Defined.

Lemma strictEq_refl (a : option string) : strictEq a a = true.
Proof. destruct a as [x|]; [apply String.eqb_refl | reflexivity]. Qed.

(** X10: the admin login always answers and never changes the store; it
    answers 200 exactly when the username is ['admin'] and the password field
    is the value of ADMIN_PASSWORD, and 400 (Invalid credentials) otherwise.
    A missing password field equals an ADMIN_PASSWORD that is not set: in an
    environment without ADMIN_PASSWORD the username alone opens the admin
    login. *)
Theorem adminLogin_outcome
    {F : Type} `{FileSchema F} (env : Env) (req : Request) (w : World F) :
  exists r,
    run (adminLogin env req) w = (Sent r, w)
    /\ (status r = 200 <->
        Body.username (body req) = Some "admin"%string
        /\ Body.password (body req) = ADMIN_PASSWORD env)
    /\ (status r <> 200 ->
        r = {| status := 400; payload := Text "Invalid credentials" |})
    /\ (ADMIN_PASSWORD env = None ->
        Body.username (body req) = Some "admin"%string ->
        Body.password (body req) = None ->
        issuedToken r
        = Some (jwt_sign (Claims.mk "admin" (Some true) None) (secret env))).
Proof.
  unfold run, adminLogin.
  destruct (strictEq (Body.username (body req)) (Some "admin")) eqn:Hu;
    destruct (strictEq (Body.password (body req)) (ADMIN_PASSWORD env)) eqn:Hp;
    cbn [negb orb]; eexists; (split; [reflexivity|]); cbn [status issuedToken payload].
  - apply strictEq_eq in Hu, Hp. repeat split; auto. intros Hne. now destruct Hne.
  - split; [|split; [reflexivity|]].
    + split; [discriminate|]. intros [_ Heq]. rewrite Heq, strictEq_refl in Hp.
      discriminate.
    + intros Henv _ Hpw. rewrite Henv, Hpw in Hp. discriminate.
  - split; [|split; [reflexivity|]].
    + split; [discriminate|]. intros [Heq _]. rewrite Heq in Hu. discriminate.
    + intros _ Hname _. rewrite Hname in Hu. discriminate.
  - split; [|split; [reflexivity|]].
    + split; [discriminate|]. intros [Heq _]. rewrite Heq in Hu. discriminate.
    + intros _ Hname _. rewrite Hname in Hu. discriminate.
Qed.

(** X11: the token of a successful admin login gets its holder through the
    middleware and the admin guard of any process that uses the same signing
    secret, and is turned away with 400 (Invalid token) by a process whose
    secret differs. *)
Theorem adminLogin_token_is_admin
    {F : Type} `{FileSchema F} (env env' : Env) (login req : Request)
    (w w' : World F) (r : Response F) (token : Token) :
  run (adminLogin env login) w = (Sent r, w') ->
  issuedToken r = Some token ->
  authorization req = Some token ->
  (secret env' = secret env ->
   exists user, authenticated env' req user /\ isAdminClaim user = true)
  /\ (secret env' <> secret env ->
      refusal (F := F) env' req
      = Some {| status := 400; payload := Text "Invalid token." |}).
Proof.
  intros Hrun Htok Hreq.
  destruct (adminLogin_claims _ _ _ Hrun Htok) as [-> _]. split.
  - intros Hsecret. exists (Claims.mk "admin" (Some true) None).
    split; [|reflexivity]. exists (Signed (Claims.mk "admin" (Some true) None) (secret env)).
    split; [exact Hreq|]. cbn. rewrite Hsecret. now rewrite String.eqb_refl.
  - intros Hsecret. unfold refusal. rewrite Hreq. cbn.
    destruct (secret env =? secret env')%string eqn:He; [|reflexivity].
    apply String.eqb_eq in He. congruence.
Qed.

Lemma adminLogin_token_is_admin_witness :
  exists user,
    authenticated Sample.later (Sample.asAdmin Sample.noBody None) user
    /\ isAdminClaim user = true.
Proof.
  apply (proj1 (@adminLogin_token_is_admin CloudFile.t _ Sample.env Sample.later
                  Sample.adminLoginRequest (Sample.asAdmin Sample.noBody None)
                  Sample.cloud Sample.cloud
                  {| status := 200;
                     payload := TokenOnly (Signed Sample.adminClaims "k") |}
                  (Signed Sample.adminClaims "k") eq_refl eq_refl eq_refl)).
  reflexivity.
Defined.

Lemma adminLogin_outcome_witness :
  exists r,
    run (adminLogin Sample.env Sample.adminLoginRequest) Sample.cloud
    = (Sent r, Sample.cloud)
    /\ status r = 200.
Proof.
  destruct (@adminLogin_outcome CloudFile.t _ Sample.env Sample.adminLoginRequest
              Sample.cloud) as [r [Hrun [Hok _]]].
  exists r. split; [exact Hrun|]. apply Hok. split; reflexivity.
Defined.

Lemma moderatorLogin_token
    {F : Type} `{FileSchema F} (env : Env) (req : Request) (w w' : World F)
    (r : Response F) (token : Token) :
  run (moderatorLogin env req) w = (Sent r, w') ->
  issuedToken r = Some token ->
  exists u,
    In u (users w)
    /\ token = jwt_sign (Claims.mk (ObjectId.toString (User._id u)) None
                           (User.username u)) (secret env).
Proof.
  unfold run, moderatorLogin, bind, User_findOne, compare.
  destruct (find _ (users w)) as [u|] eqn:Hfind; cbn;
    [|intros Hrun; inversion Hrun; subst; discriminate].
  apply find_some in Hfind. destruct Hfind as [Hin _].
  destruct (Body.password (body req)) as [pw|]; cbn; [|discriminate].
  destruct (bcrypt_compare env pw (User.password u)); cbn;
    intros Hrun; inversion Hrun; subst; cbn; intros Htok; inversion Htok; eauto.
Qed.

(** X12: the token of a successful moderator login is a token for one of the
    users; with it, and the id it carries, the holder lists exactly the papers
    whose moderatorId is that user's id, and is refused (403) for any other
    moderatorId. *)
Theorem moderator_lists_own_papers
    {F : Type} `{FileSchema F} (env env' : Env) (login req : Request)
    (w w1 : World F) (r : Response F) (token : Token) :
  run (moderatorLogin env login) w = (Sent r, w1) ->
  issuedToken r = Some token ->
  (forall x, In x (users w) -> ObjectId.wf (User._id x)) ->
  secret env' = secret env ->
  authorization req = Some token ->
  exists u,
    In u (users w)
    /\ forall w2 : World F,
         run (listPapers env' (ObjectId.toString (User._id u)) req) w2
         = (Sent {| status := 200;
                    payload := PaperDocs (filter (ownedBy (User._id u)) (papers w2)) |},
            w2)
         /\ forall other,
              other <> ObjectId.toString (User._id u) ->
              run (listPapers env' other req) w2
              = (Sent {| status := 403; payload := Text "Access denied." |}, w2).
Proof.
  intros Hrun Htok Hwf Hsecret Hreq.
  destruct (moderatorLogin_token _ _ _ Hrun Htok) as [u [Hin ->]].
  exists u. split; [exact Hin|]. intros w2.
  assert (Hauth : authenticated env' req
                    (Claims.mk (ObjectId.toString (User._id u)) None (User.username u))).
  { eexists. split; [exact Hreq|]. cbn. rewrite Hsecret. now rewrite String.eqb_refl. }
  split.
  - unfold run, listPapers, bind. rewrite (authenticate_ok w2 Hauth).
    cbn [isAdminClaim Claims.isAdmin Claims._id negb andb].
    rewrite String.eqb_refl. cbn [negb when ret]. unfold Paper_find.
    rewrite (cast_toString (Hwf u Hin)). reflexivity.
  - intros other Hother.
    unfold run, listPapers, bind. rewrite (authenticate_ok w2 Hauth).
    cbn [isAdminClaim Claims.isAdmin Claims._id negb andb].
    assert (Hne : (ObjectId.toString (User._id u) =? other)%string = false)
      by (apply String.eqb_neq; congruence).
    rewrite Hne. reflexivity.
Qed.

Lemma moderator_lists_own_papers_witness :
  exists u,
    In u (users Sample.cloud)
    /\ run (listPapers Sample.later (ObjectId.toString (User._id u))
              (Sample.asBob Sample.noBody None)) Sample.cloud
       = (Sent {| status := 200;
                  payload := PaperDocs (filter (ownedBy (User._id u))
                                          (papers Sample.cloud)) |},
          Sample.cloud).
Proof.
  assert (Hwf : forall x, In x (users Sample.cloud) -> ObjectId.wf (User._id x))
    by (intros x [<-|[<-|[]]]; reflexivity).
  destruct (@moderator_lists_own_papers CloudFile.t _ Sample.env Sample.later
              Sample.bobLogin (Sample.asBob Sample.noBody None)
              Sample.cloud Sample.cloud
              {| status := 200;
                 payload := TokenAndName (Signed Sample.bobClaims "k")
                              (Some "bob"%string) |}
              (Signed Sample.bobClaims "k") eq_refl eq_refl Hwf eq_refl eq_refl)
    as [u [Hin Hu]].
  exists u. split; [exact Hin | apply Hu].
Defined.

(** ** Which routes always answer *)

Section NoThrow.
Context {F : Type}.

Lemma noThrow_ret {A} (a : A) : noThrow (ret (F := F) a).
Proof. intros w e. discriminate. Qed.

Lemma noThrow_reply {A} (s : N) (p : Payload F) : noThrow (reply (A := A) s p).
Proof. intros w e. discriminate. Qed.

Lemma noThrow_bind {A B} (m : Async F A) (k : A -> Async F B) :
  noThrow m -> (forall a, noThrow (k a)) -> noThrow (bind m k).
Proof.
  intros Hm Hk w e. unfold bind. specialize (Hm w).
  destruct (m w) as [[a|r|e'] w']; cbn in *; [apply Hk|discriminate|].
  now destruct (Hm e').
Qed.

Lemma noThrow_try_catch {A} (m : Async F A) (h : Error -> Async F A) :
  (forall e, noThrow (h e)) -> noThrow (try_catch m h).
Proof.
  intros Hh w e. unfold try_catch.
  destruct (m w) as [[a|r|e'] w']; cbn; [discriminate|discriminate|apply Hh].
Qed.

Lemma noThrow_when (c : bool) (m : Async F unit) : noThrow m -> noThrow (when c m).
Proof. intros Hm. destruct c; [exact Hm | apply noThrow_ret]. Qed.

Lemma noThrow_authenticate (env : Env) (req : Request) :
  noThrow (authenticate (F := F) env req).
Proof.
  unfold authenticate. destruct (authorization req) as [token|];
    [|apply noThrow_reply].
  destruct (jwt_verify token (secret env)); [apply noThrow_ret | apply noThrow_reply].
Qed.

Lemma noThrow_answers (h : Handler F) (w : World F) :
  noThrow h -> exists r, fst (run h w) = Sent r.
Proof.
  intros Hh. unfold run. specialize (Hh w).
  destruct (h w) as [[a|r|e] w'];
    [destruct a | eexists; reflexivity | now destruct (Hh e)].
Qed.

End NoThrow.

Ltac answers :=
  repeat first
    [ progress cbv beta zeta
    | apply noThrow_reply
    | apply noThrow_ret
    | apply noThrow_authenticate
    | apply noThrow_try_catch; intros ?
    | apply noThrow_bind; [|intros ?]
    | apply noThrow_when
    | intros ? ?; discriminate
    | match goal with
      | |- noThrow (if ?x then _ else _) => destruct x
      end ].

(** X13: the handlers that do all their store and Cloudinary work inside a
    [try], and those that do none, write a response to every request: the
    admin login and the listing of moderators in both variants, the removal of
    an attachment in both variants, and the update of a paper in the local-disk
    variant. *)
Theorem guarded_routes_always_answer (env : Env) (route : Route) (req : Request) :
  (cloudinaryCatchesAll route = true ->
   forall w : World CloudFile.t,
   exists r, fst (run (cloudinaryApp env route req) w) = Sent r)
  /\
  (localDiskCatchesAll route = true ->
   forall w : World DiskFile.t,
   exists r, fst (run (localDiskApp env route req) w) = Sent r).
Proof.
  split; intros Hroute w; apply noThrow_answers;
    destruct route; try discriminate Hroute;
    unfold cloudinaryApp, localDiskApp, Cloudinary.deleteFile, LocalDisk.deleteFile,
      LocalDisk.updatePaper, adminLogin, listModerators, requireAdmin, User_find;
    answers.
Qed.

Lemma guarded_routes_always_answer_witness :
  exists r,
    fst (run (localDiskApp Sample.env (UpdatePaper "not-an-id")
                (Sample.asAdmin Sample.noBody None)) Sample.disk)
    = Sent r.
Proof.
  apply (proj2 (guarded_routes_always_answer Sample.env (UpdatePaper "not-an-id")
                  (Sample.asAdmin Sample.noBody None)) eq_refl).
Defined.

(** ** Ids that are malformed or name nothing *)

Ltac enter Hauth Hadmin w :=
  unfold cloudinaryApp, localDiskApp, reached, takesFiles,
    Cloudinary.updatePaper, Cloudinary.deleteFile, Cloudinary.deletePaper,
    LocalDisk.updatePaper, LocalDisk.deleteFile, LocalDisk.deletePaper,
    deleteModerator, listPapers, run, bind, try_catch;
  rewrite (authenticate_ok w Hauth);
  rewrite ?upload_run; cbv beta iota;
  try (rewrite requireAdmin_pass by exact Hadmin);
  try (rewrite Hadmin; cbn [negb andb when ret]);
  unfold Paper_findById, Paper_findByIdAndDelete, Paper_find, User_findByIdAndDelete.

(** X14: a request by the admin whose path id is not an ObjectId changes
    neither users nor papers: the store is left as the handler found it, which
    is as it was but for the files an update carries, stored before the handler
    runs.  The handlers that cast the id inside a [try] answer 500; the others
    (the update of the Cloudinary variant, the deletion of a paper or of a
    moderator, the listing of a moderator's papers) are rejected with the cast
    error and write no response. *)
Theorem malformed_id_changes_nothing
    (env : Env) (route : Route) (req : Request) (user : Claims.t) (id : string) :
  authenticated env req user ->
  isAdminClaim user = true ->
  routeId route = Some id ->
  ObjectId.cast id = None ->
  (forall w : World CloudFile.t,
     (cloudinaryCatchesAll route = true ->
      exists r,
        status r = 500
        /\ run (cloudinaryApp env route req) w
           = (Sent r, reached Cloudinary.stored route req w))
     /\ (cloudinaryCatchesAll route = false ->
         run (cloudinaryApp env route req) w
         = (Unhandled (CastError id), reached Cloudinary.stored route req w)))
  /\
  (forall w : World DiskFile.t,
     (localDiskCatchesAll route = true ->
      exists r,
        status r = 500
        /\ run (localDiskApp env route req) w
           = (Sent r, reached LocalDisk.stored route req w))
     /\ (localDiskCatchesAll route = false ->
         run (localDiskApp env route req) w
         = (Unhandled (CastError id), reached LocalDisk.stored route req w))).
Proof.
  intros Hauth Hadmin Hid Hcast.
  split; intros w; split; intros Hroute;
    destruct route; try discriminate Hroute; try discriminate Hid;
    cbn in Hid; inversion Hid; subst;
    enter Hauth Hadmin w; rewrite Hcast;
    first [reflexivity | eexists; split; [|reflexivity]; reflexivity].
Qed.

Lemma malformed_id_changes_nothing_witness :
  run (cloudinaryApp Sample.later (UpdatePaper "not-an-id") Sample.addC) Sample.cloud
  = (Unhandled (CastError "not-an-id"),
     {| users := [Sample.alice; Sample.bob];
        papers := [Sample.cloudPaper];
        assets := ["event-papers/a"; "event-papers/b"; "event-papers/c"];
        nextId := 10 |}).
Proof.
  apply (proj1 (@malformed_id_changes_nothing Sample.later (UpdatePaper "not-an-id")
                  Sample.addC Sample.adminClaims "not-an-id"
                  (sample_authenticated_admin Sample.later _ _ eq_refl)
                  eq_refl eq_refl eq_refl) Sample.cloud).
  reflexivity.
Defined.

(** X15: the update of a paper, the removal of an attachment and the
    deletion of a paper, asked by the admin for a well-formed id that names no
    stored paper, answer 404 (Paper not found) and leave the store as the
    handler found it: as it was, but for the files an update carries, which
    are stored before the handler runs.  Both variants. *)
Theorem unknown_paper_is_not_found
    (env : Env) (route : Route) (req : Request) (user : Claims.t) (id : string)
    (o : ObjectId.t) :
  authenticated env req user ->
  isAdminClaim user = true ->
  paperRoute route = true ->
  routeId route = Some id ->
  ObjectId.cast id = Some o ->
  (forall w : World CloudFile.t,
     find (hasId o) (papers w) = None ->
     run (cloudinaryApp env route req) w
     = (Sent {| status := 404; payload := Text "Paper not found." |},
        reached Cloudinary.stored route req w))
  /\
  (forall w : World DiskFile.t,
     find (hasId o) (papers w) = None ->
     run (localDiskApp env route req) w
     = (Sent {| status := 404; payload := Text "Paper not found." |},
        reached LocalDisk.stored route req w)).
Proof.
  intros Hauth Hadmin Hroute Hid Hcast.
  split; intros w Hfind;
    destruct route; try discriminate Hroute;
    cbn in Hid; inversion Hid; subst;
    enter Hauth Hadmin w; rewrite Hcast; cbv iota beta;
    cbn [papers afterUpload set_assets]; rewrite Hfind;
    rewrite ?(removeFirst_none _ _ Hfind), ?set_papers_same; reflexivity.
Qed.

Lemma unknown_paper_is_not_found_witness :
  run (cloudinaryApp Sample.env (DeletePaper Sample.nobody)
         (Sample.asAdmin Sample.noBody None)) Sample.cloud
  = (Sent {| status := 404; payload := Text "Paper not found." |}, Sample.cloud)
  /\ run (localDiskApp Sample.later (UpdatePaper Sample.nobody) Sample.addDiskC)
       Sample.disk
     = (Sent {| status := 404; payload := Text "Paper not found." |},
        {| users := [Sample.alice; Sample.bob];
           papers := [Sample.diskPaper];
           assets := ["uploads/1000-a.pdf"; "uploads/1000-b.pdf"; "uploads/5000-c.pdf"];
           nextId := 10 |}).
Proof.
  split.
  - apply (proj1 (@unknown_paper_is_not_found Sample.env (DeletePaper Sample.nobody)
                    (Sample.asAdmin Sample.noBody None) Sample.adminClaims
                    Sample.nobody 24912482966938930280208240657
                    (sample_authenticated_admin Sample.env _ _ eq_refl)
                    eq_refl eq_refl eq_refl eq_refl) Sample.cloud).
    reflexivity.
  - apply (proj2 (@unknown_paper_is_not_found Sample.later (UpdatePaper Sample.nobody)
                    Sample.addDiskC Sample.adminClaims
                    Sample.nobody 24912482966938930280208240657
                    (sample_authenticated_admin Sample.later _ _ eq_refl)
                    eq_refl eq_refl eq_refl eq_refl) Sample.disk).
    reflexivity.
Defined.

(** X16: in the Cloudinary variant, when [uploader.destroy] fails for the
    attachment to remove, the answer is 500 (Error deleting file) and nothing
    changes: the paper keeps the attachment and Cloudinary keeps every
    asset. *)
Theorem cloudinary_deleteFile_destroy_fails
    (env : Env) (req : Request) (user : Claims.t) (paperId fileId : string)
    (o : ObjectId.t) (w : World CloudFile.t) (p : Paper.t CloudFile.t)
    (file : CloudFile.t) :
  authenticated env req user ->
  ObjectId.cast paperId = Some o ->
  find (hasId o) (papers w) = Some p ->
  files_id (Paper.files p) fileId = Some file ->
  destroy_fails env (CloudFile.public_id file) = true ->
  run (Cloudinary.deleteFile env paperId fileId req) w
  = (Sent {| status := 500; payload := Text "Error deleting file" |}, w).
Proof.
  intros Hauth Ho Hfind Hfile Hfails.
  unfold run, Cloudinary.deleteFile, bind, try_catch.
  rewrite (authenticate_ok w Hauth).
  unfold Paper_findById. rewrite Ho, Hfind, Hfile.
  unfold destroy. rewrite Hfails. reflexivity.
Qed.

Lemma cloudinary_deleteFile_destroy_fails_witness :
  run (Cloudinary.deleteFile Sample.offline Sample.paperId Sample.fileA
         (Sample.asAdmin Sample.noBody None)) Sample.cloud
  = (Sent {| status := 500; payload := Text "Error deleting file" |}, Sample.cloud).
Proof.
  apply (@cloudinary_deleteFile_destroy_fails Sample.offline
           (Sample.asAdmin Sample.noBody None) Sample.adminClaims
           Sample.paperId Sample.fileA 1 Sample.cloud Sample.cloudPaper
           (CloudFile.mk 2 "https://res.example/a.pdf" "event-papers/a" "a.pdf")
           (sample_authenticated_admin Sample.offline _ _ eq_refl));
    reflexivity.
Defined.

(** ** Removing exactly one attachment *)

Section RemoveOne.
Context {F : Type} `{FileSchema F}.

Lemma findIndex_app (fileId : string) (l1 l2 : list F) (f : F) :
  (forall g, In g l1 -> ObjectId.toString (sub_id g) <> fileId) ->
  ObjectId.toString (sub_id f) = fileId ->
  findIndex fileId (l1 ++ f :: l2) = Some (List.length l1).
Proof.
  intros Hl1 Hf. induction l1 as [|g l1 IH]; cbn [app findIndex List.length].
  - apply String.eqb_eq in Hf. now rewrite Hf.
  - assert (Hg : (ObjectId.toString (sub_id g) =? fileId)%string = false)
      by (apply String.eqb_neq, Hl1; now left).
    rewrite Hg, IH; [reflexivity|]. intros x Hx. apply Hl1. now right.
Qed.

Lemma splice1_app (l1 l2 : list F) (f : F) :
  splice1 (List.length l1) (l1 ++ f :: l2) = l1 ++ l2.
Proof.
  unfold splice1. rewrite firstn_app, Nat.sub_diag, firstn_all. cbn [firstn].
  rewrite app_nil_r. f_equal.
  induction l1 as [|g l1 IH]; [reflexivity|]. cbn [app List.length skipn]. exact IH.
Qed.

Lemma files_id_app (fileId : string) (l1 l2 : list F) (f : F) :
  ObjectId.cast fileId = Some (sub_id f) ->
  (forall g, In g l1 -> sub_id g <> sub_id f) ->
  files_id (l1 ++ f :: l2) fileId = Some f.
Proof.
  intros Hcast Hl1. unfold files_id. rewrite Hcast.
  induction l1 as [|g l1 IH]; cbn [app find].
  - unfold ObjectId.eqb. now rewrite N.eqb_refl.
  - assert (Hg : ObjectId.eqb (sub_id g) (sub_id f) = false)
      by (apply N.eqb_neq, Hl1; now left).
    rewrite Hg. apply IH. intros x Hx. apply Hl1. now right.
Qed.

Lemma filter_other_ids (l : list F) (f : F) :
  (forall g, In g l -> sub_id g <> sub_id f) ->
  filter (fun g => negb (ObjectId.eqb (sub_id g) (sub_id f))) l = l.
Proof.
  intros Hl. induction l as [|g l IH]; [reflexivity|]. cbn [filter].
  assert (Hg : ObjectId.eqb (sub_id g) (sub_id f) = false)
    by (apply N.eqb_neq, Hl; now left).
  rewrite Hg. cbn [negb]. rewrite IH; [reflexivity|].
  intros x Hx. apply Hl. now right.
Qed.

Lemma file_remove_app (p : Paper.t F) (l1 l2 : list F) (f : F) :
  Paper.files p = l1 ++ f :: l2 ->
  (forall g, In g (l1 ++ l2) -> sub_id g <> sub_id f) ->
  file_remove p f = Paper.set_files p (l1 ++ l2).
Proof.
  intros Hfiles Hothers. unfold file_remove. rewrite Hfiles. f_equal.
  rewrite filter_app. cbn [filter]. unfold ObjectId.eqb at 2.
  rewrite N.eqb_refl. cbn [negb].
  rewrite !filter_other_ids; [reflexivity| |];
    intros g Hg; apply Hothers, in_or_app; [now right | now left].
Qed.

Lemma validate_without (p : Paper.t F) (l1 l2 : list F) (f : F) :
  Paper.validate p = [] ->
  Paper.files p = l1 ++ f :: l2 ->
  Paper.validate (Paper.set_files p (l1 ++ l2)) = [].
Proof.
  intros Hval Hfiles. apply validate_withinSchema in Hval.
  destruct Hval as [Hmod [Htitle [Hnote Hall]]].
  apply validate_withinSchema. repeat split; trivial.
  cbn [Paper.files Paper.set_files]. rewrite Hfiles in Hall.
  apply Forall_app in Hall. destruct Hall as [H1 H2].
  inversion H2; subst. apply Forall_app. now split.
Qed.

End RemoveOne.

(** X17: a removal that names one attachment of a valid stored paper answers
    200 and writes the paper back with the other attachments, in their order,
    and nothing else changed.  In the Cloudinary variant the attachment is
    named by any spelling of its id, for any authenticated caller, and its
    asset leaves Cloudinary; in the local-disk variant it is named by the
    printed id, for the admin, and the first attachment that prints so is the
    one removed. *)
Theorem deleteFile_removes_the_attachment
    (env : Env) (req : Request) (user : Claims.t) (paperId fileId : string)
    (o : ObjectId.t) :
  authenticated env req user ->
  ObjectId.cast paperId = Some o ->
  (forall (w : World CloudFile.t) (p : Paper.t CloudFile.t) l1 f l2,
     find (hasId o) (papers w) = Some p ->
     Paper.validate p = [] ->
     Paper.files p = l1 ++ f :: l2 ->
     ObjectId.cast fileId = Some (CloudFile._id f) ->
     (forall g, In g (l1 ++ l2) -> CloudFile._id g <> CloudFile._id f) ->
     destroy_fails env (CloudFile.public_id f) = false ->
     run (Cloudinary.deleteFile env paperId fileId req) w
     = (Sent {| status := 200; payload := Message "File deleted successfully" |},
        set_papers
          (set_assets w
             (filter (fun a => negb (a =? CloudFile.public_id f)%string) (assets w)))
          (upsert (Paper.set_files p (l1 ++ l2)) (papers w))))
  /\
  (forall (w : World DiskFile.t) (p : Paper.t DiskFile.t) l1 f l2,
     isAdminClaim user = true ->
     find (hasId o) (papers w) = Some p ->
     Paper.validate p = [] ->
     Paper.files p = l1 ++ f :: l2 ->
     ObjectId.toString (DiskFile._id f) = fileId ->
     (forall g, In g l1 -> ObjectId.toString (DiskFile._id g) <> fileId) ->
     run (LocalDisk.deleteFile env paperId fileId req) w
     = (Sent {| status := 200; payload := Message "File deleted successfully" |},
        set_papers w (upsert (Paper.set_files p (l1 ++ l2)) (papers w)))).
Proof.
  intros Hauth Ho. split.
  - intros w p l1 f l2 Hfind Hval Hfiles Hcast Hothers Hup.
    assert (Hfile : files_id (Paper.files p) fileId = Some f).
    { rewrite Hfiles.
      apply (@files_id_app CloudFile.t CloudFile.schema fileId l1 l2 f Hcast).
      intros g Hg. apply Hothers, in_or_app. now left. }
    unfold run, Cloudinary.deleteFile, bind, try_catch.
    rewrite (authenticate_ok w Hauth).
    unfold Paper_findById. rewrite Ho, Hfind, Hfile.
    unfold destroy. rewrite Hup. unfold Paper_save.
    rewrite (@file_remove_app CloudFile.t CloudFile.schema p l1 l2 f Hfiles Hothers).
    rewrite (validate_without p l1 l2 f Hval Hfiles). reflexivity.
  - intros w p l1 f l2 Hadmin Hfind Hval Hfiles Hf Hl1.
    unfold run, LocalDisk.deleteFile, bind, try_catch.
    rewrite (authenticate_ok w Hauth), requireAdmin_pass by exact Hadmin.
    unfold Paper_findById. rewrite Ho, Hfind, Hfiles.
    rewrite (@findIndex_app DiskFile.t DiskFile.schema fileId l1 l2 f Hl1 Hf).
    rewrite splice1_app. unfold Paper_save.
    rewrite (validate_without p l1 l2 f Hval Hfiles). reflexivity.
Qed.

Lemma deleteFile_removes_the_attachment_witness :
  option_map (fun p => map DiskFile.originalName (Paper.files p))
    (find (hasId 1)
       (papers (snd (run (LocalDisk.deleteFile Sample.env Sample.paperId Sample.fileB
                            (Sample.asAdmin Sample.noBody None)) Sample.disk))))
  = Some ["a.pdf"%string].
Proof.
  destruct (@deleteFile_removes_the_attachment Sample.env
              (Sample.asAdmin Sample.noBody None) Sample.adminClaims
              Sample.paperId Sample.fileB 1
              (sample_authenticated_admin Sample.env _ _ eq_refl) eq_refl)
    as [_ Hdisk].
  rewrite (Hdisk Sample.disk Sample.diskPaper
             [DiskFile.mk 2 "uploads/1000-a.pdf" "a.pdf" 1000]
             (DiskFile.mk 3 "uploads/1000-b.pdf" "b.pdf" 1000) []
             eq_refl eq_refl eq_refl eq_refl eq_refl).
  - reflexivity.
  - intros g [<-|[]]. vm_compute. discriminate.
Defined.

(** ** Updates that do not go through *)


Ltac same_validation :=
  let v := fresh "v" in
  match goal with
  | |- context [Paper.validate ?q] => set (v := Paper.validate q)
  end;
  repeat match goal with
         | |- context [Paper.validate ?q] => change (Paper.validate q) with v
         end;
  destruct v; reflexivity.

Lemma cloudinary_updatePaper_run
    (env : Env) (id : string) (req : Request) (user : Claims.t) (o : ObjectId.t)
    (uploads : list Upload.t) (p : Paper.t CloudFile.t) (w : World CloudFile.t) :
  authenticated env req user ->
  isAdminClaim user = true ->
  ObjectId.cast id = Some o ->
  find (hasId o) (papers w) = Some p ->
  files req = Some uploads ->
  run (Cloudinary.updatePaper env id req) w
  = let p' := updated (now env) (Body.note (body req))
                (subdocsFrom (F := CloudFile.t) (nextId w) (now env) (map Cloudinary.toObj uploads)) p in
    let w1 := drawn (N.of_nat (List.length uploads))
                (afterUpload Cloudinary.stored req w) in
    match Paper.validate p' with
    | [] => (Sent {| status := 200; payload := PaperDoc p' |},
             set_papers w1 (upsert p' (papers w)))
    | path :: paths => (Unhandled (ValidationError (path :: paths)), w1)
    end.
Proof.
  intros Hauth Hadmin Ho Hfind Hfiles. cbv zeta.
  unfold run, Cloudinary.updatePaper, bind at 1 2 3.
  rewrite (authenticate_ok w Hauth), upload_run, requireAdmin_pass by exact Hadmin.
  unfold bind at 1, Paper_findById. rewrite Ho. cbv beta iota.
  change (papers (afterUpload Cloudinary.stored req w)) with (papers w).
  rewrite Hfind, Hfiles.
  cbv beta iota. unfold bind at 1.
  rewrite (@push_if_any CloudFile.t CloudFile.schema Cloudinary.toObj).
  unfold bind, Paper_save, updated. cbv beta zeta.
  same_validation.
Qed.

Lemma localDisk_updatePaper_run
    (env : Env) (id : string) (req : Request) (user : Claims.t) (o : ObjectId.t)
    (p : Paper.t DiskFile.t) (w : World DiskFile.t) :
  authenticated env req user ->
  isAdminClaim user = true ->
  ObjectId.cast id = Some o ->
  find (hasId o) (papers w) = Some p ->
  run (LocalDisk.updatePaper env id req) w
  = let p' := updated (now env) (Body.note (body req))
                (subdocsFrom (F := DiskFile.t) (nextId w) (now env)
                   (map LocalDisk.toObj (uploadsOf req))) p in
    let w1 := drawn (N.of_nat (List.length (uploadsOf req)))
                (afterUpload LocalDisk.stored req w) in
    match Paper.validate p' with
    | [] => (Sent {| status := 200; payload := PaperDoc p' |},
             set_papers w1 (upsert p' (papers w)))
    | _ :: _ => (Sent {| status := 500; payload := Text "Error updating paper" |}, w1)
    end.
Proof.
  intros Hauth Hadmin Ho Hfind. cbv zeta.
  unfold run, LocalDisk.updatePaper, bind at 1 2 3.
  rewrite (authenticate_ok w Hauth), upload_run, requireAdmin_pass by exact Hadmin.
  unfold try_catch, bind at 1, Paper_findById. rewrite Ho. cbv beta iota.
  change (papers (afterUpload LocalDisk.stored req w)) with (papers w).
  rewrite Hfind. cbv beta iota. unfold uploadsOf.
  destruct (files req) as [uploads|].
  - unfold bind at 1.
    rewrite (@push_if_any DiskFile.t DiskFile.schema LocalDisk.toObj).
    unfold bind, Paper_save, updated. cbv beta zeta.
    same_validation.
  - unfold bind, ret, Paper_save, updated.
    cbn [map subdocsFrom List.length N.of_nat]. rewrite set_files_nil, drawn_0.
    cbv beta zeta.
    same_validation.
Qed.



(** X19: an update that is not multipart, so that [req.files] is undefined,
    is handled differently by the variants.  In the Cloudinary variant the
    admin's request on an existing paper throws a TypeError, writes no response
    and changes nothing, even when all it asks is a new note; the local-disk
    variant treats it exactly as a multipart update without files. *)
Theorem updatePaper_without_multipart
    (env : Env) (id : string) (req : Request) (user : Claims.t) (o : ObjectId.t) :
  authenticated env req user ->
  isAdminClaim user = true ->
  ObjectId.cast id = Some o ->
  files req = None ->
  (forall (w : World CloudFile.t) (p : Paper.t CloudFile.t),
     find (hasId o) (papers w) = Some p ->
     run (Cloudinary.updatePaper env id req) w = (Unhandled TypeError, w))
  /\
  (forall w : World DiskFile.t,
     run (LocalDisk.updatePaper env id req) w
     = run (LocalDisk.updatePaper env id
              {| authorization := authorization req; body := body req;
                 files := Some [] |}) w).
Proof.
  intros Hauth Hadmin Ho Hfiles. split.
  - intros w p Hfind.
    assert (Hnone : afterUpload Cloudinary.stored req w = w).
    { unfold afterUpload, uploadsOf. rewrite Hfiles. cbn [map].
      now rewrite app_nil_r, set_assets_same. }
    unfold run, Cloudinary.updatePaper, bind.
    rewrite (authenticate_ok w Hauth), upload_run, requireAdmin_pass by exact Hadmin.
    rewrite Hnone. unfold Paper_findById. rewrite Ho, Hfind, Hfiles. reflexivity.
  - intros w. unfold LocalDisk.updatePaper, authenticate, upload, afterUpload, uploadsOf.
    cbn [authorization body files]. rewrite Hfiles. reflexivity.
Qed.

Lemma updatePaper_without_multipart_witness :
  run (Cloudinary.updatePaper Sample.later Sample.paperId Sample.jsonUpdate)
    Sample.cloud
  = (Unhandled TypeError, Sample.cloud)
  /\ option_map (@Paper.note DiskFile.t)
       (find (hasId 1)
          (papers (snd (run (LocalDisk.updatePaper Sample.later Sample.paperId
                               Sample.jsonUpdate) Sample.disk))))
     = Some (Some "reviewed"%string).
Proof.
  destruct (@updatePaper_without_multipart Sample.later Sample.paperId
              Sample.jsonUpdate Sample.adminClaims 1
              (sample_authenticated_admin Sample.later _ _ eq_refl)
              eq_refl eq_refl eq_refl) as [Hcloud Hdisk].
  split.
  - apply (Hcloud Sample.cloud Sample.cloudPaper eq_refl).
  - rewrite (Hdisk Sample.disk). reflexivity.
Defined.

(** ** A created paper is listed *)

Lemma cloudinary_subdocs_valid (n now : N) (uploads : list Upload.t) :
  Forall (fun u => Upload.path u <> "" /\ Upload.filename u <> ""
                   /\ Upload.originalname u <> "")%string uploads ->
  Forall (fun f : CloudFile.t => sub_validate f = [])
    (subdocsFrom (F := CloudFile.t) n now (map Cloudinary.toObj uploads)).
Proof.
  intros Hall. revert n. induction Hall as [|u uploads [Hp [Hf Ho]] _ IH]; intros n;
    cbn [map subdocsFrom]; constructor; [|apply IH].
  cbn. unfold CloudFile.validate, validateString. cbn.
  apply String.eqb_neq in Hp, Hf, Ho. now rewrite Hp, Hf, Ho.
Qed.

Lemma localDisk_subdocs_valid (n now : N) (uploads : list Upload.t) :
  Forall (fun u => Upload.path u <> "" /\ Upload.originalname u <> "")%string uploads ->
  Forall (fun f : DiskFile.t => sub_validate f = [])
    (subdocsFrom (F := DiskFile.t) n now (map LocalDisk.toObj uploads)).
Proof.
  intros Hall. revert n. induction Hall as [|u uploads [Hp Ho] _ IH]; intros n;
    cbn [map subdocsFrom]; constructor; [|apply IH].
  cbn. unfold DiskFile.validate, validateString. cbn.
  apply String.eqb_neq in Hp, Ho. now rewrite Hp, Ho.
Qed.


(** ** Appending attachments *)

Lemma validate_updated {F : Type} `{FileSchema F} (now : N) (note : option string)
    (fs : list F) (p : Paper.t F) :
  Paper.validate p = [] ->
  noteFits note ->
  Forall (fun f => sub_validate f = []) fs ->
  Paper.validate (updated now note fs p) = [].
Proof.
  intros Hval Hnote Hfs. apply validate_withinSchema in Hval.
  destruct Hval as [Hmod [Htitle [Hn Hall]]].
  apply validate_withinSchema. unfold withinSchema, updated.
  destruct (truthy note) eqn:Htruthy;
    cbn [Paper.moderatorId Paper.title Paper.note Paper.files Paper.set_note
         Paper.set_files Paper.set_updatedAt];
    repeat split; trivial; try (apply Forall_app; now split).
  destruct note as [s|]; [|discriminate]. exists s.
  cbn [truthy] in Htruthy. apply negb_true_iff, String.eqb_neq in Htruthy.
  repeat split; trivial. now apply Hnote.
Qed.

Lemma cloudinary_updatePaper_succeeds
    (env : Env) (id : string) (req : Request) (user : Claims.t) (o : ObjectId.t)
    (uploads : list Upload.t) (p : Paper.t CloudFile.t) (w : World CloudFile.t) :
  authenticated env req user ->
  isAdminClaim user = true ->
  ObjectId.cast id = Some o ->
  find (hasId o) (papers w) = Some p ->
  files req = Some uploads ->
  Forall (fun u => Upload.path u <> "" /\ Upload.filename u <> ""
                   /\ Upload.originalname u <> "")%string uploads ->
  Paper.validate p = [] ->
  noteFits (Body.note (body req)) ->
  exists r, fst (run (Cloudinary.updatePaper env id req) w) = Sent r /\ status r = 200.
Proof.
  intros Hauth Hadmin Ho Hfind Hfiles Hup Hval Hnote.
  rewrite (cloudinary_updatePaper_run id w Hauth Hadmin Ho Hfind Hfiles). cbv zeta.
  rewrite (@validate_updated CloudFile.t _ (now env) _ _ p Hval Hnote
             (cloudinary_subdocs_valid (nextId w) (now env) Hup)).
  eexists. split; reflexivity.
Qed.

Lemma localDisk_updatePaper_succeeds
    (env : Env) (id : string) (req : Request) (user : Claims.t) (o : ObjectId.t)
    (p : Paper.t DiskFile.t) (w : World DiskFile.t) :
  authenticated env req user ->
  isAdminClaim user = true ->
  ObjectId.cast id = Some o ->
  find (hasId o) (papers w) = Some p ->
  Forall (fun u => Upload.path u <> "" /\ Upload.originalname u <> "")%string
    (uploadsOf req) ->
  Paper.validate p = [] ->
  noteFits (Body.note (body req)) ->
  exists r, fst (run (LocalDisk.updatePaper env id req) w) = Sent r /\ status r = 200.
Proof.
  intros Hauth Hadmin Ho Hfind Hup Hval Hnote.
  rewrite (localDisk_updatePaper_run id w Hauth Hadmin Ho Hfind). cbv zeta.
  rewrite (@validate_updated DiskFile.t _ (now env) _ _ p Hval Hnote
             (localDisk_subdocs_valid (nextId w) (now env) Hup)).
  eexists. split; reflexivity.
Qed.

(** C7: PUT /api/papers/:id appends, in the order of the uploads and after
    the attachments the paper had.  On a paper whose attachments are [s],
    every update that answers 200 leaves the paper, in the store and in the
    response, with the attachments [s] followed by one sub-document per upload
    of the request, each with the fields of its upload, in the order of the
    uploads.  And the update does answer 200 when the admin asks it for a
    stored paper that passes the schema, with uploads whose fields are filled
    and a note of at most 500 characters (in the Cloudinary variant on a
    multipart request).  Both variants. *)
Theorem updatePaper_appends_in_order
    (env : Env) (id : string) (req : Request) (o : ObjectId.t) :
  ObjectId.cast id = Some o ->
  (forall (w : World CloudFile.t) (p : Paper.t CloudFile.t),
     find (hasId o) (papers w) = Some p ->
     (forall (r : Response CloudFile.t) (w' : World CloudFile.t),
        run (Cloudinary.updatePaper env id req) w = (Sent r, w') ->
        status r = 200 ->
        exists p' fs,
          find (hasId o) (papers w') = Some p' /\ payload r = PaperDoc p'
          /\ Paper.files p' = Paper.files p ++ fs
          /\ map (fun f => (CloudFile.url f, CloudFile.public_id f,
                            CloudFile.originalName f)) fs
             = map (fun u => (Upload.path u, Upload.filename u, Upload.originalname u))
                 (uploadsOf req))
     /\
     (forall (user : Claims.t) (uploads : list Upload.t),
        authenticated env req user ->
        isAdminClaim user = true ->
        files req = Some uploads ->
        Forall (fun u => Upload.path u <> "" /\ Upload.filename u <> ""
                         /\ Upload.originalname u <> "")%string uploads ->
        Paper.validate p = [] ->
        noteFits (Body.note (body req)) ->
        exists r,
          fst (run (Cloudinary.updatePaper env id req) w) = Sent r /\ status r = 200))
  /\
  (forall (w : World DiskFile.t) (p : Paper.t DiskFile.t),
     find (hasId o) (papers w) = Some p ->
     (forall (r : Response DiskFile.t) (w' : World DiskFile.t),
        run (LocalDisk.updatePaper env id req) w = (Sent r, w') ->
        status r = 200 ->
        exists p' fs,
          find (hasId o) (papers w') = Some p' /\ payload r = PaperDoc p'
          /\ Paper.files p' = Paper.files p ++ fs
          /\ map (fun f => (DiskFile.path f, DiskFile.originalName f,
                            DiskFile.createdAt f)) fs
             = map (fun u => (Upload.path u, Upload.originalname u, now env))
                 (uploadsOf req))
     /\
     (forall user : Claims.t,
        authenticated env req user ->
        isAdminClaim user = true ->
        Forall (fun u => Upload.path u <> "" /\ Upload.originalname u <> "")%string
          (uploadsOf req) ->
        Paper.validate p = [] ->
        noteFits (Body.note (body req)) ->
        exists r,
          fst (run (LocalDisk.updatePaper env id req) w) = Sent r /\ status r = 200)).
Proof.
  intros Ho. split; intros w p Hfind; split.
  - intros r w' Hrun Hst.
    destruct (@updateOutcome_success CloudFile.t CloudFile.schema Cloudinary.stored
                Cloudinary.toObj env req o p w w' r Hfind) as [p' [Hp' [Hr Hfs]]];
      [|exact Hst|].
    { rewrite <- Hrun. now apply cloudinary_updatePaper_outcome with (o := o). }
    exists p'. eexists. repeat split; [exact Hp' | exact Hr | exact Hfs|].
    apply cloudinary_subdocs_follow_uploads.
  - intros user uploads Hauth Hadmin Hfiles Hup Hval Hnote.
    now apply cloudinary_updatePaper_succeeds with (user := user) (o := o)
                (uploads := uploads) (p := p).
  - intros r w' Hrun Hst.
    destruct (@updateOutcome_success DiskFile.t DiskFile.schema LocalDisk.stored
                LocalDisk.toObj env req o p w w' r Hfind) as [p' [Hp' [Hr Hfs]]];
      [|exact Hst|].
    { rewrite <- Hrun. now apply localDisk_updatePaper_outcome with (o := o). }
    exists p'. eexists. repeat split; [exact Hp' | exact Hr | exact Hfs|].
    apply localDisk_subdocs_follow_uploads.
  - intros user Hauth Hadmin Hup Hval Hnote.
    now apply localDisk_updatePaper_succeeds with (user := user) (o := o) (p := p).
Qed.

Lemma updatePaper_appends_in_order_witness :
  (exists p',
     find (hasId 1)
       (papers (snd (run (Cloudinary.updatePaper Sample.later Sample.paperId Sample.addC)
                       Sample.cloud)))
     = Some p'
     /\ map (fun f => (CloudFile.url f, CloudFile.public_id f, CloudFile.originalName f))
          (Paper.files p')
        = [("https://res.example/a.pdf", "event-papers/a", "a.pdf");
           ("https://res.example/b.pdf", "event-papers/b", "b.pdf");
           ("https://res.example/c.pdf", "event-papers/c", "c.pdf")]%string)
  /\
  (exists p',
     find (hasId 1)
       (papers (snd (run (LocalDisk.updatePaper Sample.later Sample.paperId
                            Sample.addDiskC) Sample.disk)))
     = Some p'
     /\ map (fun f => (DiskFile.path f, DiskFile.originalName f, DiskFile.createdAt f))
          (Paper.files p')
        = [("uploads/1000-a.pdf", "a.pdf", 1000); ("uploads/1000-b.pdf", "b.pdf", 1000);
           ("uploads/5000-c.pdf", "c.pdf", 5000)]%string).
Proof.
  assert (Hnote : noteFits None) by (intros s Hs; discriminate Hs).
  split.
  - destruct (updatePaper_appends_in_order Sample.later Sample.paperId Sample.addC
                (o := 1) eq_refl) as [Hcloud _].
    destruct (Hcloud Sample.cloud Sample.cloudPaper eq_refl) as [Happend Hanswers].
    destruct (Hanswers Sample.adminClaims [Sample.upC]
                (sample_authenticated_admin Sample.later _ _ eq_refl)
                eq_refl eq_refl) as [r [Hr Hst]]; trivial.
    { constructor; [|constructor]. repeat split; discriminate. }
    destruct (Happend r _ (eq_trans (surjective_pairing _)
                             (f_equal (fun x => (x, _)) Hr)) Hst)
      as [p' [fs [Hfind [_ [Hfiles Hfs]]]]].
    exists p'. split; [exact Hfind|].
    rewrite Hfiles, map_app, Hfs. reflexivity.
  - destruct (updatePaper_appends_in_order Sample.later Sample.paperId Sample.addDiskC
                (o := 1) eq_refl) as [_ Hdisk].
    destruct (Hdisk Sample.disk Sample.diskPaper eq_refl) as [Happend Hanswers].
    destruct (Hanswers Sample.adminClaims
                (sample_authenticated_admin Sample.later _ _ eq_refl)
                eq_refl) as [r [Hr Hst]]; trivial.
    { constructor; [|constructor]. split; discriminate. }
    destruct (Happend r _ (eq_trans (surjective_pairing _)
                             (f_equal (fun x => (x, _)) Hr)) Hst)
      as [p' [fs [Hfind [_ [Hfiles Hfs]]]]].
    exists p'. split; [exact Hfind|].
    rewrite Hfiles, map_app, Hfs. reflexivity.
Defined.

(** Uploading [a, b] and then [c] yields [a, b, c], in both variants. *)
Example upload_ab_then_c :
  let ab := Sample.asAdmin Sample.noBody (Some [Sample.upA; Sample.upB]) in
  let cloud1 := snd (run (Cloudinary.updatePaper Sample.env Sample.paperId ab)
                       Sample.cloudBlank) in
  let cloud2 := snd (run (Cloudinary.updatePaper Sample.later Sample.paperId Sample.addC)
                       cloud1) in
  let disk1 := snd (run (LocalDisk.updatePaper Sample.env Sample.paperId ab)
                      Sample.diskBlank) in
  let disk2 := snd (run (LocalDisk.updatePaper Sample.later Sample.paperId Sample.addC)
                      disk1) in
  option_map (fun p => map CloudFile.originalName (Paper.files p))
    (find (hasId 1) (papers cloud2))
  = Some ["a.pdf"; "b.pdf"; "c.pdf"]%string
  /\ option_map (fun p => map DiskFile.originalName (Paper.files p))
       (find (hasId 1) (papers disk2))
     = Some ["a.pdf"; "b.pdf"; "c.pdf"]%string.
Proof. split; reflexivity. Qed.

(** C10: PUT /api/papers/:id on an existing paper never touches its
    moderatorId, title and createdAt, and keeps its attachments as a prefix;
    when the request's note is absent or empty the note stays as it was.
    Every update that answers 200 has appended one sub-document per upload,
    with the fields of the upload, and has set [updatedAt] to the time of the
    request.  And an update whose note is absent or empty does answer 200 when
    the admin asks it for a stored paper that passes the schema, with uploads
    whose fields are filled (in the Cloudinary variant on a multipart
    request).  Both variants. *)
Theorem updatePaper_frame
    (env : Env) (id : string) (req : Request) (o : ObjectId.t) :
  ObjectId.cast id = Some o ->
  (forall (w : World CloudFile.t) (p : Paper.t CloudFile.t),
     find (hasId o) (papers w) = Some p ->
     (exists p',
        find (hasId o) (papers (snd (run (Cloudinary.updatePaper env id req) w)))
        = Some p'
        /\ Paper.moderatorId p' = Paper.moderatorId p
        /\ Paper.title p' = Paper.title p
        /\ Paper.createdAt p' = Paper.createdAt p
        /\ (exists fs, Paper.files p' = Paper.files p ++ fs)
        /\ (Body.note (body req) = None \/ Body.note (body req) = Some "" ->
            Paper.note p' = Paper.note p)
        /\ (forall r,
              fst (run (Cloudinary.updatePaper env id req) w) = Sent r ->
              status r = 200 ->
              Paper.updatedAt p' = now env
              /\ exists fs,
                   Paper.files p' = Paper.files p ++ fs
                   /\ map (fun f => (CloudFile.url f, CloudFile.public_id f,
                                     CloudFile.originalName f)) fs
                      = map (fun u => (Upload.path u, Upload.filename u,
                                       Upload.originalname u)) (uploadsOf req)))
     /\
     (forall (user : Claims.t) (uploads : list Upload.t),
        authenticated env req user ->
        isAdminClaim user = true ->
        files req = Some uploads ->
        Forall (fun u => Upload.path u <> "" /\ Upload.filename u <> ""
                         /\ Upload.originalname u <> "")%string uploads ->
        Paper.validate p = [] ->
        Body.note (body req) = None \/ Body.note (body req) = Some "" ->
        exists r,
          fst (run (Cloudinary.updatePaper env id req) w) = Sent r /\ status r = 200))
  /\
  (forall (w : World DiskFile.t) (p : Paper.t DiskFile.t),
     find (hasId o) (papers w) = Some p ->
     (exists p',
        find (hasId o) (papers (snd (run (LocalDisk.updatePaper env id req) w)))
        = Some p'
        /\ Paper.moderatorId p' = Paper.moderatorId p
        /\ Paper.title p' = Paper.title p
        /\ Paper.createdAt p' = Paper.createdAt p
        /\ (exists fs, Paper.files p' = Paper.files p ++ fs)
        /\ (Body.note (body req) = None \/ Body.note (body req) = Some "" ->
            Paper.note p' = Paper.note p)
        /\ (forall r,
              fst (run (LocalDisk.updatePaper env id req) w) = Sent r ->
              status r = 200 ->
              Paper.updatedAt p' = now env
              /\ exists fs,
                   Paper.files p' = Paper.files p ++ fs
                   /\ map (fun f => (DiskFile.path f, DiskFile.originalName f,
                                     DiskFile.createdAt f)) fs
                      = map (fun u => (Upload.path u, Upload.originalname u, now env))
                          (uploadsOf req)))
     /\
     (forall user : Claims.t,
        authenticated env req user ->
        isAdminClaim user = true ->
        Forall (fun u => Upload.path u <> "" /\ Upload.originalname u <> "")%string
          (uploadsOf req) ->
        Paper.validate p = [] ->
        Body.note (body req) = None \/ Body.note (body req) = Some "" ->
        exists r,
          fst (run (LocalDisk.updatePaper env id req) w) = Sent r /\ status r = 200)).
Proof.
  intros Ho.
  assert (Hfits : Body.note (body req) = None \/ Body.note (body req) = Some "" ->
                  noteFits (Body.note (body req))).
  { intros [Hn|Hn] s Hs; rewrite Hn in Hs; inversion Hs; cbn; lia. }
  split; intros w p Hfind; split.
  - destruct (@updateOutcome_frame CloudFile.t CloudFile.schema Cloudinary.stored
                Cloudinary.toObj env req o p w _ Hfind
                (@cloudinary_updatePaper_outcome env id req o p w Ho Hfind))
      as [p' [Hp' [Hmod [Htitle [Hcreated [Hprefix [Hnote Hok]]]]]]].
    exists p'. do 6 (split; [assumption|]).
    intros r Hr Hst. destruct (Hok r Hr Hst) as [Hfs Hupdated].
    split; [exact Hupdated|]. eexists. split; [exact Hfs|].
    apply cloudinary_subdocs_follow_uploads.
  - intros user uploads Hauth Hadmin Hfiles Hup Hval Hnote.
    apply cloudinary_updatePaper_succeeds with (user := user) (o := o)
            (uploads := uploads) (p := p); auto.
  - destruct (@updateOutcome_frame DiskFile.t DiskFile.schema LocalDisk.stored
                LocalDisk.toObj env req o p w _ Hfind
                (@localDisk_updatePaper_outcome env id req o p w Ho Hfind))
      as [p' [Hp' [Hmod [Htitle [Hcreated [Hprefix [Hnote Hok]]]]]]].
    exists p'. do 6 (split; [assumption|]).
    intros r Hr Hst. destruct (Hok r Hr Hst) as [Hfs Hupdated].
    split; [exact Hupdated|]. eexists. split; [exact Hfs|].
    apply localDisk_subdocs_follow_uploads.
  - intros user Hauth Hadmin Hup Hval Hnote.
    apply localDisk_updatePaper_succeeds with (user := user) (o := o) (p := p); auto.
Qed.

Lemma updatePaper_frame_witness :
  (exists p',
     find (hasId 1)
       (papers (snd (run (Cloudinary.updatePaper Sample.later Sample.paperId Sample.addC)
                       Sample.cloud)))
     = Some p'
     /\ Paper.note p' = Paper.note Sample.cloudPaper
     /\ Paper.title p' = Paper.title Sample.cloudPaper
     /\ Paper.updatedAt p' = 5000
     /\ List.length (Paper.files p') = 3%nat)
  /\
  (exists p',
     find (hasId 1)
       (papers (snd (run (LocalDisk.updatePaper Sample.later Sample.paperId
                            Sample.addDiskC) Sample.disk)))
     = Some p'
     /\ Paper.note p' = Paper.note Sample.diskPaper
     /\ Paper.title p' = Paper.title Sample.diskPaper
     /\ Paper.updatedAt p' = 5000
     /\ List.length (Paper.files p') = 3%nat).
Proof.
  split.
  - destruct (updatePaper_frame Sample.later Sample.paperId Sample.addC
                (o := 1) eq_refl) as [Hcloud _].
    destruct (Hcloud Sample.cloud Sample.cloudPaper eq_refl)
      as [[p' [Hfind [_ [Htitle [_ [_ [Hnote Hok]]]]]]] Hanswers].
    destruct (Hanswers Sample.adminClaims [Sample.upC]
                (sample_authenticated_admin Sample.later _ _ eq_refl)
                eq_refl eq_refl) as [r [Hr Hst]]; trivial.
    { constructor; [|constructor]. repeat split; discriminate. }
    { now left. }
    destruct (Hok r Hr Hst) as [Hupdated [fs [Hfiles Hfs]]].
    exists p'. repeat split; trivial.
    + apply Hnote. now left.
    + apply (f_equal (@List.length _)) in Hfs. rewrite !length_map in Hfs.
      rewrite Hfiles, length_app, Hfs. reflexivity.
  - destruct (updatePaper_frame Sample.later Sample.paperId Sample.addDiskC
                (o := 1) eq_refl) as [_ Hdisk].
    destruct (Hdisk Sample.disk Sample.diskPaper eq_refl)
      as [[p' [Hfind [_ [Htitle [_ [_ [Hnote Hok]]]]]]] Hanswers].
    destruct (Hanswers Sample.adminClaims
                (sample_authenticated_admin Sample.later _ _ eq_refl)
                eq_refl) as [r [Hr Hst]]; trivial.
    { constructor; [|constructor]. split; discriminate. }
    { now left. }
    destruct (Hok r Hr Hst) as [Hupdated [fs [Hfiles Hfs]]].
    exists p'. repeat split; trivial.
    + apply Hnote. now left.
    + apply (f_equal (@List.length _)) in Hfs. rewrite !length_map in Hfs.
      rewrite Hfiles, length_app, Hfs. reflexivity.
Defined.

Section CreateThenList.
Context {F : Type} `{FileSchema F}.
Variable env : Env.
Variable stored : Upload.t -> string.
Variable toObj : Upload.t -> plain.


End CreateThenList.



(** ** The names the local-disk storage gives to files *)

Lemma string_of_uint_noDash (d : Decimal.uint) :
  noDash (NilEmpty.string_of_uint d).
Proof.
  unfold noDash. induction d; cbn; intros Hin;
    try (destruct Hin as [Hc|Hin]; [discriminate Hc | now apply IHd]).
  exact Hin.
Qed.

Lemma split_at_dash (s1 s2 r1 r2 : string) :
  noDash s1 -> noDash s2 ->
  (s1 ++ String "-" r1 = s2 ++ String "-" r2)%string ->
  s1 = s2 /\ r1 = r2.
Proof.
  unfold noDash. revert s2. induction s1 as [|c s1 IH]; intros [|c2 s2] H1 H2 Heq;
    cbn in *.
  - inversion Heq. auto.
  - inversion Heq; subst. exfalso. apply H2. now left.
  - inversion Heq; subst. exfalso. apply H1. now left.
  - inversion Heq; subst.
    destruct (IH s2) as [-> ->]; auto.
Qed.

(** X21: the local-disk storage names a file by the time in milliseconds, a
    dash and the original name; two uploads get the same file name only when
    both the millisecond and the original name are the same, so an upload can
    overwrite another only then. *)
Theorem diskFilename_injective (now1 now2 : N) (name1 name2 : string) :
  diskFilename now1 name1 = diskFilename now2 name2 ->
  now1 = now2 /\ name1 = name2.
Proof.
  unfold diskFilename, showN. intros Heq.
  destruct (@split_at_dash _ _ name1 name2 (string_of_uint_noDash (N.to_uint now1))
              (string_of_uint_noDash (N.to_uint now2)) Heq) as [Hd Hname].
  split; [|exact Hname].
  apply DecimalN.Unsigned.to_uint_inj.
  assert (Hu : NilEmpty.uint_of_string (NilEmpty.string_of_uint (N.to_uint now1))
               = NilEmpty.uint_of_string (NilEmpty.string_of_uint (N.to_uint now2)))
    by now rewrite Hd.
  rewrite !NilEmpty.usu in Hu. now inversion Hu.
Qed.

Lemma diskFilename_injective_witness :
  1700000000000 = 1700000000000 /\ "a-b.pdf"%string = "a-b.pdf"%string.
Proof.
  apply (diskFilename_injective 1700000000000 1700000000000 "a-b.pdf" "a-b.pdf").
  reflexivity.
Defined.

(** ** A deleted paper is gone *)

Lemma cloudinary_deletePaper_papers
    (env : Env) (id : string) (req : Request) (user : Claims.t) (o : ObjectId.t)
    (w : World CloudFile.t) (p : Paper.t CloudFile.t) :
  authenticated env req user ->
  isAdminClaim user = true ->
  ObjectId.cast id = Some o ->
  find (hasId o) (papers w) = Some p ->
  papers (snd (run (Cloudinary.deletePaper env id req) w))
  = removeFirst (hasId o) (papers w).
Proof.
  intros Hauth Hadmin Ho Hfind.
  unfold run, Cloudinary.deletePaper, bind.
  rewrite (authenticate_ok w Hauth), requireAdmin_pass by exact Hadmin.
  unfold Paper_findByIdAndDelete. rewrite Ho, Hfind.
  destruct (forEach_destroy env (Paper.files p)
              (set_papers w (removeFirst (hasId o) (papers w)))) as [a Ha].
  rewrite Ha.
  destruct (find (destroy_fails env) (map CloudFile.public_id (Paper.files p)));
    reflexivity.
Qed.

Lemma localDisk_deletePaper_papers
    (env : Env) (id : string) (req : Request) (user : Claims.t) (o : ObjectId.t)
    (w : World DiskFile.t) (p : Paper.t DiskFile.t) :
  authenticated env req user ->
  isAdminClaim user = true ->
  ObjectId.cast id = Some o ->
  find (hasId o) (papers w) = Some p ->
  papers (snd (run (LocalDisk.deletePaper env id req) w))
  = removeFirst (hasId o) (papers w).
Proof.
  intros Hauth Hadmin Ho Hfind.
  unfold run, LocalDisk.deletePaper, bind.
  rewrite (authenticate_ok w Hauth), requireAdmin_pass by exact Hadmin.
  unfold Paper_findByIdAndDelete. rewrite Ho, Hfind. reflexivity.
Qed.

(** X22: once the admin has deleted a paper of a store whose papers have
    distinct ids, the paper can no longer be found: a later update, removal of
    an attachment or deletion for the same id answers 404 (Paper not found)
    and leaves the store as the handler found it, which is as the deletion
    left it but for the files a later update carries, stored before its
    handler runs.  This holds in the Cloudinary variant even when the deletion
    itself was cut short by a failing [destroy]. *)
Theorem deleted_paper_is_gone
    (env env' : Env) (route : Route) (req req' : Request) (user user' : Claims.t)
    (id : string) (o : ObjectId.t) :
  authenticated env req user -> isAdminClaim user = true ->
  authenticated env' req' user' -> isAdminClaim user' = true ->
  ObjectId.cast id = Some o ->
  paperRoute route = true ->
  routeId route = Some id ->
  (forall (w : World CloudFile.t) (p : Paper.t CloudFile.t),
     NoDup (map (@Paper._id CloudFile.t) (papers w)) ->
     find (hasId o) (papers w) = Some p ->
     let w1 := snd (run (Cloudinary.deletePaper env id req) w) in
     run (cloudinaryApp env' route req') w1
     = (Sent {| status := 404; payload := Text "Paper not found." |},
        reached Cloudinary.stored route req' w1))
  /\
  (forall (w : World DiskFile.t) (p : Paper.t DiskFile.t),
     NoDup (map (@Paper._id DiskFile.t) (papers w)) ->
     find (hasId o) (papers w) = Some p ->
     let w1 := snd (run (LocalDisk.deletePaper env id req) w) in
     run (localDiskApp env' route req') w1
     = (Sent {| status := 404; payload := Text "Paper not found." |},
        reached LocalDisk.stored route req' w1)).
Proof.
  intros Hauth Hadmin Hauth' Hadmin' Hcast Hroute Hid.
  split; intros w p Hnd Hfind; cbv zeta.
  - pose proof (cloudinary_deletePaper_papers id w Hauth Hadmin Hcast Hfind) as Hp.
    remember (snd (run (Cloudinary.deletePaper env id req) w)) as w1 eqn:Hw1.
    assert (Hgone : find (hasId o) (papers w1) = None)
      by (rewrite Hp; now apply find_removeFirst_NoDup).
    clear Hw1 Hp.
    destruct route; try discriminate Hroute;
      cbn in Hid; inversion Hid; subst;
      enter Hauth' Hadmin' w1; rewrite Hcast; cbv iota beta;
      cbn [papers afterUpload set_assets]; rewrite Hgone;
      rewrite ?(removeFirst_none _ _ Hgone), ?set_papers_same; reflexivity.
  - pose proof (localDisk_deletePaper_papers id w Hauth Hadmin Hcast Hfind) as Hp.
    remember (snd (run (LocalDisk.deletePaper env id req) w)) as w1 eqn:Hw1.
    assert (Hgone : find (hasId o) (papers w1) = None)
      by (rewrite Hp; now apply find_removeFirst_NoDup).
    clear Hw1 Hp.
    destruct route; try discriminate Hroute;
      cbn in Hid; inversion Hid; subst;
      enter Hauth' Hadmin' w1; rewrite Hcast; cbv iota beta;
      cbn [papers afterUpload set_assets]; rewrite Hgone;
      rewrite ?(removeFirst_none _ _ Hgone), ?set_papers_same; reflexivity.
Qed.

Lemma deleted_paper_is_gone_witness :
  run (cloudinaryApp Sample.later (UpdatePaper Sample.paperId) Sample.addC)
    (snd (run (Cloudinary.deletePaper Sample.offline Sample.paperId
                 (Sample.asAdmin Sample.noBody None)) Sample.cloud))
  = (Sent {| status := 404; payload := Text "Paper not found." |},
     {| users := [Sample.alice; Sample.bob];
        papers := [];
        assets := ["event-papers/a"; "event-papers/b"; "event-papers/c"];
        nextId := 10 |}).
Proof.
  assert (Hnd : NoDup (map (@Paper._id CloudFile.t) (papers Sample.cloud))).
  { constructor; [intros []|constructor]. }
  apply (proj1 (@deleted_paper_is_gone Sample.offline Sample.later
                  (UpdatePaper Sample.paperId)
                  (Sample.asAdmin Sample.noBody None) Sample.addC
                  Sample.adminClaims Sample.adminClaims Sample.paperId 1
                  (sample_authenticated_admin Sample.offline _ _ eq_refl) eq_refl
                  (sample_authenticated_admin Sample.later _ _ eq_refl) eq_refl
                  eq_refl eq_refl eq_refl)
           Sample.cloud Sample.cloudPaper Hnd eq_refl).
Defined.

(** ** An update touches one paper *)

Lemma find_upsert_other {F : Type} `{FileSchema F} (o : ObjectId.t)
    (p : Paper.t F) (l : list (Paper.t F)) :
  Paper._id p <> o -> find (hasId o) (upsert p l) = find (hasId o) l.
Proof.
  intros Hne.
  assert (Hp : hasId o p = false) by (apply N.eqb_neq; exact Hne).
  induction l as [|q l IH]; cbn [upsert find].
  - now rewrite Hp.
  - destruct (hasId (Paper._id p) q) eqn:Hq; cbn [find].
    + apply N.eqb_eq in Hq.
      assert (Hqo : hasId o q = false) by (apply N.eqb_neq; congruence).
      now rewrite Hp, Hqo.
    + destruct (hasId o q); [reflexivity | exact IH].
Qed.

(** X23: whatever a PUT /api/papers/:id on an existing paper carries and
    however it ends, every paper with another id is found in the store
    afterwards exactly as before.  Both variants. *)
Theorem updatePaper_leaves_other_papers
    (env : Env) (id : string) (req : Request) (o other : ObjectId.t) :
  ObjectId.cast id = Some o ->
  other <> o ->
  (forall (w : World CloudFile.t) (p : Paper.t CloudFile.t),
     find (hasId o) (papers w) = Some p ->
     find (hasId other) (papers (snd (run (Cloudinary.updatePaper env id req) w)))
     = find (hasId other) (papers w))
  /\
  (forall (w : World DiskFile.t) (p : Paper.t DiskFile.t),
     find (hasId o) (papers w) = Some p ->
     find (hasId other) (papers (snd (run (LocalDisk.updatePaper env id req) w)))
     = find (hasId other) (papers w)).
Proof.
  intros Ho Hother. split; intros w p Hfind.
  - destruct (@cloudinary_updatePaper_outcome env id req o p w Ho Hfind)
      as [Hok|[Hsame _]]; [|now rewrite Hsame].
    rewrite Hok. cbn [snd papers set_papers]. apply find_upsert_other.
    rewrite (proj1 (updated_frame _ _ _ p)), (find_hasId _ _ Hfind). congruence.
  - destruct (@localDisk_updatePaper_outcome env id req o p w Ho Hfind)
      as [Hok|[Hsame _]]; [|now rewrite Hsame].
    rewrite Hok. cbn [snd papers set_papers]. apply find_upsert_other.
    rewrite (proj1 (updated_frame _ _ _ p)), (find_hasId _ _ Hfind). congruence.
Qed.

Lemma updatePaper_leaves_other_papers_witness :
  find (hasId 5)
    (papers (snd (run (LocalDisk.updatePaper Sample.later Sample.paperId Sample.addC)
                    Sample.disk)))
  = find (hasId 5) (papers Sample.disk).
Proof.
  assert (Hne : (5 : ObjectId.t) <> 1) by discriminate.
  apply (proj2 (@updatePaper_leaves_other_papers Sample.later Sample.paperId
                  Sample.addC 1 5 eq_refl Hne) Sample.disk Sample.diskPaper eq_refl).
Defined.
